(** * A closed-form continuous-time (CfC) recurrent cell

    Shallow embedding of [ncps/torch/cfc_cell.py]: the [LeCun] activation and
    the [CfCCell] class with its constructor, [init_weights],
    [change_neuromodulation_network] and [forward].

    The tensor library is an external collaborator of the cell.  Its scalar
    arithmetic and its random generator are an interface ([Backend]); tensors
    of rank 0, 1 and 2 are lists over the backend's scalars, and the library
    operations the cell calls (broadcasting arithmetic, [torch.cat],
    [F.linear], [nn.Linear], [nn.Dropout], [nn.Sequential],
    [xavier_uniform_]) are written out over them.  Python exceptions are
    values of [exn]; code that can raise and mutate runs in the monad [M]. *)

From Stdlib Require Import String Ascii List Arith Bool Lia.
From Stdlib Require Import QArith Reals Lra Qreals.
From Stdlib Require DecimalString.
Import ListNotations.

Local Open Scope string_scope.
Local Open Scope nat_scope.
Local Open Scope list_scope.

(** ** Python exceptions and the exception/state monad *)

Inductive exn : Type :=
| ValueError (msg : string)
| AssertionError (msg : string)
| RuntimeError (msg : string)
| TypeError (msg : string)
| IndexError (msg : string)
| AttributeError (msg : string)
| ZeroDivisionError (msg : string).

Inductive result (A : Type) : Type :=
| Ok (a : A)
| Raise (e : exn).
Arguments Ok {A} a.
Arguments Raise {A} e.

Definition rbind {A B} (r : result A) (k : A -> result B) : result B :=
  match r with
  | Ok a => k a
  | Raise e => Raise e
  end.

Definition rmap {A B} (f : A -> B) (r : result A) : result B :=
  rbind r (fun a => Ok (f a)).

(** A computation over a mutable state [St] that may raise: the state reached
    when the exception is raised is kept, as in Python. *)
Definition M (St A : Type) : Type := St -> result A * St.

Definition ret {St A} (a : A) : M St A := fun s => (Ok a, s).
Definition raise {St A} (e : exn) : M St A := fun s => (Raise e, s).
Definition lift {St A} (r : result A) : M St A := fun s => (r, s).
Definition bind {St A B} (m : M St A) (k : A -> M St B) : M St B :=
  fun s =>
    match m s with
    | (Ok a, s') => k a s'
    | (Raise e, s') => (Raise e, s')
    end.

(** [try: m  except: h] with a bare [except], which catches everything. *)
Definition try_except {St A} (m : M St A) (h : exn -> M St A) : M St A :=
  fun s =>
    match m s with
    | (Ok a, s') => (Ok a, s')
    | (Raise e, s') => h e s'
    end.

Declare Scope monad_scope.
Delimit Scope monad_scope with monad.
Notation "x <- m ;; k" := (bind m (fun x => k))
  (at level 61, m at next level, right associativity) : monad_scope.
Notation "'let?' x := r 'in' k" := (rbind r (fun x => k))
  (at level 61, x name, r at next level, right associativity) : monad_scope.
Local Open Scope monad_scope.

Fixpoint mapM_r {A B} (f : A -> result B) (l : list A) : result (list B) :=
  match l with
  | [] => Ok []
  | a :: l' => let? b := f a in let? bs := mapM_r f l' in Ok (b :: bs)
  end.

Fixpoint mapM {St A B} (f : A -> M St B) (l : list A) : M St (list B) :=
  match l with
  | [] => ret []
  | a :: l' => b <- f a ;; bs <- mapM f l' ;; ret (b :: bs)
  end.

Definition optM {St A} (f : A -> M St A) (o : option A) : M St (option A) :=
  match o with
  | None => ret None
  | Some a => a' <- f a ;; ret (Some a')
  end.

Fixpoint zipM_r {A B C} (f : A -> B -> result C) (a : list A) (b : list B)
  : result (list C) :=
  match a, b with
  | x :: a', y :: b' =>
      let? z := f x y in let? zs := zipM_r f a' b' in Ok (z :: zs)
  | _, _ => Ok []
  end.

(** ** The tensor backend *)

(** Scalar arithmetic and random generation as the tensor library provides
    them.  [lit] reads a decimal literal of the source, [uniform lo hi] draws
    from U(lo, hi), [bernoulli p] draws [true] with probability [p]. *)
Class Backend : Type := {
  scalar : Type;
  rng : Type;
  zero : scalar;
  one : scalar;
  lit : Q -> scalar;
  of_nat : nat -> scalar;
  sadd : scalar -> scalar -> scalar;
  ssub : scalar -> scalar -> scalar;
  smul : scalar -> scalar -> scalar;
  sdiv : scalar -> scalar -> scalar;
  sneg : scalar -> scalar;
  sabs : scalar -> scalar;
  sexp : scalar -> scalar;
  ssqrt : scalar -> scalar;
  stanh : scalar -> scalar;
  ssigmoid : scalar -> scalar;
  srelu : scalar -> scalar;
  ssilu : scalar -> scalar;
  sgelu : scalar -> scalar;
  sltb : scalar -> scalar -> bool;
  seqb : scalar -> scalar -> bool;
  uniform : scalar -> scalar -> rng -> scalar * rng;
  bernoulli : scalar -> rng -> bool * rng
}.

(** The laws of real arithmetic that the [ts = 0] property relies on. *)
Class LawfulBackend (B : Backend) : Prop := {
  smul_zero_r : forall x : scalar, smul x zero = zero;
  sadd_zero_l : forall x : scalar, sadd zero x = x
}.

(** Rows and matrices of scalars. *)
Abbreviation vector := (list scalar) (only parsing).
Abbreviation matrix := (list (list scalar)) (only parsing).

Section Model.
Context {B : Backend}.

(** *** Tensors of rank at most two *)


Inductive tensor : Type :=
| T0 (s : scalar)
| T1 (v : vector)
| T2 (m : matrix).

(** [Tensor.dim()] *)
Definition dim (t : tensor) : nat :=
  match t with
  | T0 _ => 0
  | T1 _ => 1
  | T2 _ => 2
  end.

(** A matrix of [n] rows, each of [m] entries. *)
Definition has_shape (x : matrix) (n m : nat) : Prop :=
  length x = n /\ Forall (fun r => length r = m) x.

Definition has_shapeb (x : matrix) (n m : nat) : bool :=
  (length x =? n) && forallb (fun r => length r =? m) x.

Definition tmap (f : scalar -> scalar) (t : tensor) : tensor :=
  match t with
  | T0 s => T0 (f s)
  | T1 v => T1 (map f v)
  | T2 m => T2 (map (map f) m)
  end.

Definition size_mismatch : exn :=
  RuntimeError "The size of tensor a must match the size of tensor b".

(** Broadcasting along one axis: equal lengths pair up, a length of one is
    repeated, anything else is a size mismatch. *)
Definition bcast {A C} (f : A -> A -> result C) (a b : list A)
  : result (list C) :=
  if length a =? length b then zipM_r f a b
  else
    match a, b with
    | [x], _ => mapM_r (fun y => f x y) b
    | _, [y] => mapM_r (fun x => f x y) a
    | _, _ => Raise size_mismatch
    end.

Definition bcast1 (f : scalar -> scalar -> scalar) (u v : vector)
  : result vector :=
  bcast (fun a b => Ok (f a b)) u v.

Definition bcast2 (f : scalar -> scalar -> scalar) (x y : matrix)
  : result matrix :=
  bcast (bcast1 f) x y.

(** An element-wise binary operation with broadcasting; a Python number is a
    rank-0 operand, a rank-1 operand is aligned with the last axis. *)
Definition tbin (f : scalar -> scalar -> scalar) (a b : tensor)
  : result tensor :=
  match a, b with
  | T0 s, T0 t => Ok (T0 (f s t))
  | T0 s, T1 v => Ok (T1 (map (f s) v))
  | T0 s, T2 y => Ok (T2 (map (map (f s)) y))
  | T1 u, T0 t => Ok (T1 (map (fun e => f e t) u))
  | T1 u, T1 v => rmap T1 (bcast1 f u v)
  | T1 u, T2 y => rmap T2 (bcast2 f [u] y)
  | T2 x, T0 t => Ok (T2 (map (map (fun e => f e t)) x))
  | T2 x, T1 v => rmap T2 (bcast2 f x [v])
  | T2 x, T2 y => rmap T2 (bcast2 f x y)
  end.

Definition tadd : tensor -> tensor -> result tensor := tbin sadd.
Definition tsub : tensor -> tensor -> result tensor := tbin ssub.
Definition tmul : tensor -> tensor -> result tensor := tbin smul.
Definition tdiv : tensor -> tensor -> result tensor := tbin sdiv.
Definition tneg : tensor -> tensor := tmap sneg.
Definition torch_abs : tensor -> tensor := tmap sabs.
Definition torch_exp : tensor -> tensor := tmap sexp.

(** [torch.cat([a, b], 1)] *)
Definition torch_cat1 (a b : tensor) : result tensor :=
  match a, b with
  | T2 x, T2 y =>
      if length x =? length y
      then Ok (T2 (map (fun p => fst p ++ snd p) (combine x y)))
      else Raise (RuntimeError "Sizes of tensors must match except in dimension 1")
  | _, _ => Raise (IndexError "Dimension out of range")
  end.

Definition dot (r w : vector) : result scalar :=
  if length r =? length w
  then Ok (fold_right sadd zero (map (fun p => smul (fst p) (snd p)) (combine r w)))
  else Raise (RuntimeError "mat1 and mat2 shapes cannot be multiplied").

(** [F.linear(x, weight, bias)]: [x @ weight.T + bias], with [weight] of
    shape (out, in) and [bias] of shape (out). *)
Definition F_linear (x weight bias : tensor) : result tensor :=
  match x, weight, bias with
  | T2 x, T2 w, T1 b =>
      let? y := mapM_r (fun r => mapM_r (dot r) w) x in
      rmap T2 (bcast2 sadd y [b])
  | _, _, _ => Raise (TypeError "linear(): incompatible arguments")
  end.

(** [numpy.ndarray.T] of a two-dimensional array. *)
Definition transpose (m : matrix) : matrix :=
  match m with
  | [] => []
  | r :: _ => map (fun j => map (fun row => nth j row zero) m) (seq 0 (length r))
  end.

(** *** Parameters and modules *)

(** [torch.nn.Parameter] *)
Record nn_Parameter : Type := {
  data : tensor;
  requires_grad : bool
}.

Inductive act_kind : Type := SiLU | ReLU | Tanh | GELU | LeCun.

(** [LeCun.forward] *)
Definition LeCun_forward (x : scalar) : scalar :=
  smul (lit (17159 # 10000)) (stanh (smul (lit (666 # 1000)) x)).

Definition act_fn (k : act_kind) : scalar -> scalar :=
  match k with
  | SiLU => ssilu
  | ReLU => srelu
  | Tanh => stanh
  | GELU => sgelu
  | LeCun => LeCun_forward
  end.

(** [nn.Linear] *)
Record Linear : Type := {
  weight : nn_Parameter;
  bias : nn_Parameter
}.

(** The layers the cell puts in an [nn.Sequential].  A [Dropout] layer
    carries the [training] flag of [nn.Module], set at construction. *)
Inductive Module_ : Type :=
| LinearLayer (l : Linear)
| Activation (k : act_kind)
| Dropout (p : scalar) (training : bool).

Definition Sequential : Type := list Module_.

Definition draw_uniform (lo hi : scalar) : M rng scalar :=
  fun g => let (x, g') := uniform lo hi g in (Ok x, g').

Definition draw_bernoulli (p : scalar) : M rng bool :=
  fun g => let (b, g') := bernoulli p g in (Ok b, g').

(** [Tensor.uniform_(lo, hi)] on a fresh tensor, in row-major order. *)
Definition uniform_vector (n : nat) (lo hi : scalar) : M rng vector :=
  mapM (fun _ : unit => draw_uniform lo hi) (repeat tt n).

Definition uniform_matrix (rows cols : nat) (lo hi : scalar) : M rng matrix :=
  mapM (fun _ : unit => uniform_vector cols lo hi) (repeat tt rows).

(** [torch.rand((rows, cols))] *)
Definition torch_rand (rows cols : nat) : M rng tensor :=
  m <- uniform_matrix rows cols zero one ;; ret (T2 m).

(** [nn.Linear(in_features, out_features)]: both parameters are trainable and
    drawn by [reset_parameters] from U(-1/sqrt(in), 1/sqrt(in)). *)
Definition nn_Linear (in_features out_features : nat) : M rng Linear :=
  let bound :=
    if in_features =? 0 then zero else sdiv one (ssqrt (of_nat in_features)) in
  w <- uniform_matrix out_features in_features (sneg bound) bound ;;
  b <- uniform_vector out_features (sneg bound) bound ;;
  ret {| weight := {| data := T2 w; requires_grad := true |};
         bias := {| data := T1 b; requires_grad := true |} |}.

(** [nn.Dropout(p)] *)
Definition nn_Dropout (p : scalar) : M rng Module_ :=
  if sltb p zero || sltb one p
  then raise (ValueError "dropout probability has to be between 0 and 1")
  else ret (Dropout p true).

Definition dropout_elem (p x : scalar) : M rng scalar :=
  keep <- draw_bernoulli (ssub one p) ;;
  ret (smul x (sdiv (if keep then one else zero) (ssub one p))).

(** [F.dropout(x, p, training)] *)
Definition F_dropout (x : tensor) (p : scalar) (training : bool)
  : M rng tensor :=
  if negb training || seqb p zero then ret x
  else if seqb p one then ret (tmap (fun e => smul e zero) x)
  else
    match x with
    | T0 s => s' <- dropout_elem p s ;; ret (T0 s')
    | T1 v => v' <- mapM (dropout_elem p) v ;; ret (T1 v')
    | T2 m => m' <- mapM (mapM (dropout_elem p)) m ;; ret (T2 m')
    end.

Definition Module_call (m : Module_) (x : tensor) : M rng tensor :=
  match m with
  | LinearLayer l => lift (F_linear x (data (weight l)) (data (bias l)))
  | Activation k => ret (tmap (act_fn k) x)
  | Dropout p training => F_dropout x p training
  end.

(** [nn.Sequential.forward] *)
Fixpoint Sequential_call (layers : Sequential) (x : tensor) : M rng tensor :=
  match layers with
  | [] => ret x
  | m :: rest => y <- Module_call m x ;; Sequential_call rest y
  end.

(** [torch.nn.init.xavier_uniform_(w)] with the default gain of 1: the
    entries are drawn from U(-a, a), [a = sqrt(3) * sqrt(2 / (fan_in +
    fan_out))], and the division raises when both fans are 0.  A matrix
    without rows carries no column count here, so its fan-in counts as 0;
    the model is exact on matrices with at least one row. *)
Definition xavier_uniform_ (w : nn_Parameter) : M rng nn_Parameter :=
  match data w with
  | T2 m =>
      let fan_out := length m in
      let fan_in := length (hd [] m) in
      if fan_in + fan_out =? 0
      then raise (ZeroDivisionError "float division by zero")
      else
        let std := smul one (ssqrt (sdiv (lit (2 # 1)) (of_nat (fan_in + fan_out)))) in
        let a := smul (ssqrt (lit (3 # 1))) std in
        m' <- uniform_matrix fan_out fan_in (sneg a) a ;;
        ret {| data := T2 m'; requires_grad := requires_grad w |}
  | _ =>
      raise (ValueError
        "Fan in and fan out can not be computed for tensor with fewer than 2 dimensions")
  end.

(** *** The cell *)

(** The attributes of a [CfCCell] object.  An attribute that the constructor
    creates in some modes only is [None] where it does not exist. *)
Record CfCCell : Type := {
  input_size : nat;
  hidden_size : nat;
  sparsity_mask : option nn_Parameter;
  mode : string;
  neuromod_network_dims : option (list nat);
  backbone : option Sequential;
  backbone_layers : nat;
  ff1 : Linear;
  w_tau : option nn_Parameter;
  A : option nn_Parameter;
  neuromod : option Sequential;
  ff2 : option Linear;
  time_a : option Linear;
  time_b : option Linear;
  tau_system : nn_Parameter
}.

Definition set_tau_system_data (c : CfCCell) (t : tensor) : CfCCell :=
  {| input_size := input_size c; hidden_size := hidden_size c;
     sparsity_mask := sparsity_mask c; mode := mode c;
     neuromod_network_dims := neuromod_network_dims c;
     backbone := backbone c; backbone_layers := backbone_layers c;
     ff1 := ff1 c; w_tau := w_tau c; A := A c; neuromod := neuromod c;
     ff2 := ff2 c; time_a := time_a c; time_b := time_b c;
     tau_system := {| data := t; requires_grad := requires_grad (tau_system c) |} |}.

Definition set_neuromod (c : CfCCell) (network : Sequential) : CfCCell :=
  {| input_size := input_size c; hidden_size := hidden_size c;
     sparsity_mask := sparsity_mask c; mode := mode c;
     neuromod_network_dims := neuromod_network_dims c;
     backbone := backbone c; backbone_layers := backbone_layers c;
     ff1 := ff1 c; w_tau := w_tau c; A := A c; neuromod := Some network;
     ff2 := ff2 c; time_a := time_a c; time_b := time_b c;
     tau_system := tau_system c |}.


(** Reading an attribute that may not exist. *)
Definition attr {T} (name : string) (o : option T) : result T :=
  match o with
  | Some v => Ok v
  | None =>
      Raise (AttributeError
               ("'CfCCell' object has no attribute '" ++ name ++ "'")%string)
  end.

(** *** [CfCCell.__init__] *)

Definition allowed_modes : list string :=
  ["default"; "pure"; "no_gate"; "neuromodulated"].

Definition unknown_mode_msg (mode : string) : string :=
  ("Unknown mode '" ++ mode ++
   "', valid options are ['default', 'pure', 'no_gate', 'neuromodulated']")%string.

Definition dims_not_set_msg : string :=
  "Neuromodulation network dimensions must be set".

Definition last_layer_msg : string :=
  "Last layer of neuromodulation network must have the same size as the hidden state".

(** The chain of [if]/[elif] that maps the activation keyword to a class. *)
Definition select_activation {St} (backbone_activation : string)
  : M St act_kind :=
  if (backbone_activation =? "silu")%string then ret SiLU
  else if (backbone_activation =? "relu")%string then ret ReLU
  else if (backbone_activation =? "tanh")%string then ret Tanh
  else if (backbone_activation =? "gelu")%string then ret GELU
  else if (backbone_activation =? "lecun_tanh")%string then ret LeCun
  else raise (ValueError ("Unknown activation " ++ backbone_activation)%string).

(** The body of [for i in range(1, backbone_layers)], run [n] times. *)
Fixpoint backbone_blocks (n : nat) (act : act_kind) (backbone_units : nat)
  (backbone_dropout : scalar) : M rng (list Module_) :=
  match n with
  | 0 => ret []
  | S n' =>
      l <- nn_Linear backbone_units backbone_units ;;
      d <- (if sltb zero backbone_dropout
            then (m <- nn_Dropout backbone_dropout ;; ret [m])
            else ret []) ;;
      rest <- backbone_blocks n' act backbone_units backbone_dropout ;;
      ret (LinearLayer l :: Activation act :: d ++ rest)
  end.

(** [for i in range(len(dims) - 1)]: a linear layer and an activation for
    every pair of consecutive dimensions. *)
Fixpoint neuromod_layers (act : act_kind) (dims : list nat)
  : M rng (list Module_) :=
  match dims with
  | d0 :: ((d1 :: _) as tl) =>
      l <- nn_Linear d0 d1 ;;
      rest <- neuromod_layers act tl ;;
      ret (LinearLayer l :: Activation act :: rest)
  | _ => ret []
  end.

(** [CfCCell.init_weights]: [self.parameters()] yields the cell's own
    parameters in the order they were registered, then those of its
    sub-modules. *)
Definition init_param (w : nn_Parameter) : M rng nn_Parameter :=
  if (dim (data w) =? 2) && requires_grad w then xavier_uniform_ w else ret w.

Definition init_Linear (l : Linear) : M rng Linear :=
  w <- init_param (weight l) ;;
  b <- init_param (bias l) ;;
  ret {| weight := w; bias := b |}.

Definition init_Module (m : Module_) : M rng Module_ :=
  match m with
  | LinearLayer l => l' <- init_Linear l ;; ret (LinearLayer l')
  | other => ret other
  end.

Definition init_weights (self : CfCCell) : M rng CfCCell :=
  mask <- optM init_param (sparsity_mask self) ;;
  wt <- optM init_param (w_tau self) ;;
  a <- optM init_param (A self) ;;
  tau <- init_param (tau_system self) ;;
  bb <- optM (mapM init_Module) (backbone self) ;;
  f1 <- init_Linear (ff1 self) ;;
  nm <- optM (mapM init_Module) (neuromod self) ;;
  f2 <- optM init_Linear (ff2 self) ;;
  ta <- optM init_Linear (time_a self) ;;
  tb <- optM init_Linear (time_b self) ;;
  ret {| input_size := input_size self; hidden_size := hidden_size self;
         sparsity_mask := mask; mode := mode self;
         neuromod_network_dims := neuromod_network_dims self;
         backbone := bb; backbone_layers := backbone_layers self;
         ff1 := f1; w_tau := wt; A := a; neuromod := nm;
         ff2 := f2; time_a := ta; time_b := tb; tau_system := tau |}.

(** [torch.nn.Parameter(data=torch.zeros(1, hidden_size), requires_grad=True)]
    and the same with [torch.ones]: what the constructor assigns to [w_tau]
    and [A]. *)
Definition zeros_param (hidden_size : nat) : nn_Parameter :=
  {| data := T2 [repeat zero hidden_size]; requires_grad := true |}.

Definition ones_param (hidden_size : nat) : nn_Parameter :=
  {| data := T2 [repeat one hidden_size]; requires_grad := true |}.

(** [torch.nn.Parameter(data=torch.from_numpy(np.abs(sparsity_mask.T)),
    requires_grad=False)] *)
Definition mask_param (sparsity_mask : matrix) : nn_Parameter :=
  {| data := T2 (map (map sabs) (transpose sparsity_mask));
     requires_grad := false |}.

(** [self.backbone], lines 101 to 113 of the source. *)
Definition build_backbone (input_size hidden_size : nat) (act : act_kind)
  (backbone_units backbone_layers : nat) (backbone_dropout : scalar)
  : M rng (option Sequential) :=
  if 0 <? backbone_layers
  then
    l <- nn_Linear (input_size + hidden_size) backbone_units ;;
    rest <- backbone_blocks (backbone_layers - 1) act backbone_units
              backbone_dropout ;;
    ret (Some (LinearLayer l :: Activation act :: rest))
  else ret None.

(** The attributes of the head, which depend on the mode (lines 121 to 141):
    [w_tau], [A] and [neuromod], or [ff2], [time_a] and [time_b]. *)
Definition build_head (mode : string) (hidden_size cat_shape : nat)
  (neuromod_network_dims : option (list nat))
  (neuromod_network_activation : act_kind)
  : M rng (option nn_Parameter * option nn_Parameter * option Sequential
           * option Linear * option Linear * option Linear) :=
  if (mode =? "pure")%string || (mode =? "neuromodulated")%string
  then
    let wt := zeros_param hidden_size in
    let a := ones_param hidden_size in
    nm <- (if (mode =? "neuromodulated")%string
           then
             match neuromod_network_dims with
             | None => raise (AssertionError dims_not_set_msg)
             | Some dims =>
                 match dims with
                 | [] => raise (IndexError "list index out of range")
                 | _ :: _ =>
                     if negb (last dims 0 =? hidden_size)
                     then raise (AssertionError last_layer_msg)
                     else
                       layers <- neuromod_layers
                                   neuromod_network_activation dims ;;
                       ret (Some layers)
                 end
             end
           else ret None) ;;
    ret (Some wt, Some a, nm, None, None, None)
  else
    f2 <- nn_Linear cat_shape hidden_size ;;
    ta <- nn_Linear cat_shape hidden_size ;;
    tb <- nn_Linear cat_shape hidden_size ;;
    ret (None, None, None, Some f2, Some ta, Some tb).

(** The body of [CfCCell.__init__] up to the final call of
    [self.init_weights()]. *)
Definition CfCCell_attributes
  (input_size hidden_size : nat)
  (mode backbone_activation : string)
  (backbone_units backbone_layers : nat)
  (backbone_dropout : scalar)
  (sparsity_mask : option matrix)
  (neuromod_network_dims : option (list nat))
  (neuromod_network_activation : act_kind) : M rng CfCCell :=
  if negb (existsb (String.eqb mode) allowed_modes)
  then raise (ValueError (unknown_mode_msg mode))
  else
    let mask := option_map mask_param sparsity_mask in
    act <- select_activation backbone_activation ;;
    bb <- build_backbone input_size hidden_size act backbone_units
            backbone_layers backbone_dropout ;;
    let cat_shape :=
      if backbone_layers =? 0 then hidden_size + input_size
      else backbone_units in
    f1 <- nn_Linear cat_shape hidden_size ;;
    head <- build_head mode hidden_size cat_shape neuromod_network_dims
              neuromod_network_activation ;;
    let '(wt, a, nm, f2, ta, tb) := head in
    ret {| input_size := input_size; hidden_size := hidden_size;
           sparsity_mask := mask; mode := mode;
           neuromod_network_dims := neuromod_network_dims;
           backbone := bb; backbone_layers := backbone_layers;
           ff1 := f1; w_tau := wt; A := a; neuromod := nm;
           ff2 := f2; time_a := ta; time_b := tb;
           tau_system := {| data := T1 (repeat one hidden_size);
                            requires_grad := false |} |}.

(** [CfCCell.__init__] *)
Definition CfCCell_init
  (input_size hidden_size : nat)
  (mode backbone_activation : string)
  (backbone_units backbone_layers : nat)
  (backbone_dropout : scalar)
  (sparsity_mask : option matrix)
  (neuromod_network_dims : option (list nat))
  (neuromod_network_activation : act_kind) : M rng CfCCell :=
  self <- CfCCell_attributes input_size hidden_size mode backbone_activation
            backbone_units backbone_layers backbone_dropout sparsity_mask
            neuromod_network_dims neuromod_network_activation ;;
  init_weights self.

(** *** Methods: the cell object and the global generator as state *)

Record world : Type := {
  self : CfCCell;
  gen : rng
}.

Definition get_self : M world CfCCell := fun w => (Ok (self w), w).

(** A library call that uses the global random generator only. *)
Definition with_gen {T} (m : M rng T) : M world T :=
  fun w => let (r, g') := m (gen w) in (r, {| self := self w; gen := g' |}).

(** [self.tau_system.data = t] *)
Definition assign_tau_system_data (t : tensor) : M world unit :=
  fun w => (Ok tt, {| self := set_tau_system_data (self w) t; gen := gen w |}).

(** [self.neuromod = network] *)
Definition assign_neuromod (network : Sequential) : M world unit :=
  fun w => (Ok tt, {| self := set_neuromod (self w) network; gen := gen w |}).

Definition not_neuromodulated_msg : string :=
  "Neuromodulation network can only be set in neuromodulated mode".

Definition wrong_output_size_msg : string :=
  "Neuromodulation network doesn't have correct output size".

Definition wrong_input_size_msg (correct_input_size : nat) : string :=
  ("New neuromodulation network doesn't have correct input size of " ++
   DecimalString.NilEmpty.string_of_uint (Nat.to_uint correct_input_size))%string.

Definition not_tuple_msg : string :=
  "Input must be a tuple (policy_input, neuromod_input)".

(** [t.shape[1]] *)
Definition shape1 {St} (t : tensor) : M St nat :=
  match t with
  | T2 m => ret (length (hd [] m))
  | _ => raise (IndexError "tuple index out of range")
  end.

(** [dims[0]] and [dims[-1]] of an attribute that may be [None]. *)
Definition dims_first {St} (dims : option (list nat)) : M St nat :=
  match dims with
  | None => raise (TypeError "'NoneType' object is not subscriptable")
  | Some [] => raise (IndexError "list index out of range")
  | Some (d :: _) => ret d
  end.

Definition dims_last {St} (dims : option (list nat)) : M St nat :=
  match dims with
  | None => raise (TypeError "'NoneType' object is not subscriptable")
  | Some [] => raise (IndexError "list index out of range")
  | Some (d :: l) => ret (last (d :: l) 0)
  end.

(** [CfCCell.change_neuromodulation_network] *)
Definition change_neuromodulation_network (network : Sequential)
  : M world unit :=
  c <- get_self ;;
  if negb (mode c =? "neuromodulated")%string
  then raise (AssertionError not_neuromodulated_msg)
  else
    correct_input_size <- dims_first (neuromod_network_dims c) ;;
    input_tensor <- with_gen (torch_rand 1 correct_input_size) ;;
    _ <- try_except
           (output <- with_gen (Sequential_call network input_tensor) ;;
            width <- shape1 output ;;
            expected <- dims_last (neuromod_network_dims c) ;;
            if width =? expected then ret tt
            else raise (AssertionError wrong_output_size_msg))
           (fun _ => raise (ValueError (wrong_input_size_msg correct_input_size))) ;;
    assign_neuromod network.

(** The [input] argument of [forward]: a tensor, or a pair of tensors. *)
Inductive py_input : Type :=
| Tensor (t : tensor)
| Tuple (policy_input neuromod_input : tensor).

(** [self.ff1(x)], or [F.linear] with the masked weight when a mask is set
    (lines 192 to 195, and 226 to 229 for [ff2]). *)
Definition masked_linear (mask : option nn_Parameter) (l : Linear) (x : tensor)
  : result tensor :=
  match mask with
  | Some m =>
      let? w := tmul (data (weight l)) (data m) in
      F_linear x w (data (bias l))
  | None => F_linear x (data (weight l)) (data (bias l))
  end.

Definition Linear_call (l : Linear) (x : tensor) : result tensor :=
  F_linear x (data (weight l)) (data (bias l)).

(** [-A * torch.exp(-ts * (torch.abs(w_tau) + torch.abs(signal))) * ff1 + A]
    (lines 199 to 204 with [signal = ff1], lines 213 to 218 with
    [signal = neuromod_signal]), the attributes read in the order Python
    evaluates them. *)
Definition closed_form (c : CfCCell) (ts signal ff1 : tensor) : result tensor :=
  let? a := attr "A" (A c) in
  let? wt := attr "w_tau" (w_tau c) in
  let? decay := tadd (torch_abs (data wt)) (torch_abs signal) in
  let? e := tmul (tneg ts) decay in
  let? p := tmul (tneg (data a)) (torch_exp e) in
  let? q := tmul p ff1 in
  let? a' := attr "A" (A c) in
  tadd q (data a').

(** [1.0 / (torch.abs(w_tau) + torch.abs(signal))] (lines 209 and 223). *)
Definition tau_of (c : CfCCell) (signal : tensor) : result tensor :=
  let? wt := attr "w_tau" (w_tau c) in
  let? decay := tadd (torch_abs (data wt)) (torch_abs signal) in
  tdiv (T0 (lit (1 # 1))) decay.

(** Lines 182 to 187: [torch.cat([input[0], hx], 1)] in mode
    "neuromodulated", after the assertion that [input] is a tuple;
    [torch.cat([input, hx], 1)] otherwise. *)
Definition concat_input (c : CfCCell) (input : py_input) (hx : tensor)
  : result tensor :=
  if (mode c =? "neuromodulated")%string
  then
    match input with
    | Tuple input0 _ => torch_cat1 input0 hx
    | Tensor _ => Raise (AssertionError not_tuple_msg)
    end
  else
    match input with
    | Tensor t => torch_cat1 t hx
    | Tuple _ _ =>
        Raise (TypeError "expected Tensor as element 0 in argument 0, but got tuple")
    end.

(** Lines 189 and 190: [self.backbone(x)] when [self.backbone_layers > 0]. *)
Definition apply_backbone (c : CfCCell) (x : tensor) : M rng tensor :=
  if 0 <? backbone_layers c
  then
    match backbone c with
    | Some bb => Sequential_call bb x
    | None => raise (TypeError "'NoneType' object is not callable")
    end
  else ret x.

(** Line 211: [self.neuromod(input[1])]. *)
Definition neuromod_call (c : CfCCell) (input : py_input) : M rng tensor :=
  nm <- lift (attr "neuromod" (neuromod c)) ;;
  match input with
  | Tuple _ input1 => Sequential_call nm input1
  | Tensor _ => raise (AssertionError not_tuple_msg)
  end.

(** Lines 225 to 238: the [else] branch of [forward], taken in modes
    "default" and "no_gate". *)
Definition gated (c : CfCCell) (ts x ff1 : tensor) : result tensor :=
  let? l2 := attr "ff2" (ff2 c) in
  let? ff2 := masked_linear (sparsity_mask c) l2 x in
  let ff1 := tmap stanh ff1 in
  let ff2 := tmap stanh ff2 in
  let? la := attr "time_a" (time_a c) in
  let? t_a := Linear_call la x in
  let? lb := attr "time_b" (time_b c) in
  let? t_b := Linear_call lb x in
  let? u := tmul t_a ts in
  let? s := tadd u t_b in
  let t_interp := tmap ssigmoid s in
  if (mode c =? "no_gate")%string
  then
    let? g := tmul t_interp ff2 in
    tadd ff1 g
  else
    let? k := tsub (T0 (lit (1 # 1))) t_interp in
    let? l := tmul ff1 k in
    let? r := tmul t_interp ff2 in
    tadd l r.

(** [CfCCell.forward] *)
Definition forward (input : py_input) (hx ts : tensor)
  : M world (tensor * tensor) :=
  c <- get_self ;;
  x <- lift (concat_input c input hx) ;;
  x <- with_gen (apply_backbone c x) ;;
  ff1 <- lift (masked_linear (sparsity_mask c) (ff1 c) x) ;;
  new_hidden <-
    (if (mode c =? "pure")%string
     then
       new_hidden <- lift (closed_form c ts ff1 ff1) ;;
       tau <- lift (tau_of c ff1) ;;
       _ <- assign_tau_system_data tau ;;
       ret new_hidden
     else if (mode c =? "neuromodulated")%string
     then
       neuromod_signal <- with_gen (neuromod_call c input) ;;
       new_hidden <- lift (closed_form c ts neuromod_signal ff1) ;;
       tau <- lift (tau_of c neuromod_signal) ;;
       _ <- assign_tau_system_data tau ;;
       ret new_hidden
     else lift (gated c ts x ff1)) ;;
  ret (new_hidden, new_hidden).

(** The value [forward] computes and the tensor it stores in [tau_system],
    as a function of the cell's attributes and the generator alone. *)
Definition forward_value (c : CfCCell) (input : py_input) (hx ts : tensor)
  : M rng (tensor * option tensor) :=
  x <- lift (concat_input c input hx) ;;
  x <- apply_backbone c x ;;
  ff1 <- lift (masked_linear (sparsity_mask c) (ff1 c) x) ;;
  if (mode c =? "pure")%string
  then
    new_hidden <- lift (closed_form c ts ff1 ff1) ;;
    tau <- lift (tau_of c ff1) ;;
    ret (new_hidden, Some tau)
  else if (mode c =? "neuromodulated")%string
  then
    neuromod_signal <- neuromod_call c input ;;
    new_hidden <- lift (closed_form c ts neuromod_signal ff1) ;;
    tau <- lift (tau_of c neuromod_signal) ;;
    ret (new_hidden, Some tau)
  else
    new_hidden <- lift (gated c ts x ff1) ;;
    ret (new_hidden, None).

(** *** Well-formed cells and well-shaped arguments *)

Definition is_matb (t : tensor) (n m : nat) : bool :=
  match t with
  | T2 x => has_shapeb x n m
  | _ => false
  end.

(** A linear layer from [n_in] to [n_out] features. *)
Definition Linear_wfb (l : Linear) (n_in n_out : nat) : bool :=
  match data (weight l), data (bias l) with
  | T2 w, T1 b => has_shapeb w n_out n_in && (length b =? n_out)
  | _, _ => false
  end.

(** The output width of a stack of layers on inputs of width [w], when the
    layers fit one another. *)
Fixpoint seq_width (layers : Sequential) (w : nat) : option nat :=
  match layers with
  | [] => Some w
  | LinearLayer l :: rest =>
      match data (bias l) with
      | T1 b => if Linear_wfb l w (length b) then seq_width rest (length b) else None
      | _ => None
      end
  | _ :: rest => seq_width rest w
  end.

(** The width of the features the heads read ([cat_shape] in the
    constructor). *)
Definition feature_width (c : CfCCell) : option nat :=
  if 0 <? backbone_layers c
  then
    match backbone c with
    | Some bb => seq_width bb (input_size c + hidden_size c)
    | None => None
    end
  else Some (input_size c + hidden_size c).

Definition tau_head_wfb (c : CfCCell) : bool :=
  match w_tau c, A c with
  | Some wt, Some a =>
      is_matb (data wt) 1 (hidden_size c) && is_matb (data a) 1 (hidden_size c)
  | _, _ => false
  end.

Definition neuromod_wfb (c : CfCCell) : bool :=
  match neuromod_network_dims c, neuromod c with
  | Some (d0 :: dims), Some nm =>
      match seq_width nm d0 with
      | Some k => (k =? hidden_size c) && (last (d0 :: dims) 0 =? hidden_size c)
      | None => false
      end
  | _, _ => false
  end.

Definition gate_head_wfb (c : CfCCell) (k : nat) : bool :=
  match ff2 c, time_a c, time_b c with
  | Some l2, Some la, Some lb =>
      Linear_wfb l2 k (hidden_size c) && Linear_wfb la k (hidden_size c)
      && Linear_wfb lb k (hidden_size c)
  | _, _, _ => false
  end.

(** The shapes the constructor gives the layers and the parameters of the
    heads. *)
Definition heads_wfb (c : CfCCell) : bool :=
  match feature_width c with
  | None => false
  | Some k =>
      Linear_wfb (ff1 c) k (hidden_size c)
      && (if (mode c =? "pure")%string then tau_head_wfb c
          else if (mode c =? "neuromodulated")%string
               then tau_head_wfb c && neuromod_wfb c
               else gate_head_wfb c k)
  end.

(** The stored mask, when there is one, has the shape of a head's weight. *)
Definition mask_wfb (c : CfCCell) : bool :=
  match sparsity_mask c with
  | None => true
  | Some m =>
      match feature_width c with
      | Some k => is_matb (data m) (hidden_size c) k
      | None => false
      end
  end.

Definition cell_wfb (c : CfCCell) : bool := heads_wfb c && mask_wfb c.

(** [ts] is a number, or a tensor that broadcasts to (batch, hidden). *)
Definition ts_okb (ts : tensor) (batch hidden : nat) : bool :=
  match ts with
  | T0 _ => true
  | T1 v => (length v =? 1) || (length v =? hidden)
  | T2 x =>
      (has_shapeb x 1 1 || has_shapeb x 1 hidden)
      || (has_shapeb x batch 1 || has_shapeb x batch hidden)
  end.

(** [input] is what the mode expects, with [batch] rows. *)
Definition input_okb (c : CfCCell) (input : py_input) (batch : nat) : bool :=
  if (mode c =? "neuromodulated")%string
  then
    match input, neuromod_network_dims c with
    | Tuple input0 input1, Some (d0 :: _) =>
        is_matb input0 batch (input_size c) && is_matb input1 batch d0
    | _, _ => false
    end
  else
    match input with
    | Tensor t => is_matb t batch (input_size c)
    | Tuple _ _ => false
    end.

(** A layer that draws from the generator when it is called. *)
Definition stochastic (m : Module_) : bool :=
  match m with
  | Dropout p training => training && negb (seqb p zero) && negb (seqb p one)
  | _ => false
  end.

Definition deterministic_net (o : option Sequential) : bool :=
  match o with
  | None => true
  | Some layers => forallb (fun m => negb (stochastic m)) layers
  end.

Definition is_mat (t : tensor) (n m : nat) : Prop := is_matb t n m = true.

Definition ts_ok (ts : tensor) (n m : nat) : Prop := ts_okb ts n m = true.

Definition Linear_wf (l : Linear) (k o : nat) : Prop := Linear_wfb l k o = true.

Definition mask_wf (mask : option nn_Parameter) (k o : nat) : Prop :=
  match mask with
  | None => True
  | Some m => is_mat (data m) o k
  end.

Definition cell_wf (c : CfCCell) : Prop := cell_wfb c = true.

(** Two sizes broadcast when they agree or one of them is 1; [bdim] is the
    size of the result. *)
Definition compat (n m : nat) : Prop := n = m \/ n = 1 \/ m = 1.

Definition bdim (n m : nat) : nat := if n =? 1 then m else n.

(** Every linear layer of the stack has at least one output feature. *)
Definition seq_posb (layers : Sequential) : bool :=
  forallb
    (fun m =>
       match m with
       | LinearLayer l =>
           match data (weight l) with
           | T2 (_ :: _) => true
           | _ => false
           end
       | _ => true
       end)
    layers.

(** What else holds of the attributes when [init_weights] is called: the
    buffer is a vector, the mask is not trainable, and the attributes of the
    other modes do not exist. *)
Definition cell_fresh (c : CfCCell) : Prop :=
  0 < hidden_size c
  /\ (exists v, data (tau_system c) = T1 v)
  /\ match sparsity_mask c with
     | Some m => requires_grad m = false
     | None => True
     end
  /\ (if 0 <? backbone_layers c
      then match backbone c with
           | Some bb => seq_posb bb = true
           | None => False
           end
      else backbone c = None)
  /\ (if (mode c =? "pure")%string
      then neuromod c = None /\ ff2 c = None /\ time_a c = None
           /\ time_b c = None
      else if (mode c =? "neuromodulated")%string
           then match neuromod c with
                | Some nm => seq_posb nm = true
                | None => False
                end
                /\ ff2 c = None /\ time_a c = None /\ time_b c = None
           else w_tau c = None /\ A c = None /\ neuromod c = None).

(** *** Arguments the constructor accepts *)

Definition activations : list string :=
  ["silu"; "relu"; "tanh"; "gelu"; "lecun_tanh"].

(** No dropout layer is requested, or the probability is in [0, 1]. *)
Definition dropout_valid (p : scalar) : bool :=
  negb (sltb zero p) || negb (sltb p zero || sltb one p).

Definition neuromod_dims_valid (mode : string) (hidden_size : nat)
  (dims : option (list nat)) : bool :=
  if (mode =? "neuromodulated")%string
  then
    match dims with
    | Some (d0 :: ds) =>
        (last (d0 :: ds) 0 =? hidden_size) && forallb (fun d => 0 <? d) ds
    | _ => false
    end
  else true.

(** A known mode and activation, positive layer sizes, a dropout
    probability that [nn.Dropout] accepts and, in mode "neuromodulated",
    dimensions that end in [hidden_size]. *)
Definition valid_args (hidden_size : nat) (mode backbone_activation : string)
  (backbone_units backbone_layers : nat) (backbone_dropout : scalar)
  (neuromod_network_dims : option (list nat)) : bool :=
  existsb (String.eqb mode) allowed_modes
  && existsb (String.eqb backbone_activation) activations
  && (0 <? hidden_size)
  && ((backbone_layers =? 0) || (0 <? backbone_units))
  && ((backbone_layers <=? 1) || dropout_valid backbone_dropout)
  && neuromod_dims_valid mode hidden_size neuromod_network_dims.

(** *** The error taxonomy of the specification

    The specification names three kinds of failure.  A [ValueError] of the
    cell reports a bad configuration; an assertion is classified by the
    check it belongs to. *)

Inductive spec_error : Type :=
| InvalidConfiguration
| InvalidInput
| InvalidOperation.

Definition spec_category (e : exn) : option spec_error :=
  match e with
  | ValueError _ => Some InvalidConfiguration
  | AssertionError msg =>
      if ((msg =? dims_not_set_msg) || (msg =? last_layer_msg))%string
      then Some InvalidConfiguration
      else if (msg =? not_tuple_msg)%string then Some InvalidInput
      else if (msg =? not_neuromodulated_msg)%string then Some InvalidOperation
      else None
  | _ => None
  end.

(** *** The update rules as the specification words them *)






(** The entry of a matrix at row [i] and column [j]. *)
Definition entry (x : matrix) (i j : nat) : scalar :=
  nth j (nth i x []) zero.






End Model.

(** ** A backend over the real numbers

    Scalars are real numbers, with the usual exponential, hyperbolic tangent
    and logistic function; GELU is [x * Phi(x)] with the Gaussian integral
    taken as a Riemann integral.  The generator is a stream of variates of
    U(0, 1) and a position in it. *)

Module RealBackend.

Local Open Scope R_scope.

Definition gauss (t : R) : R := exp (- (t * t)).

Lemma gauss_continuity : continuity gauss.
Proof.
  unfold gauss.
  apply (continuity_comp (fun t => - (t * t)) exp).
  - apply continuity_opp. apply continuity_mult; apply derivable_continuous, derivable_id.
  - apply derivable_continuous, derivable_exp.
Qed.

Definition gauss_integral (x : R) (Hx : 0 <= x) : R :=
  RiemannInt
    (continuity_implies_RiemannInt Hx (fun t _ => gauss_continuity t)).

Lemma opp_nonneg (x : R) : ~ 0 <= x -> 0 <= - x.
Proof. lra. Qed.

Definition erf (x : R) : R :=
  2 / sqrt PI *
  match Rle_dec 0 x with
  | left H => gauss_integral x H
  | right H => - gauss_integral (- x) (opp_nonneg x H)
  end.

Definition sigmoid (x : R) : R := 1 / (1 + exp (- x)).

Definition gelu (x : R) : R := x * (1 / 2) * (1 + erf (x / sqrt 2)).

Definition Rltb (a b : R) : bool := if Rlt_dec a b then true else false.

Definition Reqb (a b : R) : bool := if Req_dec_T a b then true else false.

Record generator : Type := {
  pos : nat;
  variates : nat -> R
}.

Definition next (g : generator) : generator :=
  {| pos := S (pos g); variates := variates g |}.

Definition draw (g : generator) : R := variates g (pos g).

#[export] Instance backend : Backend := {|
  scalar := R;
  rng := generator;
  zero := 0;
  one := 1;
  lit := Q2R;
  of_nat := INR;
  sadd := Rplus;
  ssub := Rminus;
  smul := Rmult;
  sdiv := Rdiv;
  sneg := Ropp;
  sabs := Rabs;
  sexp := exp;
  ssqrt := sqrt;
  stanh := tanh;
  ssigmoid := sigmoid;
  srelu := Rmax 0;
  ssilu := fun x => x * sigmoid x;
  sgelu := gelu;
  sltb := Rltb;
  seqb := Reqb;
  uniform := fun lo hi g => (lo + (hi - lo) * draw g, next g);
  bernoulli := fun p g => (Rltb (draw g) p, next g)
|}.

#[export] Instance lawful : LawfulBackend backend.
Proof.
  split; simpl; intros; ring.
Qed.

End RealBackend.

(** ** Concrete cells over the real backend *)

Module Examples.
Import RealBackend.

Local Open Scope R_scope.

Definition trainable (t : tensor) : nn_Parameter :=
  {| data := t; requires_grad := true |}.

Definition linear_layer (w : list (list R)) (b : list R) : Linear :=
  {| weight := trainable (T2 w); bias := trainable (T1 b) |}.

Definition buffer : nn_Parameter :=
  {| data := T1 [1]; requires_grad := false |}.

(** [CfCCell(1, 1, mode="pure", backbone_layers=0)] with chosen weights. *)
Definition pure_cell : CfCCell :=
  {| input_size := 1; hidden_size := 1; sparsity_mask := None;
     mode := "pure"; neuromod_network_dims := None;
     backbone := None; backbone_layers := 0;
     ff1 := linear_layer [[1; 0]] [0];
     w_tau := Some (trainable (T2 [[0]])); A := Some (trainable (T2 [[1]]));
     neuromod := None; ff2 := None; time_a := None; time_b := None;
     tau_system := buffer |}.

(** [CfCCell(1, 1, mode="neuromodulated", backbone_layers=0,
    neuromod_network_dims=[1])] with chosen weights. *)
Definition neuromodulated_cell : CfCCell :=
  {| input_size := 1; hidden_size := 1; sparsity_mask := None;
     mode := "neuromodulated"; neuromod_network_dims := Some [1%nat];
     backbone := None; backbone_layers := 0;
     ff1 := linear_layer [[1; 0]] [0];
     w_tau := Some (trainable (T2 [[0]])); A := Some (trainable (T2 [[1]]));
     neuromod := Some []; ff2 := None; time_a := None; time_b := None;
     tau_system := buffer |}.

(** [CfCCell(1, 1, mode="no_gate", backbone_layers=0)] with chosen weights. *)
Definition no_gate_cell : CfCCell :=
  {| input_size := 1; hidden_size := 1; sparsity_mask := None;
     mode := "no_gate"; neuromod_network_dims := None;
     backbone := None; backbone_layers := 0;
     ff1 := linear_layer [[1; 0]] [0];
     w_tau := None; A := None; neuromod := None;
     ff2 := Some (linear_layer [[0; 1]] [0]);
     time_a := Some (linear_layer [[1; 1]] [0]);
     time_b := Some (linear_layer [[0; 0]] [1]);
     tau_system := buffer |}.




(** A generator whose variates are all 0. *)
Definition all_zero : generator :=
  {| pos := 0; variates := fun _ => 0 |}.

End Examples.

(** ** Further definitions *)

Section ModelExtra.
Context {B : Backend}.

(** A matrix whose entries are all [zero]. *)
Definition zero_matrix (z : matrix) : Prop :=
  Forall (Forall (fun e => e = zero)) z.

(** The signature of a layer: what [repr] prints of it. *)
Inductive layer_sig : Type :=
| SLinear (in_features out_features : nat)
| SActivation (k : act_kind)
| SDropout (p : scalar) (training : bool).

Definition has_sig (s : layer_sig) (m : Module_) : Prop :=
  match s, m with
  | SLinear i o, LinearLayer l => Linear_wf l i o
  | SActivation k, Activation k' => k = k'
  | SDropout p t, Dropout p' t' => p = p' /\ t = t'
  | _, _ => False
  end.

(** The layers one pass of the loop of lines 108 to 112 appends. *)
Definition block_sigs (act : act_kind) (backbone_units : nat)
  (backbone_dropout : scalar) : list layer_sig :=
  SLinear backbone_units backbone_units :: SActivation act
  :: (if sltb zero backbone_dropout then [SDropout backbone_dropout true]
      else []).

(** The architecture of [self.backbone] (lines 101 to 113). *)
Definition backbone_sigs (input_size hidden_size : nat) (act : act_kind)
  (backbone_units backbone_layers : nat) (backbone_dropout : scalar)
  : list layer_sig :=
  match backbone_layers with
  | 0 => []
  | S n =>
      SLinear (input_size + hidden_size) backbone_units :: SActivation act
      :: concat (repeat (block_sigs act backbone_units backbone_dropout) n)
  end.

(** The architecture of [self.neuromod] (lines 133 to 137). *)
Fixpoint neuromod_sigs (act : act_kind) (dims : list nat) : list layer_sig :=
  match dims with
  | d0 :: ((d1 :: _) as tl) =>
      SLinear d0 d1 :: SActivation act :: neuromod_sigs act tl
  | _ => []
  end.




End ModelExtra.

Module MoreExamples.
Import RealBackend.

Local Open Scope R_scope.

(** A mask of zeros for a head from two features to one. *)
Definition zero_mask : nn_Parameter :=
  {| data := T2 [[0; 0]]; requires_grad := false |}.

End MoreExamples.

Module RealGenerators.
Import RealBackend.

Local Open Scope R_scope.

(** A generator all of whose variates lie in the unit interval, as those of
    [torch.rand] and [Tensor.uniform_] do. *)
Definition unit_variates (g : generator) : Prop :=
  forall n : nat, 0 <= variates g n <= 1.

End RealGenerators.


Section Properties.
Context {B : Backend}.

(** *** Lists of results *)

Lemma mapM_r_ok {X Y} (f : X -> result Y) (P : Y -> Prop) (l : list X) :
  (forall a, In a l -> exists b, f a = Ok b /\ P b) ->
  exists l', mapM_r f l = Ok l' /\ length l' = length l /\ Forall P l'.
Proof.
  induction l as [|a l IH]; intros H; simpl.
  - exists []. auto.
  - destruct (H a (or_introl eq_refl)) as (b & Hb & Pb).
    destruct IH as (l' & Hl' & Hlen & HP); [intros; apply H; now right|].
    exists (b :: l'). rewrite Hb, Hl'. simpl. auto.
Qed.

Lemma zipM_r_ok {X Y Z} (f : X -> Y -> result Z) (P : Z -> Prop)
  (a : list X) (b : list Y) :
  length a = length b ->
  (forall x y, In x a -> In y b -> exists z, f x y = Ok z /\ P z) ->
  exists l, zipM_r f a b = Ok l /\ length l = length a /\ Forall P l.
Proof.
  revert b. induction a as [|x a IH]; intros [|y b] Hlen H; simpl in *;
    try discriminate.
  - exists []. auto.
  - destruct (H x y) as (z & Hz & Pz); auto.
    destruct (IH b) as (l & Hl & Hlen' & HP); [lia|intros; apply H; auto|].
    exists (z :: l). rewrite Hz, Hl. simpl. auto.
Qed.

(** *** Broadcasting *)

Lemma bdim_same n : bdim n n = n.
Proof. unfold bdim. destruct (n =? 1) eqn:E; auto. Qed.

Lemma bdim_1_l n : bdim 1 n = n.
Proof. reflexivity. Qed.

Lemma bdim_1_r n : bdim n 1 = n.
Proof. unfold bdim. destruct (Nat.eqb_spec n 1); auto. Qed.

Lemma bcast_ok {X Z} (f : X -> X -> result Z) (P : Z -> Prop) (a b : list X) :
  compat (length a) (length b) ->
  (forall x y, In x a -> In y b -> exists z, f x y = Ok z /\ P z) ->
  exists l, bcast f a b = Ok l /\ length l = bdim (length a) (length b)
            /\ Forall P l.
Proof.
  intros Hc H. unfold bcast.
  destruct (Nat.eqb_spec (length a) (length b)) as [E|E].
  - destruct (zipM_r_ok f P a b E H) as (l & Hl & Hlen & HP).
    exists l. rewrite <- E, bdim_same. auto.
  - destruct Hc as [Hc|[Hc|Hc]]; [contradiction| |].
    + destruct a as [|x [|? ?]]; try discriminate.
      destruct (mapM_r_ok (fun y => f x y) P b) as (l & Hl & Hlen & HP).
      { intros y Hy. apply H; simpl; auto. }
      exists l. auto.
    + destruct b as [|y [|? ?]]; try discriminate.
      destruct (mapM_r_ok (fun x => f x y) P a) as (l & Hl & Hlen & HP).
      { intros x Hx. apply H; simpl; auto. }
      exists l. rewrite bdim_1_r.
      destruct a as [|x [|? ?]]; simpl in *; auto; congruence.
Qed.

Lemma has_shapeb_spec (x : matrix) (n m : nat) :
  has_shapeb x n m = true <-> has_shape x n m.
Proof.
  unfold has_shapeb, has_shape.
  rewrite andb_true_iff, Nat.eqb_eq, forallb_forall, Forall_forall.
  split; intros [H1 H2]; split; auto; intros r Hr.
  - apply Nat.eqb_eq; auto.
  - apply Nat.eqb_eq; auto.
Qed.

Lemma bcast1_ok (f : scalar -> scalar -> scalar) (u v : vector) :
  compat (length u) (length v) ->
  exists w, bcast1 f u v = Ok w /\ length w = bdim (length u) (length v).
Proof.
  intros Hc.
  destruct (bcast_ok (fun a b => Ok (f a b)) (fun _ => True) u v Hc)
    as (w & Hw & Hlen & _).
  - intros x y _ _. eauto.
  - exists w. auto.
Qed.

Lemma bcast2_ok (f : scalar -> scalar -> scalar) (x y : matrix)
  (n1 m1 n2 m2 : nat) :
  has_shape x n1 m1 -> has_shape y n2 m2 ->
  compat n1 n2 -> compat m1 m2 ->
  exists z, bcast2 f x y = Ok z /\ has_shape z (bdim n1 n2) (bdim m1 m2).
Proof.
  intros [Hx1 Hx2] [Hy1 Hy2] Hn Hm. subst n1 n2.
  destruct (bcast_ok (bcast1 f) (fun r => length r = bdim m1 m2) x y Hn)
    as (z & Hz & Hlen & HP).
  - intros r s Hr Hs.
    rewrite Forall_forall in Hx2, Hy2.
    specialize (Hx2 r Hr). specialize (Hy2 s Hs).
    destruct (bcast1_ok f r s) as (w & Hw & Hl); [congruence|].
    exists w. split; auto. congruence.
  - exists z. split; auto. split; auto.
Qed.

Lemma mapM_ok {St X Y} (f : X -> M St Y) (P : Y -> Prop) (l : list X) :
  (forall a s, In a l -> exists b s', f a s = (Ok b, s') /\ P b) ->
  forall s, exists l' s',
    mapM f l s = (Ok l', s') /\ length l' = length l /\ Forall P l'.
Proof.
  induction l as [|a l IH]; intros H s; simpl.
  - exists [], s. auto.
  - destruct (H a s (or_introl eq_refl)) as (b & s1 & Hb & Pb).
    destruct (IH (fun a' s' Ha => H a' s' (or_intror Ha)) s1)
      as (l' & s2 & Hl' & Hlen & HP).
    exists (b :: l'), s2. unfold bind, ret. rewrite Hb, Hl'. simpl. auto.
Qed.

(** *** Shapes of the tensor operations *)

Lemma is_mat_inv (t : tensor) (n m : nat) :
  is_mat t n m -> exists x, t = T2 x /\ has_shape x n m.
Proof.
  destruct t as [s|v|x]; unfold is_mat; simpl; try discriminate.
  intros H. exists x. split; auto. now apply has_shapeb_spec.
Qed.

Lemma is_mat_T2 (x : matrix) (n m : nat) :
  has_shape x n m -> is_mat (T2 x) n m.
Proof. intros H. now apply has_shapeb_spec. Qed.

Lemma has_shape_map (f : scalar -> scalar) (x : matrix) (n m : nat) :
  has_shape x n m -> has_shape (map (map f) x) n m.
Proof.
  intros [H1 H2]. split.
  - now rewrite length_map.
  - rewrite Forall_map. eapply Forall_impl; [|exact H2].
    intros r Hr. simpl in *. now rewrite length_map.
Qed.

Lemma tmap_mat (f : scalar -> scalar) (t : tensor) (n m : nat) :
  is_mat t n m -> is_mat (tmap f t) n m.
Proof.
  intros H. destruct (is_mat_inv _ _ _ H) as (x & -> & Hx). simpl.
  apply is_mat_T2. now apply has_shape_map.
Qed.

Lemma tbin_mat (f : scalar -> scalar -> scalar) (a b : tensor)
  (n1 m1 n2 m2 : nat) :
  is_mat a n1 m1 -> is_mat b n2 m2 -> compat n1 n2 -> compat m1 m2 ->
  exists t, tbin f a b = Ok t /\ is_mat t (bdim n1 n2) (bdim m1 m2).
Proof.
  intros Ha Hb Hn Hm.
  destruct (is_mat_inv _ _ _ Ha) as (x & -> & Hx).
  destruct (is_mat_inv _ _ _ Hb) as (y & -> & Hy).
  destruct (bcast2_ok f x y _ _ _ _ Hx Hy Hn Hm) as (z & Hz & Sz).
  exists (T2 z). simpl. unfold rmap. rewrite Hz. simpl.
  split; auto. now apply is_mat_T2.
Qed.

Lemma tbin_mat_same (f : scalar -> scalar -> scalar) (a b : tensor) (n m : nat) :
  is_mat a n m -> is_mat b n m ->
  exists t, tbin f a b = Ok t /\ is_mat t n m.
Proof.
  intros Ha Hb.
  destruct (tbin_mat f a b n m n m Ha Hb) as (t & Ht & St);
    try (left; reflexivity).
  rewrite !bdim_same in St. eauto.
Qed.

Lemma tbin_mat_row_l (f : scalar -> scalar -> scalar) (a b : tensor) (n m : nat) :
  is_mat a 1 m -> is_mat b n m ->
  exists t, tbin f a b = Ok t /\ is_mat t n m.
Proof.
  intros Ha Hb.
  destruct (tbin_mat f a b 1 m n m Ha Hb) as (t & Ht & St).
  - right; left; reflexivity.
  - left; reflexivity.
  - rewrite bdim_same in St. eauto.
Qed.

Lemma tbin_mat_row_r (f : scalar -> scalar -> scalar) (a b : tensor) (n m : nat) :
  is_mat a n m -> is_mat b 1 m ->
  exists t, tbin f a b = Ok t /\ is_mat t n m.
Proof.
  intros Ha Hb.
  destruct (tbin_mat f a b n m 1 m Ha Hb) as (t & Ht & St).
  - right; right; reflexivity.
  - left; reflexivity.
  - rewrite bdim_same, bdim_1_r in St. eauto.
Qed.

Lemma ts_ok_tmap (f : scalar -> scalar) (ts : tensor) (n m : nat) :
  ts_ok ts n m -> ts_ok (tmap f ts) n m.
Proof.
  unfold ts_ok. destruct ts as [s|v|x]; simpl; auto.
  - now rewrite length_map.
  - intros H. rewrite !orb_true_iff in *. rewrite !has_shapeb_spec in *.
    intuition auto using has_shape_map.
Qed.

(** The shape of a tensor that passes [ts_okb]. *)
Lemma ts_ok_T2 (x : matrix) (n m : nat) :
  ts_ok (T2 x) n m ->
  exists r c, has_shape x r c /\ (r = 1 \/ r = n) /\ (c = 1 \/ c = m).
Proof.
  unfold ts_ok. simpl. rewrite !orb_true_iff, !has_shapeb_spec.
  intros [[H|H]|[H|H]]; eauto 8.
Qed.

Lemma bdim_to (r n : nat) : r = 1 \/ r = n -> bdim r n = n /\ bdim n r = n
                                              /\ compat r n /\ compat n r.
Proof.
  unfold compat.
  intros [->| ->]; rewrite ?bdim_same, ?bdim_1_r, ?bdim_1_l; auto 6.
Qed.

Lemma tbin_ts_l (f : scalar -> scalar -> scalar) (ts d : tensor) (n m : nat) :
  ts_ok ts n m -> is_mat d n m ->
  exists t, tbin f ts d = Ok t /\ is_mat t n m.
Proof.
  intros Hts Hd. destruct (is_mat_inv _ _ _ Hd) as (y & -> & Hy).
  destruct ts as [s|v|x].
  - simpl. eexists; split; eauto. apply is_mat_T2. now apply has_shape_map.
  - unfold ts_ok in Hts. simpl in Hts.
    rewrite orb_true_iff, !Nat.eqb_eq in Hts.
    destruct (bdim_to (length v) m Hts) as (E1 & _ & C1 & _).
    destruct (bcast2_ok f [v] y 1 (length v) n m) as (z & Hz & Sz); auto.
    + split; auto.
    + right; left; reflexivity.
    + simpl. unfold rmap. rewrite Hz. simpl. eexists; split; eauto.
      apply is_mat_T2. now rewrite bdim_1_l, E1 in Sz.
  - destruct (ts_ok_T2 _ _ _ Hts) as (r & c & Hx & Hr & Hc).
    destruct (bdim_to r n Hr) as (E1 & _ & C1 & _).
    destruct (bdim_to c m Hc) as (E2 & _ & C2 & _).
    destruct (bcast2_ok f x y r c n m) as (z & Hz & Sz); auto.
    simpl. unfold rmap. rewrite Hz. simpl. eexists; split; eauto.
    apply is_mat_T2. now rewrite E1, E2 in Sz.
Qed.

Lemma tbin_ts_r (f : scalar -> scalar -> scalar) (ts d : tensor) (n m : nat) :
  ts_ok ts n m -> is_mat d n m ->
  exists t, tbin f d ts = Ok t /\ is_mat t n m.
Proof.
  intros Hts Hd. destruct (is_mat_inv _ _ _ Hd) as (y & -> & Hy).
  destruct ts as [s|v|x].
  - simpl. eexists; split; eauto. apply is_mat_T2. now apply has_shape_map.
  - unfold ts_ok in Hts. simpl in Hts.
    rewrite orb_true_iff, !Nat.eqb_eq in Hts.
    destruct (bdim_to (length v) m Hts) as (_ & E1 & _ & C1).
    destruct (bcast2_ok f y [v] n m 1 (length v)) as (z & Hz & Sz); auto.
    + split; auto.
    + right; right; reflexivity.
    + simpl. unfold rmap. rewrite Hz. simpl. eexists; split; eauto.
      apply is_mat_T2. now rewrite bdim_1_r, E1 in Sz.
  - destruct (ts_ok_T2 _ _ _ Hts) as (r & c & Hx & Hr & Hc).
    destruct (bdim_to r n Hr) as (_ & E1 & _ & C1).
    destruct (bdim_to c m Hc) as (_ & E2 & _ & C2).
    destruct (bcast2_ok f y x n m r c) as (z & Hz & Sz); auto.
    simpl. unfold rmap. rewrite Hz. simpl. eexists; split; eauto.
    apply is_mat_T2. now rewrite E1, E2 in Sz.
Qed.

Lemma torch_cat1_mat (a b : tensor) (n p q : nat) :
  is_mat a n p -> is_mat b n q ->
  exists t, torch_cat1 a b = Ok t /\ is_mat t n (p + q).
Proof.
  intros Ha Hb.
  destruct (is_mat_inv _ _ _ Ha) as (x & -> & Hx1 & Hx2).
  destruct (is_mat_inv _ _ _ Hb) as (y & -> & Hy1 & Hy2).
  simpl. rewrite Hx1, Hy1, Nat.eqb_refl.
  eexists; split; eauto. apply is_mat_T2. split.
  - rewrite length_map, length_combine. lia.
  - rewrite Forall_map, Forall_forall. intros [r s] Hrs. simpl.
    rewrite Forall_forall in Hx2, Hy2. rewrite length_app.
    rewrite (Hx2 r (in_combine_l _ _ _ _ Hrs)).
    now rewrite (Hy2 s (in_combine_r _ _ _ _ Hrs)).
Qed.

Lemma F_linear_mat (x : tensor) (w : matrix) (b : vector) (n k o : nat) :
  is_mat x n k -> has_shape w o k -> length b = o ->
  exists t, F_linear x (T2 w) (T1 b) = Ok t /\ is_mat t n o.
Proof.
  intros Hx [Hw1 Hw2] Hb.
  destruct (is_mat_inv _ _ _ Hx) as (xm & -> & Hx1 & Hx2).
  simpl.
  destruct (mapM_r_ok (fun r => mapM_r (dot r) w) (fun r => length r = o) xm)
    as (y & Hy & Hlen & HP).
  { intros r Hr. rewrite Forall_forall in Hx2. specialize (Hx2 r Hr).
    destruct (mapM_r_ok (dot r) (fun _ => True) w) as (l & Hl & Hll & _).
    - intros wr Hwr. rewrite Forall_forall in Hw2. specialize (Hw2 wr Hwr).
      unfold dot. simpl in *. rewrite Hx2, Hw2, Nat.eqb_refl. eauto.
    - exists l. split; auto. now rewrite Hll. }
  rewrite Hy. simpl.
  destruct (bcast2_ok sadd y [b] n o 1 o) as (z & Hz & Sz).
  - split; auto. now rewrite Hlen.
  - split; auto.
  - right; right; reflexivity.
  - left; reflexivity.
  - unfold rmap. rewrite Hz. simpl. eexists; split; eauto.
    apply is_mat_T2. now rewrite bdim_1_r, bdim_same in Sz.
Qed.

Lemma Linear_wf_inv (l : Linear) (k o : nat) :
  Linear_wf l k o ->
  exists w b, data (weight l) = T2 w /\ data (bias l) = T1 b /\
              has_shape w o k /\ length b = o.
Proof.
  unfold Linear_wf, Linear_wfb.
  destruct (data (weight l)) as [?|?|w]; try discriminate.
  destruct (data (bias l)) as [?|b|?]; try discriminate.
  rewrite andb_true_iff, has_shapeb_spec, Nat.eqb_eq. intros [H1 H2].
  exists w, b. auto.
Qed.

Lemma Linear_call_mat (l : Linear) (x : tensor) (n k o : nat) :
  Linear_wf l k o -> is_mat x n k ->
  exists t, Linear_call l x = Ok t /\ is_mat t n o.
Proof.
  intros Hl Hx. destruct (Linear_wf_inv _ _ _ Hl) as (w & b & Ew & Eb & Hw & Hb).
  unfold Linear_call. rewrite Ew, Eb. eapply F_linear_mat; eauto.
Qed.

Lemma masked_linear_mat (mask : option nn_Parameter) (l : Linear) (x : tensor)
  (n k o : nat) :
  mask_wf mask k o -> Linear_wf l k o -> is_mat x n k ->
  exists t, masked_linear mask l x = Ok t /\ is_mat t n o.
Proof.
  intros Hm Hl Hx. destruct mask as [m|]; [|now apply Linear_call_mat with k].
  destruct (Linear_wf_inv _ _ _ Hl) as (w & b & Ew & Eb & Hw & Hb).
  simpl in *. rewrite Ew, Eb.
  destruct (tbin_mat_same smul (T2 w) (data m) o k) as (t & Ht & St); auto.
  { now apply is_mat_T2. }
  unfold tmul. rewrite Ht. simpl.
  destruct (is_mat_inv _ _ _ St) as (w' & -> & Hw').
  eapply F_linear_mat; eauto.
Qed.

Lemma dropout_elem_total (p x : scalar) (g : rng) :
  exists y g', dropout_elem p x g = (Ok y, g').
Proof.
  unfold dropout_elem, bind, draw_bernoulli, ret.
  destruct (bernoulli (ssub one p) g) as [b g']. eauto.
Qed.

Lemma F_dropout_mat (x : tensor) (p : scalar) (training : bool) (n m : nat)
  (g : rng) :
  is_mat x n m ->
  exists t g', F_dropout x p training g = (Ok t, g') /\ is_mat t n m.
Proof.
  intros Hx. unfold F_dropout.
  destruct (negb training || seqb p zero); [unfold ret; eauto|].
  destruct (seqb p one); [unfold ret; eauto using tmap_mat|].
  destruct (is_mat_inv _ _ _ Hx) as (xm & -> & Hx1 & Hx2).
  destruct (mapM_ok (mapM (dropout_elem p)) (fun r => length r = m) xm) with (s := g)
    as (y & g' & Hy & Hlen & HP).
  { intros r s Hr. rewrite Forall_forall in Hx2. specialize (Hx2 r Hr).
    destruct (mapM_ok (dropout_elem p) (fun _ => True) r) with (s := s)
      as (l & s' & Hl & Hll & _).
    - intros a s0 _. destruct (dropout_elem_total p a s0) as (b & s1 & E). eauto.
    - exists l, s'. split; auto. now rewrite Hll. }
  unfold bind, ret. rewrite Hy. exists (T2 y), g'. split; auto.
  apply is_mat_T2. split; auto. now rewrite Hlen.
Qed.

Lemma Sequential_call_mat (layers : Sequential) :
  forall (x : tensor) (n k o : nat) (g : rng),
    seq_width layers k = Some o -> is_mat x n k ->
    exists t g', Sequential_call layers x g = (Ok t, g') /\ is_mat t n o.
Proof.
  induction layers as [|m rest IH]; intros x n k o g Hw Hx.
  - simpl in *. injection Hw as <-. unfold ret. eauto.
  - cbn [Sequential_call seq_width] in *. unfold bind.
    destruct m as [l|a|p tr]; cbn [Module_call].
    + destruct (data (bias l)) as [?|b|?] eqn:Eb; try discriminate.
      destruct (Linear_wfb l k (length b)) eqn:El; try discriminate.
      destruct (Linear_call_mat l x n k (length b) El Hx) as (t & Ht & St).
      unfold Linear_call in Ht. unfold lift. rewrite Eb in *. rewrite Ht. eauto.
    + unfold ret. eapply IH; eauto using tmap_mat.
    + destruct (F_dropout_mat x p tr n k g Hx) as (t & g' & Ht & St).
      rewrite Ht. eauto.
Qed.

Lemma apply_backbone_mat (c : CfCCell) (x : tensor) (n k : nat) (g : rng) :
  feature_width c = Some k ->
  is_mat x n (input_size c + hidden_size c) ->
  exists t g', apply_backbone c x g = (Ok t, g') /\ is_mat t n k.
Proof.
  unfold feature_width, apply_backbone. intros Hk Hx.
  destruct (0 <? backbone_layers c).
  - destruct (backbone c) as [bb|]; try discriminate.
    eapply Sequential_call_mat; eauto.
  - injection Hk as <-. unfold ret. eauto.
Qed.

Ltac step H := rewrite H; cbn [rbind].

Lemma tau_head_inv (c : CfCCell) :
  tau_head_wfb c = true ->
  exists wt a, w_tau c = Some wt /\ A c = Some a /\
               is_mat (data wt) 1 (hidden_size c) /\
               is_mat (data a) 1 (hidden_size c).
Proof.
  unfold tau_head_wfb.
  destruct (w_tau c) as [wt|]; try discriminate.
  destruct (A c) as [a|]; try discriminate.
  rewrite andb_true_iff. intros [H1 H2]. exists wt, a. auto.
Qed.

Lemma closed_form_mat (c : CfCCell) (ts signal f : tensor) (n : nat) :
  tau_head_wfb c = true ->
  ts_ok ts n (hidden_size c) ->
  is_mat signal n (hidden_size c) -> is_mat f n (hidden_size c) ->
  exists nh, closed_form c ts signal f = Ok nh /\ is_mat nh n (hidden_size c).
Proof.
  intros Hh Hts Hs Hf.
  destruct (tau_head_inv c Hh) as (wt & a & Ewt & Ea & Swt & Sa).
  unfold closed_form, attr. rewrite Ewt, Ea. cbn [rbind].
  destruct (tbin_mat_row_l sadd (torch_abs (data wt)) (torch_abs signal) n
              (hidden_size c)) as (d & Hd & Sd); try now apply tmap_mat.
  unfold tadd. step Hd.
  destruct (tbin_ts_l smul (tneg ts) d n (hidden_size c)
              (ts_ok_tmap sneg ts _ _ Hts) Sd) as (e & He & Se).
  unfold tmul. step He.
  destruct (tbin_mat_row_l smul (tneg (data a)) (torch_exp e) n (hidden_size c))
    as (p & Hp & Sp); try now apply tmap_mat.
  step Hp.
  destruct (tbin_mat_same smul p f n (hidden_size c)) as (q & Hq & Sq); auto.
  step Hq.
  now apply tbin_mat_row_r.
Qed.

Lemma tau_of_ok (c : CfCCell) (signal : tensor) (n : nat) :
  tau_head_wfb c = true ->
  is_mat signal n (hidden_size c) ->
  exists tau, tau_of c signal = Ok tau /\ is_mat tau n (hidden_size c).
Proof.
  intros Hh Hs.
  destruct (tau_head_inv c Hh) as (wt & a & Ewt & Ea & Swt & Sa).
  unfold tau_of, attr. rewrite Ewt. cbn [rbind].
  destruct (tbin_mat_row_l sadd (torch_abs (data wt)) (torch_abs signal) n
              (hidden_size c)) as (d & Hd & Sd); try now apply tmap_mat.
  unfold tadd. step Hd.
  apply tbin_ts_l; auto. reflexivity.
Qed.

Lemma gate_head_inv (c : CfCCell) (k : nat) :
  gate_head_wfb c k = true ->
  exists l2 la lb, ff2 c = Some l2 /\ time_a c = Some la /\ time_b c = Some lb /\
    Linear_wf l2 k (hidden_size c) /\ Linear_wf la k (hidden_size c) /\
    Linear_wf lb k (hidden_size c).
Proof.
  unfold gate_head_wfb.
  destruct (ff2 c) as [l2|]; try discriminate.
  destruct (time_a c) as [la|]; try discriminate.
  destruct (time_b c) as [lb|]; try discriminate.
  rewrite !andb_true_iff. intros [[H1 H2] H3]. exists l2, la, lb. auto 7.
Qed.

Lemma gated_mat (c : CfCCell) (ts x f : tensor) (n k : nat) :
  gate_head_wfb c k = true ->
  mask_wf (sparsity_mask c) k (hidden_size c) ->
  ts_ok ts n (hidden_size c) ->
  is_mat x n k -> is_mat f n (hidden_size c) ->
  exists nh, gated c ts x f = Ok nh /\ is_mat nh n (hidden_size c).
Proof.
  intros Hh Hm Hts Hx Hf.
  destruct (gate_head_inv c k Hh) as (l2 & la & lb & E2 & Ea & Eb & W2 & Wa & Wb).
  unfold gated, attr. rewrite E2, Ea, Eb. cbn [rbind].
  destruct (masked_linear_mat _ l2 x n k _ Hm W2 Hx) as (f2 & H2 & S2). step H2.
  destruct (Linear_call_mat la x n k _ Wa Hx) as (ta & Hta & Sta). step Hta.
  destruct (Linear_call_mat lb x n k _ Wb Hx) as (tb & Htb & Stb). step Htb.
  destruct (tbin_ts_r smul ts ta n _ Hts Sta) as (u & Hu & Su).
  unfold tmul. step Hu.
  destruct (tbin_mat_same sadd u tb n _ Su Stb) as (s & Hs & Ss).
  unfold tadd. step Hs.
  pose proof (tmap_mat ssigmoid s _ _ Ss) as Si.
  pose proof (tmap_mat stanh f _ _ Hf) as Sf1.
  pose proof (tmap_mat stanh f2 _ _ S2) as Sf2.
  destruct (mode c =? "no_gate")%string.
  - destruct (tbin_mat_same smul _ _ n _ Si Sf2) as (g & Hg & Sg). step Hg.
    now apply tbin_mat_same.
  - destruct (tbin_ts_l ssub (T0 (lit (1 # 1))) _ n _ eq_refl Si) as (k1 & Hk & Sk).
    unfold tsub. step Hk.
    destruct (tbin_mat_same smul _ _ n _ Sf1 Sk) as (l & Hl & Sl). step Hl.
    destruct (tbin_mat_same smul _ _ n _ Si Sf2) as (r & Hr & Sr). step Hr.
    now apply tbin_mat_same.
Qed.

Lemma heads_wf_inv (c : CfCCell) :
  heads_wfb c = true ->
  exists k, feature_width c = Some k /\
    Linear_wf (ff1 c) k (hidden_size c) /\
    (if (mode c =? "pure")%string then tau_head_wfb c
     else if (mode c =? "neuromodulated")%string
          then tau_head_wfb c && neuromod_wfb c
          else gate_head_wfb c k) = true.
Proof.
  unfold heads_wfb.
  destruct (feature_width c) as [k|]; try discriminate.
  rewrite !andb_true_iff. intros [H1 H2]. exists k. auto.
Qed.

Lemma cell_wf_inv (c : CfCCell) :
  cell_wf c ->
  exists k, feature_width c = Some k /\
    Linear_wf (ff1 c) k (hidden_size c) /\
    mask_wf (sparsity_mask c) k (hidden_size c) /\
    (if (mode c =? "pure")%string then tau_head_wfb c
     else if (mode c =? "neuromodulated")%string
          then tau_head_wfb c && neuromod_wfb c
          else gate_head_wfb c k) = true.
Proof.
  unfold cell_wf, cell_wfb. rewrite andb_true_iff. intros [Hh Hm].
  destruct (heads_wf_inv c Hh) as (k & Hk & H1 & H2).
  exists k. repeat split; auto.
  unfold mask_wf, mask_wfb in *. rewrite Hk in Hm.
  destruct (sparsity_mask c); auto.
Qed.

Lemma neuromod_inv (c : CfCCell) :
  neuromod_wfb c = true ->
  exists d0 dims nm, neuromod_network_dims c = Some (d0 :: dims) /\
    neuromod c = Some nm /\ seq_width nm d0 = Some (hidden_size c) /\
    last (d0 :: dims) 0 = hidden_size c.
Proof.
  unfold neuromod_wfb.
  destruct (neuromod_network_dims c) as [[|d0 dims]|]; try discriminate.
  destruct (neuromod c) as [nm|]; try discriminate.
  destruct (seq_width nm d0) as [k|] eqn:E; try discriminate.
  rewrite andb_true_iff, !Nat.eqb_eq. intros [-> H].
  exists d0, dims, nm. auto.
Qed.

(** On a well-formed cell and well-shaped arguments the computation of
    [forward] goes through, with a result of shape (batch, hidden). *)
Lemma forward_value_ok (c : CfCCell) (input : py_input) (hx ts : tensor)
  (batch : nat) (g : rng) :
  cell_wf c ->
  input_okb c input batch = true ->
  is_mat hx batch (hidden_size c) ->
  ts_ok ts batch (hidden_size c) ->
  exists nh tau g',
    forward_value c input hx ts g = (Ok (nh, tau), g') /\
    is_mat nh batch (hidden_size c).
Proof.
  intros Hc Hin Hhx Hts.
  destruct (cell_wf_inv c Hc) as (k & Hk & W1 & Wm & Hh).
  unfold forward_value, bind, lift.
  assert (exists x, concat_input c input hx = Ok x /\
                    is_mat x batch (input_size c + hidden_size c)) as (x & Hx & Sx).
  { unfold concat_input, input_okb in *.
    destruct (mode c =? "neuromodulated")%string.
    - destruct input as [t|i0 i1]; try discriminate.
      destruct (neuromod_network_dims c) as [[|d0 ?]|]; try discriminate.
      apply andb_true_iff in Hin as [H0 H1].
      now apply torch_cat1_mat.
    - destruct input as [t|i0 i1]; try discriminate.
      now apply torch_cat1_mat. }
  rewrite Hx.
  destruct (apply_backbone_mat c x batch k g Hk Sx) as (x' & g1 & Hx' & Sx').
  rewrite Hx'.
  destruct (masked_linear_mat _ (ff1 c) x' batch k _ Wm W1 Sx') as (f & Hf & Sf).
  rewrite Hf.
  destruct (mode c =? "pure")%string eqn:Ep.
  - destruct (closed_form_mat c ts f f batch Hh Hts Sf Sf) as (nh & Hnh & Snh).
    destruct (tau_of_ok c f batch Hh Sf) as (tau & Htau & _).
    rewrite Hnh, Htau. unfold ret. eauto.
  - destruct (mode c =? "neuromodulated")%string eqn:En.
    + apply andb_true_iff in Hh as [Hh Hn].
      destruct (neuromod_inv c Hn) as (d0 & dims & nm & Ed & Enm & Wnm & _).
      unfold input_okb in Hin. rewrite En, Ed in Hin.
      destruct input as [t|i0 i1]; try discriminate.
      apply andb_true_iff in Hin as [H0 H1].
      destruct (Sequential_call_mat nm i1 batch d0 _ g1 Wnm H1)
        as (sg & g2 & Hsg & Ssg).
      unfold neuromod_call, bind, lift, attr. rewrite Enm, Hsg.
      destruct (closed_form_mat c ts sg f batch Hh Hts Ssg Sf) as (nh & Hnh & Snh).
      destruct (tau_of_ok c sg batch Hh Ssg) as (tau & Htau & _).
      rewrite Hnh, Htau. unfold ret. eauto.
    + destruct (gated_mat c ts x' f batch k Hh Wm Hts Sx' Sf) as (nh & Hnh & Snh).
      rewrite Hnh. unfold ret. eauto.
Qed.

Lemma forward_run (input : py_input) (hx ts : tensor) (w : world) :
  forward input hx ts w =
  match forward_value (self w) input hx ts (gen w) with
  | (Ok (new_hidden, tau), g) =>
      (Ok (new_hidden, new_hidden),
       {| self := match tau with
                  | Some t => set_tau_system_data (self w) t
                  | None => self w
                  end;
          gen := g |})
  | (Raise e, g) => (Raise e, {| self := self w; gen := g |})
  end.
Proof.
  destruct w as [c g].
  unfold forward, forward_value, bind, lift, get_self, with_gen, ret,
    assign_tau_system_data. cbn [self gen].
  destruct (concat_input c input hx) as [x|e]; [|reflexivity].
  destruct (apply_backbone c x g) as [[x'|e] g']; cbn [self gen]; [|reflexivity].
  destruct (masked_linear (sparsity_mask c) (ff1 c) x') as [f|e]; [|reflexivity].
  destruct (mode c =? "pure")%string.
  - destruct (closed_form c ts f f) as [nh|e]; [|reflexivity].
    destruct (tau_of c f) as [t|e]; reflexivity.
  - destruct (mode c =? "neuromodulated")%string.
    + cbn [self gen]. destruct (neuromod_call c input g') as [[sg|e] g'']; cbn [self gen]; [|reflexivity].
      destruct (closed_form c ts sg f) as [nh|e]; [|reflexivity].
      destruct (tau_of c sg) as [t|e]; reflexivity.
    + destruct (gated c ts x' f) as [nh|e]; reflexivity.
Qed.

(** *** The update rules *)




(** C7. In every mode, on a hidden state of shape (batch, hidden_size) and
    correctly shaped inputs, [forward] returns a pair whose two components
    are the same tensor, of shape (batch, hidden_size). *)
Theorem forward_shape (c : CfCCell) (input : py_input) (hx ts : tensor)
  (batch : nat) (g : rng) :
  cell_wf c ->
  input_okb c input batch = true ->
  is_mat hx batch (hidden_size c) ->
  ts_ok ts batch (hidden_size c) ->
  exists new_hidden w',
    forward input hx ts {| self := c; gen := g |}
    = (Ok (new_hidden, new_hidden), w') /\
    is_mat new_hidden batch (hidden_size c).
Proof.
  intros Hc Hin Hhx Hts.
  destruct (forward_value_ok c input hx ts batch g Hc Hin Hhx Hts)
    as (nh & tau & g' & Hv & Snh).
  rewrite forward_run. cbn [self gen]. rewrite Hv. eauto.
Qed.

(** C9. A call of [forward] changes no attribute of the cell other than the
    data of [tau_system]; that buffer is written only in modes "pure" and
    "neuromodulated", and only when the call returns. *)
Theorem forward_frame (input : py_input) (hx ts : tensor) (w : world) :
  let r := fst (forward input hx ts w) in
  let c' := self (snd (forward input hx ts w)) in
  c' = set_tau_system_data (self w) (data (tau_system c'))
  /\ (((mode (self w) =? "pure") || (mode (self w) =? "neuromodulated"))%string
       = false -> c' = self w)
  /\ (forall e, r = Raise e -> c' = self w).
Proof.
  cbv zeta. rewrite forward_run.
  destruct w as [c g]. cbn [self gen].
  assert (Heta : c = set_tau_system_data c (data (tau_system c))).
  { destruct c as [? ? ? ? ? ? ? ? ? ? ? ? ? ? [? ?]]. reflexivity. }
  unfold forward_value, bind, lift.
  destruct (concat_input c input hx) as [x|e]; [|cbn; auto].
  destruct (apply_backbone c x g) as [[x'|e] g']; [|cbn; auto].
  destruct (masked_linear (sparsity_mask c) (ff1 c) x') as [f|e]; [|cbn; auto].
  destruct (mode c =? "pure")%string.
  - destruct (closed_form c ts f f) as [nh|e]; [|cbn; auto].
    destruct (tau_of c f) as [t|e]; cbn; auto.
    repeat split; auto; discriminate.
  - destruct (mode c =? "neuromodulated")%string.
    + destruct (neuromod_call c input g') as [[sg|e] g'']; [|cbn; auto].
      destruct (closed_form c ts sg f) as [nh|e]; [|cbn; auto].
      destruct (tau_of c sg) as [t|e]; cbn; auto.
      repeat split; auto; discriminate.
    + destruct (gated c ts x' f) as [nh|e]; cbn; auto.
Qed.


(** *** The closed-form update, entry by entry *)









Lemma entry_map (f : scalar -> scalar) (x : matrix) (n h i j : nat) :
  has_shape x n h -> i < n -> j < h ->
  entry (map (map f) x) i j = f (entry x i j).
Proof.
  intros [Hx1 Hx2] Hi Hj. unfold entry.
  rewrite (nth_indep _ [] (map f [])) by (rewrite length_map; lia).
  rewrite map_nth.
  assert (Lxi : length (nth i x []) = h).
  { rewrite Forall_forall in Hx2. apply Hx2, nth_In. lia. }
  rewrite (nth_indep _ zero (f zero)) by (rewrite length_map; lia).
  now rewrite map_nth.
Qed.



(** *** Determinism *)

Lemma Module_call_det (m : Module_) (x : tensor) :
  stochastic m = false ->
  exists r, forall g, Module_call m x g = (r, g).
Proof.
  destruct m as [l|k|p tr]; simpl; intros H.
  - unfold lift. eauto.
  - unfold ret. eauto.
  - unfold F_dropout.
    destruct tr; simpl in *.
    + destruct (seqb p zero); simpl in *; [unfold ret; eauto|].
      destruct (seqb p one); simpl in *; [unfold ret; eauto|discriminate].
    + unfold ret. eauto.
Qed.

Lemma Sequential_call_det (layers : Sequential) :
  forallb (fun m => negb (stochastic m)) layers = true ->
  forall x, exists r, forall g, Sequential_call layers x g = (r, g).
Proof.
  induction layers as [|m rest IH]; simpl; intros H x.
  - unfold ret. eauto.
  - apply andb_true_iff in H as [Hm Hrest].
    apply negb_true_iff in Hm.
    destruct (Module_call_det m x Hm) as ([y|e] & Hr).
    + destruct (IH Hrest y) as (r & Hy). exists r. intros g.
      unfold bind. now rewrite Hr, Hy.
    + exists (Raise e). intros g. unfold bind. now rewrite Hr.
Qed.




(** *** Mode "no_gate" at [ts = 0] *)

Section Lawful.
Context {L : LawfulBackend B}.









End Lawful.


(** *** Random tensors *)

Lemma uniform_vector_ok (n : nat) (lo hi : scalar) (g : rng) :
  exists v g', uniform_vector n lo hi g = (Ok v, g') /\ length v = n.
Proof.
  unfold uniform_vector.
  destruct (mapM_ok (fun _ : unit => draw_uniform lo hi) (fun _ => True)
              (repeat tt n)) with (s := g) as (v & g' & Hv & Hlen & _).
  - intros _ s _. unfold draw_uniform. destruct (uniform lo hi s). eauto.
  - exists v, g'. split; auto.
    etransitivity; [exact Hlen|apply repeat_length].
Qed.

Lemma uniform_matrix_ok (rows cols : nat) (lo hi : scalar) (g : rng) :
  exists m g', uniform_matrix rows cols lo hi g = (Ok m, g') /\
               has_shape m rows cols.
Proof.
  unfold uniform_matrix.
  destruct (mapM_ok (fun _ : unit => uniform_vector cols lo hi)
              (fun r => length r = cols) (repeat tt rows)) with (s := g)
    as (m & g' & Hm & Hlen & HP).
  - intros _ s _. apply uniform_vector_ok.
  - exists m, g'. split; auto. split; auto.
    etransitivity; [exact Hlen|apply repeat_length].
Qed.

Lemma torch_rand_ok (rows cols : nat) (g : rng) :
  exists t g', torch_rand rows cols g = (Ok t, g') /\ is_mat t rows cols.
Proof.
  unfold torch_rand, bind, ret.
  destruct (uniform_matrix_ok rows cols zero one g) as (m & g' & Hm & Sm).
  rewrite Hm. exists (T2 m), g'. split; auto. now apply is_mat_T2.
Qed.

(** *** Replacing the neuromodulation network *)



(** *** Construction *)

Lemma nn_Linear_ok (n_in n_out : nat) (g : rng) :
  exists l g', nn_Linear n_in n_out g = (Ok l, g') /\ Linear_wf l n_in n_out.
Proof.
  unfold nn_Linear, bind, ret.
  set (bound := if n_in =? 0 then zero else sdiv one (ssqrt (of_nat n_in))).
  destruct (uniform_matrix_ok n_out n_in (sneg bound) bound g)
    as (w & g1 & Hw & Sw).
  destruct (uniform_vector_ok n_out (sneg bound) bound g1) as (b & g2 & Hb & Sb).
  rewrite Hw, Hb. eexists; eexists; split; [reflexivity|].
  unfold Linear_wf, Linear_wfb. cbn [weight bias data].
  apply andb_true_iff. split; [now apply has_shapeb_spec|now apply Nat.eqb_eq].
Qed.

Lemma Linear_wf_pos (l : Linear) (k o : nat) :
  Linear_wf l k o -> 0 < o -> exists r w, data (weight l) = T2 (r :: w).
Proof.
  intros Hl Ho. destruct (Linear_wf_inv _ _ _ Hl) as (w & b & Ew & _ & [Hw _] & _).
  destruct w as [|r w]; simpl in *; [lia|eauto].
Qed.

Lemma xavier_ok (w : nn_Parameter) (m : matrix) (r c : nat) (g : rng) :
  data w = T2 m -> has_shape m r c -> 0 < r ->
  exists m' g',
    xavier_uniform_ w g
    = (Ok {| data := T2 m'; requires_grad := requires_grad w |}, g') /\
    has_shape m' r c.
Proof.
  intros Ew [Hr Hc] Hpos. unfold xavier_uniform_. rewrite Ew.
  destruct m as [|row m]; simpl in Hr; [lia|].
  inversion Hc as [|? ? Hrow Hrest]; subst.
  cbn [hd].
  destruct (Nat.eqb_spec (length row + length (row :: m)) 0) as [E|_];
    [simpl in E; lia|].
  unfold bind, ret.
  match goal with
  | |- context [uniform_matrix ?a ?b ?lo ?hi g] =>
      destruct (uniform_matrix_ok a b lo hi g) as (m' & g' & Hm' & Sm')
  end.
  rewrite Hm'. exists m', g'. split; auto.
Qed.

Lemma init_param_mat (w : nn_Parameter) (r c : nat) (g : rng) :
  is_mat (data w) r c -> 0 < r ->
  exists w' g', init_param w g = (Ok w', g') /\ is_mat (data w') r c /\
                requires_grad w' = requires_grad w.
Proof.
  intros Hw Hr. destruct (is_mat_inv _ _ _ Hw) as (m & Em & Sm).
  unfold init_param.
  destruct ((dim (data w) =? 2) && requires_grad w).
  - destruct (xavier_ok w m r c g Em Sm Hr) as (m' & g' & Hx & Sm').
    rewrite Hx. eexists; eexists; split; [reflexivity|]. split; auto.
    now apply is_mat_T2.
  - unfold ret. eauto.
Qed.

Lemma init_param_vec (w : nn_Parameter) (v : vector) (g : rng) :
  data w = T1 v -> init_param w g = (Ok w, g).
Proof. intros E. unfold init_param. now rewrite E. Qed.

Lemma init_Linear_ok (l : Linear) (k o : nat) (g : rng) :
  Linear_wf l k o -> 0 < o ->
  exists l' g', init_Linear l g = (Ok l', g') /\ Linear_wf l' k o /\
                bias l' = bias l.
Proof.
  intros Hl Ho.
  destruct (Linear_wf_inv _ _ _ Hl) as (w & b & Ew & Eb & Sw & Sb).
  destruct (init_param_mat (weight l) o k g) as (w' & g' & Hw' & Sw' & _); auto.
  { rewrite Ew. now apply is_mat_T2. }
  unfold init_Linear, bind, ret. rewrite Hw', (init_param_vec _ b _ Eb).
  eexists; eexists; split; [reflexivity|]. split; auto.
  destruct (is_mat_inv _ _ _ Sw') as (m' & Em' & Sm').
  unfold Linear_wf, Linear_wfb. cbn [weight bias]. rewrite Em', Eb.
  apply andb_true_iff. split; [now apply has_shapeb_spec|now apply Nat.eqb_eq].
Qed.

Lemma init_Sequential_ok (layers : Sequential) :
  forall (k o : nat) (g : rng),
    seq_width layers k = Some o -> seq_posb layers = true ->
    exists layers' g',
      mapM init_Module layers g = (Ok layers', g') /\
      seq_width layers' k = Some o.
Proof.
  induction layers as [|m rest IH]; intros k o g Hw Hp.
  - exists [], g. auto.
  - cbn [mapM seq_width seq_posb forallb] in *.
    apply andb_true_iff in Hp as [Hm Hp]. unfold bind, ret.
    destruct m as [l|a|p tr]; cbn [init_Module].
    + destruct (data (bias l)) as [?|b|?] eqn:Eb; try discriminate.
      destruct (Linear_wfb l k (length b)) eqn:El; try discriminate.
      assert (Hpos : 0 < length b).
      { destruct (Linear_wf_inv _ _ _ El) as (w & b' & Ew & _ & [Hw1 _] & _).
        rewrite Ew in Hm. destruct w; [discriminate|]. simpl in Hw1. lia. }
      destruct (init_Linear_ok l k (length b) g El Hpos) as (l' & g1 & Hl' & Wl' & Ebias).
      destruct (IH (length b) o g1 Hw Hp) as (rest' & g2 & Hrest & Wrest).
      unfold bind, ret. rewrite Hl', Hrest.
      eexists; eexists; split; [reflexivity|].
      cbn [seq_width]. rewrite Ebias, Eb. unfold Linear_wf in Wl'. now rewrite Wl'.
    + destruct (IH k o g Hw Hp) as (rest' & g2 & Hrest & Wrest).
      unfold ret. cbv beta iota. rewrite Hrest.
      eexists; eexists; split; [reflexivity|]. exact Wrest.
    + destruct (IH k o g Hw Hp) as (rest' & g2 & Hrest & Wrest).
      unfold ret. cbv beta iota. rewrite Hrest.
      eexists; eexists; split; [reflexivity|]. exact Wrest.
Qed.


Lemma init_param_nograd (w : nn_Parameter) (g : rng) :
  requires_grad w = false -> init_param w g = (Ok w, g).
Proof. intros E. unfold init_param. now rewrite E, andb_false_r. Qed.

Lemma init_backbone_ok (c0 : CfCCell) (k : nat) (g : rng) :
  feature_width c0 = Some k ->
  (if 0 <? backbone_layers c0
   then match backbone c0 with
        | Some bb => seq_posb bb = true
        | None => False
        end
   else backbone c0 = None) ->
  exists bb' g',
    optM (mapM init_Module) (backbone c0) g = (Ok bb', g') /\
    (if 0 <? backbone_layers c0
     then match bb' with
          | Some bb => seq_width bb (input_size c0 + hidden_size c0) = Some k
          | None => False
          end
     else Some (input_size c0 + hidden_size c0) = Some k).
Proof.
  unfold feature_width. intros Hk Hf.
  destruct (0 <? backbone_layers c0).
  - destruct (backbone c0) as [bb|]; [|contradiction].
    destruct (init_Sequential_ok bb _ k g Hk Hf) as (bb' & g' & Hbb & Wbb).
    exists (Some bb'), g'. cbn [optM]. unfold bind, ret. rewrite Hbb. auto.
  - rewrite Hf. exists None, g. auto.
Qed.

Lemma init_opt_Linear_ok (o : option Linear) (k h : nat) (g : rng) :
  0 < h ->
  match o with Some l => Linear_wf l k h | None => True end ->
  exists o' g',
    optM init_Linear o g = (Ok o', g') /\
    match o, o' with
    | Some _, Some l' => Linear_wf l' k h
    | None, None => True
    | _, _ => False
    end.
Proof.
  intros Hh Ho. destruct o as [l|].
  - destruct (init_Linear_ok l k h g Ho Hh) as (l' & g' & Hl & Wl & _).
    exists (Some l'), g'. cbn [optM]. unfold bind, ret. rewrite Hl. auto.
  - exists None, g. auto.
Qed.

Lemma init_opt_param_ok (o : option nn_Parameter) (r c : nat) (g : rng) :
  0 < r ->
  match o with Some w => is_mat (data w) r c | None => True end ->
  exists o' g',
    optM init_param o g = (Ok o', g') /\
    match o, o' with
    | Some _, Some w' => is_mat (data w') r c
    | None, None => True
    | _, _ => False
    end.
Proof.
  intros Hr Ho. destruct o as [w|].
  - destruct (init_param_mat w r c g Ho Hr) as (w' & g' & Hw & Sw & _).
    exists (Some w'), g'. cbn [optM]. unfold bind, ret. rewrite Hw. auto.
  - exists None, g. auto.
Qed.

(** [init_weights] goes through on the attributes the constructor has built,
    and keeps their shapes. *)
Lemma init_weights_ok (c0 : CfCCell) (g : rng) :
  heads_wfb c0 = true -> cell_fresh c0 ->
  exists c g2 g3 g',
    init_weights c0 g = (Ok c, g') /\
    optM init_param (w_tau c0) g = (Ok (w_tau c), g2) /\
    optM init_param (A c0) g2 = (Ok (A c), g3) /\
    heads_wfb c = true /\
    input_size c = input_size c0 /\ hidden_size c = hidden_size c0 /\
    mode c = mode c0 /\
    neuromod_network_dims c = neuromod_network_dims c0 /\
    backbone_layers c = backbone_layers c0 /\
    sparsity_mask c = sparsity_mask c0 /\
    tau_system c = tau_system c0 /\
    feature_width c = feature_width c0 /\
    (neuromod c0 = Some [] -> neuromod c = Some []).
Proof.
  intros Hw (Hpos & (v & Htau) & Hmask & Hbb & Hex).
  destruct (heads_wf_inv c0 Hw) as (k & Hk & W1 & Hh).
  assert (Hm0 : optM init_param (sparsity_mask c0) g = (Ok (sparsity_mask c0), g)).
  { destruct (sparsity_mask c0) as [m|]; [|reflexivity].
    cbn [optM]. unfold bind, ret. now rewrite (init_param_nograd m g Hmask). }
  assert (Stau : match w_tau c0 with
                 | Some w => is_mat (data w) 1 (hidden_size c0) | None => True
                 end /\
                 match A c0 with
                 | Some w => is_mat (data w) 1 (hidden_size c0) | None => True
                 end).
  { destruct (mode c0 =? "pure")%string;
      [|destruct (mode c0 =? "neuromodulated")%string].
    - destruct (tau_head_inv c0 Hh) as (wt & a & -> & -> & ? & ?). auto.
    - apply andb_true_iff in Hh as [Hh _].
      destruct (tau_head_inv c0 Hh) as (wt & a & -> & -> & ? & ?). auto.
    - destruct Hex as (-> & -> & _). auto. }
  destruct Stau as [Swt Sa].
  destruct (init_opt_param_ok (w_tau c0) 1 (hidden_size c0) g Nat.lt_0_1 Swt)
    as (wt' & g2 & Hwt & Swt').
  destruct (init_opt_param_ok (A c0) 1 (hidden_size c0) g2 Nat.lt_0_1 Sa)
    as (a' & g3 & Ha & Sa').
  pose proof (init_param_vec (tau_system c0) v g3 Htau) as Ht.
  destruct (init_backbone_ok c0 k g3 Hk Hbb) as (bb' & g4 & Hbb' & Wbb).
  destruct (init_Linear_ok (ff1 c0) k (hidden_size c0) g4 W1 Hpos)
    as (f1' & g5 & Hf1 & Wf1 & _).
  assert (Hnm : exists nm' g6,
    optM (mapM init_Module) (neuromod c0) g5 = (Ok nm', g6) /\
    (neuromod c0 = Some [] -> nm' = Some []) /\
    match neuromod_network_dims c0, neuromod c0, nm' with
    | Some (d0 :: _), Some _, Some nm =>
        (mode c0 =? "neuromodulated")%string = true ->
        seq_width nm d0 = Some (hidden_size c0)
    | _, None, None => True
    | _, _, _ => (mode c0 =? "neuromodulated")%string = false
    end).
  { destruct (mode c0 =? "pure")%string eqn:Ep;
      [|destruct (mode c0 =? "neuromodulated")%string eqn:En].
    - destruct Hex as (-> & _). exists None, g5.
      repeat split; try discriminate. now destruct (neuromod_network_dims c0) as [[|? ?]|].
    - apply andb_true_iff in Hh as [_ Hn].
      destruct (neuromod_inv c0 Hn) as (d0 & dims & nm & Ed & Enm & Wnm & _).
      destruct Hex as (Hp & _). rewrite Enm in Hp.
      destruct (init_Sequential_ok nm d0 _ g5 Wnm Hp) as (nm' & g6 & Hnm & Wnm').
      exists (Some nm'), g6. rewrite Enm, Ed. cbn [optM]. unfold bind, ret.
      rewrite Hnm. repeat split; auto.
      intros E. injection E as ->. cbn in Hnm. unfold ret in Hnm. congruence.
    - destruct Hex as (_ & _ & ->). exists None, g5.
      repeat split; try discriminate. now destruct (neuromod_network_dims c0) as [[|? ?]|]. }
  destruct Hnm as (nm' & g6 & Hnm & Hnil & Wnm).
  assert (Sg : match ff2 c0 with Some l => Linear_wf l k (hidden_size c0) | None => True end
               /\ match time_a c0 with Some l => Linear_wf l k (hidden_size c0) | None => True end
               /\ match time_b c0 with Some l => Linear_wf l k (hidden_size c0) | None => True end).
  { destruct (mode c0 =? "pure")%string;
      [|destruct (mode c0 =? "neuromodulated")%string].
    - destruct Hex as (_ & -> & -> & ->). auto.
    - destruct Hex as (_ & -> & -> & ->). auto.
    - destruct (gate_head_inv c0 k Hh) as (l2 & la & lb & -> & -> & -> & ? & ? & ?).
      auto. }
  destruct Sg as (S2 & Sa2 & Sb2).
  destruct (init_opt_Linear_ok (ff2 c0) k _ g6 Hpos S2) as (f2' & g7 & Hf2 & Wf2).
  destruct (init_opt_Linear_ok (time_a c0) k _ g7 Hpos Sa2) as (ta' & g8 & Hta & Wta).
  destruct (init_opt_Linear_ok (time_b c0) k _ g8 Hpos Sb2) as (tb' & g9 & Htb & Wtb).
  unfold init_weights, bind, ret.
  rewrite Hm0, Hwt, Ha, Ht, Hbb', Hf1, Hnm, Hf2, Hta, Htb.
  eexists; exists g2, g3; eexists. split; [reflexivity|].
  cbn [input_size hidden_size mode neuromod_network_dims backbone_layers
       sparsity_mask tau_system w_tau A neuromod].
  assert (Hfw : feature_width
    {| input_size := input_size c0; hidden_size := hidden_size c0;
       sparsity_mask := sparsity_mask c0; mode := mode c0;
       neuromod_network_dims := neuromod_network_dims c0;
       backbone := bb'; backbone_layers := backbone_layers c0;
       ff1 := f1'; w_tau := wt'; A := a'; neuromod := nm';
       ff2 := f2'; time_a := ta'; time_b := tb';
       tau_system := tau_system c0 |} = Some k).
  { unfold feature_width. cbn [backbone_layers backbone input_size hidden_size].
    destruct (0 <? backbone_layers c0); [|exact Wbb].
    destruct bb' as [bb|]; [exact Wbb|contradiction]. }
  repeat split; auto; [|now rewrite Hfw, Hk].
  unfold heads_wfb. rewrite Hfw. cbn [ff1 hidden_size mode].
  unfold Linear_wf in Wf1. rewrite Wf1. cbn [andb].
  unfold tau_head_wfb, neuromod_wfb, gate_head_wfb.
  cbn [w_tau A neuromod neuromod_network_dims ff2 time_a time_b hidden_size].
  destruct (mode c0 =? "pure")%string eqn:Ep;
    [|destruct (mode c0 =? "neuromodulated")%string eqn:En].
  - destruct (tau_head_inv c0 Hh) as (wt & a & Ewt & Ea & _).
    rewrite Ewt in Swt'. rewrite Ea in Sa'.
    destruct wt' as [wt'|]; [|contradiction].
    destruct a' as [a'|]; [|contradiction].
    unfold is_mat in *. now rewrite Swt', Sa'.
  - apply andb_true_iff in Hh as [Hh Hn].
    destruct (tau_head_inv c0 Hh) as (wt & a & Ewt & Ea & _).
    rewrite Ewt in Swt'. rewrite Ea in Sa'.
    destruct wt' as [wt'|]; [|contradiction].
    destruct a' as [a'|]; [|contradiction].
    unfold is_mat in *. rewrite Swt', Sa'. cbn [andb].
    destruct (neuromod_inv c0 Hn) as (d0 & dims & nm & Ed & Enm & _ & Hlast).
    rewrite Ed, Enm in Wnm. rewrite Ed.
    destruct nm' as [nm'|]; [|discriminate].
    rewrite (Wnm eq_refl), Hlast, !Nat.eqb_refl. reflexivity.
  - destruct (gate_head_inv c0 k Hh) as (l2 & la & lb & E2 & Ea & Eb & _).
    rewrite E2 in Wf2. rewrite Ea in Wta. rewrite Eb in Wtb.
    destruct f2' as [f2'|]; [|contradiction].
    destruct ta' as [ta'|]; [|contradiction].
    destruct tb' as [tb'|]; [|contradiction].
    unfold Linear_wf in *. now rewrite Wf2, Wta, Wtb.
Qed.


Lemma select_activation_ok (St : Type) (a : string) (s : St) :
  existsb (String.eqb a) activations = true ->
  exists k, select_activation a s = (Ok k, s).
Proof.
  unfold activations, existsb, select_activation.
  destruct (a =? "silu")%string; [unfold ret; eauto|].
  destruct (a =? "relu")%string; [unfold ret; eauto|].
  destruct (a =? "tanh")%string; [unfold ret; eauto|].
  destruct (a =? "gelu")%string; [unfold ret; eauto|].
  destruct (a =? "lecun_tanh")%string; [unfold ret; eauto|discriminate].
Qed.

Lemma seq_width_Linear (l : Linear) (rest : Sequential) (k o : nat) :
  Linear_wf l k o ->
  seq_width (LinearLayer l :: rest) k = seq_width rest o.
Proof.
  intros Hl. destruct (Linear_wf_inv _ _ _ Hl) as (w & b & Ew & Eb & Sw & Sb).
  cbn [seq_width]. rewrite Eb, Sb. unfold Linear_wf in Hl. now rewrite Hl.
Qed.

Lemma seq_posb_Linear (l : Linear) (rest : Sequential) (k o : nat) :
  Linear_wf l k o -> 0 < o ->
  seq_posb (LinearLayer l :: rest) = seq_posb rest.
Proof.
  intros Hl Ho. destruct (Linear_wf_pos l k o Hl Ho) as (r & w & Ew).
  unfold seq_posb. cbn [forallb]. now rewrite Ew.
Qed.

Ltac run H := rewrite H; cbv beta iota.

Lemma backbone_blocks_ok (n : nat) (act : act_kind) (units : nat) (p : scalar) :
  n = 0 \/ dropout_valid p = true -> 0 < units ->
  forall g, exists layers g',
    backbone_blocks n act units p g = (Ok layers, g') /\
    seq_width layers units = Some units /\ seq_posb layers = true.
Proof.
  intros Hp Hu. induction n as [|n IH]; intros g.
  - exists [], g. auto.
  - destruct Hp as [Hp|Hp]; [discriminate|].
    cbn [backbone_blocks]. unfold bind.
    destruct (nn_Linear_ok units units g) as (l & g1 & Hl & Wl). run Hl.
    assert (Hd : exists d, (if sltb zero p
                            then (m <- nn_Dropout p ;; ret [m])
                            else ret []) g1 = (Ok d, g1) /\
                           (forall rest k, seq_width (d ++ rest) k = seq_width rest k) /\
                           (forall rest, seq_posb (d ++ rest) = seq_posb rest)).
    { unfold dropout_valid in Hp. destruct (sltb zero p); cbn in Hp.
      - unfold bind, nn_Dropout, ret. apply negb_true_iff in Hp. rewrite Hp.
        eexists; split; [reflexivity|]. split; reflexivity.
      - unfold ret. exists []. auto. }
    destruct Hd as (d & Hd & Wd & Pd). unfold bind in Hd. run Hd.
    destruct (IH (or_intror Hp) g1) as (rest & g2 & Hrest & Wrest & Prest).
    rewrite Hrest. unfold ret.
    eexists; eexists; split; [reflexivity|]. split.
    + rewrite (seq_width_Linear l _ units units Wl). cbn [seq_width].
      now rewrite Wd.
    + rewrite (seq_posb_Linear l _ units units Wl Hu).
      change (seq_posb (Activation act :: d ++ rest))
        with (seq_posb (d ++ rest)).
      now rewrite Pd.
Qed.

Lemma neuromod_layers_cons (act : act_kind) (d0 d1 : nat) (ds : list nat) :
  neuromod_layers act (d0 :: d1 :: ds) =
  (l <- nn_Linear d0 d1 ;;
   rest <- neuromod_layers act (d1 :: ds) ;;
   ret (LinearLayer l :: Activation act :: rest)).
Proof. reflexivity. Qed.

Lemma neuromod_layers_ok (act : act_kind) (ds : list nat) :
  forall (d0 : nat) (g : rng),
    forallb (fun d => 0 <? d) ds = true ->
    exists layers g',
      neuromod_layers act (d0 :: ds) g = (Ok layers, g') /\
      seq_width layers d0 = Some (last (d0 :: ds) 0) /\
      seq_posb layers = true /\
      (ds = [] -> layers = []).
Proof.
  induction ds as [|d1 ds IH]; intros d0 g Hpos.
  - exists [], g. auto.
  - cbn [forallb] in Hpos. apply andb_true_iff in Hpos as [H1 Hpos].
    apply Nat.ltb_lt in H1.
    rewrite neuromod_layers_cons. unfold bind.
    destruct (nn_Linear_ok d0 d1 g) as (l & g1 & Hl & Wl). run Hl.
    destruct (IH d1 g1 Hpos) as (rest & g2 & Hrest & Wrest & Prest & _).
    rewrite Hrest. unfold ret.
    eexists; eexists; split; [reflexivity|]. split; [|split].
    + rewrite (seq_width_Linear l _ d0 d1 Wl). cbn [seq_width].
      exact Wrest.
    + rewrite (seq_posb_Linear l _ d0 d1 Wl H1). exact Prest.
    + discriminate.
Qed.


Lemma build_backbone_ok (n_in hidden : nat) (act : act_kind)
  (units layers : nat) (p : scalar) (g : rng) :
  ((layers =? 0) || (0 <? units)) = true ->
  ((layers <=? 1) || dropout_valid p) = true ->
  exists bb g',
    build_backbone n_in hidden act units layers p g = (Ok bb, g') /\
    (if 0 <? layers
     then match bb with
          | Some b => seq_width b (n_in + hidden) = Some units /\
                      seq_posb b = true
          | None => False
          end
     else bb = None).
Proof.
  intros Hu Hd. unfold build_backbone.
  destruct layers as [|n]; [exists None, g; split; reflexivity|].
  change (S n =? 0) with false in Hu. cbn [orb] in Hu.
  apply Nat.ltb_lt in Hu. change (0 <? S n) with true. cbv beta iota.
  replace (S n - 1) with n by lia.
  unfold bind.
  destruct (nn_Linear_ok (n_in + hidden) units g) as (l & g1 & Hl & Wl). run Hl.
  destruct (backbone_blocks_ok n act units p) with (g := g1)
    as (rest & g2 & Hrest & Wrest & Prest); auto.
  { destruct n; [now left|right]. exact Hd. }
  rewrite Hrest. unfold ret. eexists; eexists; split; [reflexivity|].
  split.
  - rewrite (seq_width_Linear l _ _ units Wl). exact Wrest.
  - rewrite (seq_posb_Linear l _ _ units Wl Hu). exact Prest.
Qed.

Lemma build_head_ok (mode : string) (hidden cat : nat)
  (dims : option (list nat)) (nact : act_kind) (g : rng) :
  0 < hidden -> neuromod_dims_valid mode hidden dims = true ->
  exists wt a nm f2 ta tb g',
    build_head mode hidden cat dims nact g
    = (Ok (wt, a, nm, f2, ta, tb), g') /\
    if ((mode =? "pure") || (mode =? "neuromodulated"))%string
    then wt = Some (zeros_param hidden) /\ a = Some (ones_param hidden) /\
         f2 = None /\ ta = None /\ tb = None /\
         if (mode =? "neuromodulated")%string
         then exists d0 ds layers,
                dims = Some (d0 :: ds) /\ nm = Some layers /\
                seq_width layers d0 = Some hidden /\
                seq_posb layers = true /\ (ds = [] -> layers = []) /\
                last (d0 :: ds) 0 = hidden
         else nm = None
    else wt = None /\ a = None /\ nm = None /\
         exists l2 la lb,
           f2 = Some l2 /\ ta = Some la /\ tb = Some lb /\
           Linear_wf l2 cat hidden /\ Linear_wf la cat hidden /\
           Linear_wf lb cat hidden.
Proof.
  intros Hh Hn. unfold build_head, neuromod_dims_valid in *.
  destruct ((mode =? "pure") || (mode =? "neuromodulated"))%string.
  - unfold bind. destruct (mode =? "neuromodulated")%string.
    + destruct dims as [[|d0 ds]|]; try discriminate.
      apply andb_true_iff in Hn as [Hl Hp]. rewrite Hl. cbn [negb].
      apply Nat.eqb_eq in Hl.
      destruct (neuromod_layers_ok nact ds d0 g Hp)
        as (layers & g' & Hlay & Wlay & Play & Hnil).
      unfold bind. rewrite Hlay. unfold ret.
      do 6 eexists; eexists; split; [reflexivity|].
      repeat split; auto. exists d0, ds, layers. rewrite Hl in Wlay. auto 8.
    + unfold ret. do 6 eexists; eexists; split; [reflexivity|].
      repeat split; auto.
  - unfold bind.
    destruct (nn_Linear_ok cat hidden g) as (l2 & g1 & H2 & W2). run H2.
    destruct (nn_Linear_ok cat hidden g1) as (la & g2 & Ha & Wa). run Ha.
    destruct (nn_Linear_ok cat hidden g2) as (lb & g3 & Hb & Wb). run Hb.
    unfold ret. do 6 eexists; eexists; split; [reflexivity|].
    repeat split; auto. exists l2, la, lb. auto 8.
Qed.


Lemma is_mat_row (v : vector) (h : nat) :
  length v = h -> is_matb (T2 [v]) 1 h = true.
Proof.
  intros E. cbn [is_matb has_shapeb length forallb Nat.eqb andb].
  rewrite E, Nat.eqb_refl. reflexivity.
Qed.

Lemma CfCCell_attributes_ok (n_in hidden : nat) (md act : string)
  (units layers : nat) (p : scalar) (mask : option matrix)
  (dims : option (list nat)) (nact : act_kind) (g : rng) :
  valid_args hidden md act units layers p dims = true ->
  exists c0 g0,
    CfCCell_attributes n_in hidden md act units layers p mask dims nact g
    = (Ok c0, g0) /\
    heads_wfb c0 = true /\ cell_fresh c0 /\
    input_size c0 = n_in /\ hidden_size c0 = hidden /\ mode c0 = md /\
    neuromod_network_dims c0 = dims /\ backbone_layers c0 = layers /\
    sparsity_mask c0 = option_map mask_param mask /\
    feature_width c0 = Some (if layers =? 0 then n_in + hidden else units) /\
    (((md =? "pure") || (md =? "neuromodulated"))%string = true ->
     w_tau c0 = Some (zeros_param hidden) /\ A c0 = Some (ones_param hidden)) /\
    (md = "neuromodulated" -> dims = Some [hidden] -> neuromod c0 = Some []).
Proof.
  unfold valid_args. rewrite !andb_true_iff.
  intros [[[[[Hmode Hact] Hh] Hu] Hd] Hn]. apply Nat.ltb_lt in Hh.
  unfold CfCCell_attributes. rewrite Hmode. cbn [negb]. unfold bind.
  destruct (select_activation_ok rng act g Hact) as (k & Hk). run Hk.
  destruct (build_backbone_ok n_in hidden k units layers p g Hu Hd)
    as (bb & g1 & Hbb & Wbb).
  run Hbb.
  set (cat := if layers =? 0 then n_in + hidden else units).
  replace (if layers =? 0 then hidden + n_in else units) with cat
    by (unfold cat; destruct (layers =? 0); auto using Nat.add_comm).
  destruct (nn_Linear_ok cat hidden g1) as (f1 & g2 & Hf1 & Wf1). run Hf1.
  destruct (build_head_ok md hidden cat dims nact g2 Hh Hn)
    as (wt & a & nm & f2 & ta & tb & g3 & Hhead & Fhead).
  run Hhead. unfold ret.
  eexists; eexists; split; [reflexivity|].
  cbn [input_size hidden_size mode neuromod_network_dims backbone_layers
       sparsity_mask w_tau A neuromod].
  assert (Hfw : forall ts0,
    feature_width
      {| input_size := n_in; hidden_size := hidden;
         sparsity_mask := option_map mask_param mask; mode := md;
         neuromod_network_dims := dims; backbone := bb;
         backbone_layers := layers; ff1 := f1; w_tau := wt; A := a;
         neuromod := nm; ff2 := f2; time_a := ta; time_b := tb;
         tau_system := ts0 |} = Some cat).
  { intros ts0. unfold feature_width, cat.
    cbn [backbone_layers backbone input_size hidden_size].
    destruct layers as [|n]; [reflexivity|].
    change (0 <? S n) with true in *. cbv beta iota in *.
    destruct bb as [b|]; [apply Wbb|contradiction]. }
  split; [|split; [|do 5 (split; [reflexivity|]); split; [reflexivity|];
                    split; [apply Hfw|]; split]].
  - unfold heads_wfb. rewrite Hfw.
    cbn [ff1 hidden_size mode].
    unfold Linear_wf in Wf1. rewrite Wf1. cbn [andb].
    unfold tau_head_wfb, neuromod_wfb, gate_head_wfb.
    cbn [w_tau A neuromod neuromod_network_dims ff2 time_a time_b hidden_size].
    destruct (md =? "pure")%string eqn:Ep;
      [|destruct (md =? "neuromodulated")%string eqn:En]; cbn [orb] in Fhead.
    + destruct Fhead as (-> & -> & _).
      cbn [data zeros_param ones_param].
      apply andb_true_iff; split; apply is_mat_row, repeat_length.
    + destruct Fhead as (-> & -> & _ & _ & _ & d0 & ds & lay & -> & -> & Wl & _ & _ & Hl).
      cbn [data zeros_param ones_param].
      rewrite Wl, Hl, Nat.eqb_refl. cbn [andb]. rewrite andb_true_r.
      apply andb_true_iff; split; apply is_mat_row, repeat_length.
    + destruct Fhead as (_ & _ & _ & l2 & la & lb & -> & -> & -> & W2 & Wa & Wb).
      unfold Linear_wf in *. now rewrite W2, Wa, Wb.
  - unfold cell_fresh.
    cbn [hidden_size tau_system data sparsity_mask backbone_layers backbone
         mode neuromod ff2 time_a time_b w_tau A].
    split; [exact Hh|]. split; [eauto|]. split.
    { destruct mask; cbn; auto. }
    split.
    { destruct (0 <? layers); [|exact Wbb].
      destruct bb as [b|]; [apply Wbb|contradiction]. }
    destruct (md =? "pure")%string eqn:Ep;
      [|destruct (md =? "neuromodulated")%string eqn:En]; cbn [orb] in Fhead.
    + assert (En : (md =? "neuromodulated")%string = false)
        by (apply String.eqb_eq in Ep; subst; reflexivity).
      rewrite En in Fhead.
      destruct Fhead as (_ & _ & -> & -> & -> & ->). auto.
    + destruct Fhead as (_ & _ & -> & -> & -> & d0 & ds & lay & _ & -> & _ & Pl & _).
      auto.
    + destruct Fhead as (-> & -> & -> & _). auto.
  - intros Hm. rewrite Hm in Fhead. now destruct Fhead as (-> & -> & _).
  - intros -> ->. cbn in Fhead.
    destruct Fhead as (_ & _ & _ & _ & _ & d0 & ds & lay & E & -> & _ & _ & Hnil & _).
    injection E as <- <-. now rewrite Hnil.
Qed.


(** Construction with valid arguments succeeds; the cell has the shapes
    [forward] relies on, and [w_tau] and [A] hold what [init_param] made of
    the zeros and ones the constructor assigned. *)
Lemma CfCCell_init_ok (n_in hidden : nat) (md act : string)
  (units layers : nat) (p : scalar) (mask : option matrix)
  (dims : option (list nat)) (nact : act_kind) (g : rng) :
  valid_args hidden md act units layers p dims = true ->
  exists c0 g0 c g2 g3 g',
    CfCCell_attributes n_in hidden md act units layers p mask dims nact g
    = (Ok c0, g0) /\
    CfCCell_init n_in hidden md act units layers p mask dims nact g
    = (Ok c, g') /\
    optM init_param (w_tau c0) g0 = (Ok (w_tau c), g2) /\
    optM init_param (A c0) g2 = (Ok (A c), g3) /\
    (((md =? "pure") || (md =? "neuromodulated"))%string = true ->
     w_tau c0 = Some (zeros_param hidden) /\ A c0 = Some (ones_param hidden)) /\
    heads_wfb c = true /\
    input_size c = n_in /\ hidden_size c = hidden /\ mode c = md /\
    neuromod_network_dims c = dims /\
    sparsity_mask c = option_map mask_param mask /\
    feature_width c = Some (if layers =? 0 then n_in + hidden else units) /\
    (md = "neuromodulated" -> dims = Some [hidden] -> neuromod c = Some []).
Proof.
  intros Hv.
  destruct (CfCCell_attributes_ok n_in hidden md act units layers p mask dims
              nact g Hv)
    as (c0 & g0 & Hc0 & Hw0 & Hf0 & E1 & E2 & E3 & E4 & E5 & E6 & E7 & Htau & Hnil).
  destruct (init_weights_ok c0 g0 Hw0 Hf0)
    as (c & g2 & g3 & g' & Hc & Hwt & Ha & Hw & F1 & F2 & F3 & F4 & F5 & F6 & F7
        & F8 & Fnil).
  exists c0, g0, c, g2, g3, g'.
  split; [exact Hc0|]. split.
  { unfold CfCCell_init, bind. now rewrite Hc0. }
  split; [exact Hwt|]. split; [exact Ha|]. split; [exact Htau|].
  split; [exact Hw|].
  repeat split; try congruence.
  intros Hm Hd. apply Fnil. now apply Hnil.
Qed.

Lemma backbone_blocks_result (n : nat) (act : act_kind) (units : nat)
  (p : scalar) :
  forall g, exists r g',
    backbone_blocks n act units p g = (r, g') /\
    match r with
    | Ok _ => True
    | Raise e => spec_category e = Some InvalidConfiguration
    end.
Proof.
  induction n as [|n IH]; intros g.
  - exists (Ok []), g. split; [reflexivity|exact I].
  - cbn [backbone_blocks]. unfold bind.
    destruct (nn_Linear_ok units units g) as (l & g1 & Hl & _). run Hl.
    destruct (sltb zero p).
    + unfold bind, nn_Dropout.
      destruct (sltb p zero || sltb one p).
      * unfold raise. eexists; eexists; split; [reflexivity|]. reflexivity.
      * unfold ret. cbv beta iota.
        destruct (IH g1) as ([rest|e] & g2 & Hrest & Hr); rewrite Hrest;
          eexists; eexists; (split; [reflexivity|]); auto.
    + unfold ret. cbv beta iota.
      destruct (IH g1) as ([rest|e] & g2 & Hrest & Hr); rewrite Hrest;
        eexists; eexists; (split; [reflexivity|]); auto.
Qed.

(** C6. The constructor fails with an error of the kind
    [InvalidConfiguration] when the mode is not one of the four allowed
    values, and, in mode "neuromodulated", when [neuromod_network_dims] is
    absent or its last element differs from [hidden_size]; on valid
    arguments it returns a cell. *)
Theorem init_checks (n_in hidden : nat) (md act : string)
  (units layers : nat) (p : scalar) (mask : option matrix)
  (dims : option (list nat)) (nact : act_kind) (g : rng) :
  let init :=
    CfCCell_init n_in hidden md act units layers p mask dims nact g in
  (existsb (String.eqb md) allowed_modes = false ->
   init = (Raise (ValueError (unknown_mode_msg md)), g) /\
   spec_category (ValueError (unknown_mode_msg md)) = Some InvalidConfiguration)
  /\ (md = "neuromodulated" ->
      dims = None \/ (exists ds d, dims = Some (ds ++ [d]) /\ d <> hidden) ->
      exists e g', init = (Raise e, g') /\
                   spec_category e = Some InvalidConfiguration)
  /\ (valid_args hidden md act units layers p dims = true ->
      exists c g', init = (Ok c, g')).
Proof.
  cbv zeta. split; [|split].
  - intros Hm. split; [|reflexivity].
    unfold CfCCell_init, CfCCell_attributes, bind. now rewrite Hm.
  - intros -> Hd.
    unfold CfCCell_init, CfCCell_attributes, bind.
    cbn [existsb allowed_modes String.eqb Ascii.eqb Bool.eqb orb negb].
    assert (Hact : (exists k, forall s : rng,
                      select_activation act s = (Ok k, s)) \/
                   (forall s : rng, select_activation act s
                      = (Raise (ValueError ("Unknown activation " ++ act)%string), s))).
    { unfold select_activation.
      destruct (act =? "silu")%string; [left; eexists; reflexivity|].
      destruct (act =? "relu")%string; [left; eexists; reflexivity|].
      destruct (act =? "tanh")%string; [left; eexists; reflexivity|].
      destruct (act =? "gelu")%string; [left; eexists; reflexivity|].
      destruct (act =? "lecun_tanh")%string; [left; eexists; reflexivity|].
      right. reflexivity. }
    destruct Hact as [(k & Hk)|Hk]; rewrite Hk;
      [|eexists; eexists; split; reflexivity].
    assert (Hbb : exists r g1,
      build_backbone n_in hidden k units layers p g = (r, g1) /\
      match r with
      | Ok _ => True
      | Raise e => spec_category e = Some InvalidConfiguration
      end).
    { unfold build_backbone. destruct (0 <? layers).
      - unfold bind.
        destruct (nn_Linear_ok (n_in + hidden) units g) as (l & g1 & Hl & _).
        run Hl.
        destruct (backbone_blocks_result (layers - 1) k units p g1)
          as ([rest|e] & g2 & Hrest & Hr); rewrite Hrest;
          eexists; eexists; (split; [reflexivity|]); auto.
      - eexists; eexists; split; [reflexivity|exact I]. }
    destruct Hbb as ([bb|e] & g1 & Hbb & Hr); rewrite Hbb;
      [|eexists; eexists; split; [reflexivity|exact Hr]].
    match goal with
    | |- context [nn_Linear ?a ?b g1] =>
        destruct (nn_Linear_ok a b g1) as (f1 & g2 & Hf1 & _)
    end.
    run Hf1. unfold build_head.
    cbn [String.eqb Ascii.eqb Bool.eqb orb]. unfold bind.
    destruct Hd as [->|(ds & d & -> & Hne)].
    + eexists; eexists; split; reflexivity.
    + destruct (ds ++ [d]) as [|d0 l] eqn:E.
      { destruct ds; discriminate. }
      rewrite <- E, last_last.
      destruct (Nat.eqb_spec d hidden) as [|_]; [contradiction|].
      eexists; eexists; split; reflexivity.
  - intros Hv.
    destruct (CfCCell_init_ok n_in hidden md act units layers p mask dims nact g Hv)
      as (c0 & g0 & c & g2 & g3 & g' & _ & Hc & _).
    eauto.
Qed.

(** C10. With [neuromod_network_dims = [hidden_size]] the constructor passes
    both checks of mode "neuromodulated" and builds an empty neuromodulation
    network, whose output in [forward] is the neuromodulation input itself. *)
Theorem init_identity_neuromod (n_in hidden : nat) (act : string)
  (units layers : nat) (p : scalar) (mask : option matrix) (nact : act_kind)
  (g : rng) :
  valid_args hidden "neuromodulated" act units layers p (Some [hidden]) = true ->
  exists c g',
    CfCCell_init n_in hidden "neuromodulated" act units layers p mask
      (Some [hidden]) nact g = (Ok c, g') /\
    neuromod c = Some [] /\
    forall (policy_input neuromod_input : tensor) (g1 : rng),
      neuromod_call c (Tuple policy_input neuromod_input) g1
      = (Ok neuromod_input, g1).
Proof.
  intros Hv.
  destruct (CfCCell_init_ok n_in hidden "neuromodulated" act units layers p
              mask (Some [hidden]) nact g Hv)
    as (c0 & g0 & c & g2 & g3 & g' & _ & Hc & _ & _ & _ & _ & _ & _ & _ & _ & _
        & _ & Hnil).
  exists c, g'. split; [exact Hc|].
  specialize (Hnil eq_refl eq_refl). split; [exact Hnil|].
  intros pi ni g1. unfold neuromod_call, bind, lift, attr. now rewrite Hnil.
Qed.

(** The parameters [w_tau] and [A] pass the test of [init_weights] (they are
    two-dimensional and trainable): after construction they hold what
    [xavier_uniform_] has drawn, not the zeros and ones assigned before. *)
Lemma init_xavier_overwrites (n_in hidden : nat) (md act : string)
  (units layers : nat) (p : scalar) (mask : option matrix)
  (dims : option (list nat)) (nact : act_kind) (g : rng) :
  valid_args hidden md act units layers p dims = true ->
  ((md =? "pure") || (md =? "neuromodulated"))%string = true ->
  exists c g' g1 g2 g3 wt a,
    CfCCell_init n_in hidden md act units layers p mask dims nact g
    = (Ok c, g') /\
    xavier_uniform_ (zeros_param hidden) g1 = (Ok wt, g2) /\
    xavier_uniform_ (ones_param hidden) g2 = (Ok a, g3) /\
    w_tau c = Some wt /\ A c = Some a.
Proof.
  intros Hv Hm.
  destruct (CfCCell_init_ok n_in hidden md act units layers p mask dims nact g Hv)
    as (c0 & g0 & c & g2 & g3 & g' & _ & Hc & Hwt & Ha & Htau & _).
  destruct (Htau Hm) as [Ewt Ea]. rewrite Ewt in Hwt. rewrite Ea in Ha.
  cbn [optM] in Hwt, Ha. unfold bind, ret, init_param in Hwt, Ha.
  cbn [zeros_param ones_param data requires_grad dim Nat.eqb andb] in Hwt, Ha.
  fold (zeros_param hidden) in Hwt. fold (ones_param hidden) in Ha.
  destruct (xavier_uniform_ (zeros_param hidden) g0) as [[wt|e] g2'] eqn:Xw;
    [|discriminate].
  injection Hwt as Hwt <-.
  destruct (xavier_uniform_ (ones_param hidden) g2') as [[a|e] g3'] eqn:Xa;
    [|discriminate].
  injection Ha as Ha <-.
  exists c, g', g0, g2', g3', wt, a. auto.
Qed.

(** A constructed cell is well formed when the mask, once transposed, has
    the shape of the weight of a head. *)
Lemma CfCCell_init_wf (n_in hidden : nat) (md act : string)
  (units layers : nat) (p : scalar) (mask : option matrix)
  (dims : option (list nat)) (nact : act_kind) (g g' : rng) (c : CfCCell) :
  valid_args hidden md act units layers p dims = true ->
  match mask with
  | Some m => has_shape (transpose m) hidden
                (if layers =? 0 then n_in + hidden else units)
  | None => True
  end ->
  CfCCell_init n_in hidden md act units layers p mask dims nact g = (Ok c, g') ->
  cell_wf c.
Proof.
  intros Hv Hmask Hc.
  destruct (CfCCell_init_ok n_in hidden md act units layers p mask dims nact g Hv)
    as (c0 & g0 & c' & g2 & g3 & g'' & _ & Hc' & _ & _ & _ & Hw & _ & Eh & _ & _
        & Em & Ef & _).
  rewrite Hc in Hc'. injection Hc' as <- <-.
  unfold cell_wf, cell_wfb. rewrite Hw. cbn [andb].
  unfold mask_wfb. rewrite Em, Ef, Eh.
  destruct mask as [m|]; [|reflexivity]. cbn [option_map mask_param data is_matb].
  apply has_shapeb_spec. now apply has_shape_map.
Qed.

End Properties.

(** ** The properties at concrete cells *)

Module Concrete.
Import RealBackend Examples.

Local Open Scope R_scope.

Lemma Reqb_false (a b : R) : a <> b -> Reqb a b = false.
Proof. unfold Reqb. destruct (Req_dec_T a b); tauto. Qed.

Lemma Rltb_true (a b : R) : a < b -> Rltb a b = true.
Proof. unfold Rltb. destruct (Rlt_dec a b); tauto. Qed.

Lemma Rltb_false (a b : R) : ~ a < b -> Rltb a b = false.
Proof. unfold Rltb. destruct (Rlt_dec a b); tauto. Qed.





(** The constructor, called with [backbone_layers = 2] and
    [backbone_dropout = 0.5], ends the backbone with a dropout layer in
    training mode, whatever the generator: the cell draws at every call. *)
Lemma init_dropout_backbone (g : generator) :
  exists c g' l0 l1,
    CfCCell_init 1 1 "pure" "relu" 1 2 (1 / 2) None None Tanh g = (Ok c, g') /\
    backbone c = Some [LinearLayer l0; Activation ReLU; LinearLayer l1;
                       Activation ReLU; Dropout (1 / 2) true] /\
    deterministic_net (backbone c) = false.
Proof.
  unfold CfCCell_init, CfCCell_attributes, build_backbone, build_head,
    init_weights, bind.
  cbn -[Rltb Reqb].
  rewrite (Rltb_true 0 (1 / 2)) by lra.
  unfold bind, nn_Dropout. cbn -[Rltb Reqb].
  rewrite (Rltb_false (1 / 2) 0), (Rltb_false 1 (1 / 2)) by lra.
  cbn -[Rltb Reqb].
  do 4 eexists. split; [reflexivity|]. cbn [backbone]. split; [reflexivity|].
  cbn -[Reqb]. now rewrite !Reqb_false by lra.
Qed.


(** C3.  Constructing [CfCCell(1, 2, mode="pure", backbone_layers=0)] with a
    generator whose variates are all 0: [init_weights] re-initialises
    [w_tau] and [A], which are two-dimensional and trainable, so that they
    hold neither zeros nor ones. *)
Theorem init_overwrites_w_tau_and_A :
  exists c g',
    CfCCell_init 1 2 "pure" "lecun_tanh" 128 0 0 None None Tanh all_zero
    = (Ok c, g') /\
    w_tau c <> Some (zeros_param 2) /\ A c <> Some (ones_param 2).
Proof.
  eexists; eexists. split.
  - unfold CfCCell_init, CfCCell_attributes, build_backbone, build_head,
      init_weights, bind.
    cbn. reflexivity.
  - cbn [w_tau A zeros_param ones_param repeat zero one backend].
    set (a := sqrt (Q2R 3) * (1 * sqrt (Q2R 2 / (1 + 1 + 1)))).
    assert (Ha : 0 < a).
    { unfold a. apply Rmult_lt_0_compat.
      - apply sqrt_lt_R0. unfold Q2R. simpl. lra.
      - rewrite Rmult_1_l. apply sqrt_lt_R0. unfold Q2R. simpl. lra. }
    split; intros H; injection H as H _; lra.
Qed.

(** *** Instances at concrete cells *)



Lemma forward_shape_witness :
  cell_wf no_gate_cell /\
  exists new_hidden w',
    forward (Tensor (T2 [[1]])) (T2 [[0]]) (T0 0)
      {| self := no_gate_cell; gen := all_zero |}
    = (Ok (new_hidden, new_hidden), w') /\
    is_mat new_hidden 1 (hidden_size no_gate_cell).
Proof.
  split; [reflexivity|].
  exact (forward_shape no_gate_cell (Tensor (T2 [[1]])) (T2 [[0]]) (T0 0) 1
           all_zero eq_refl eq_refl eq_refl eq_refl).
Defined.

Lemma forward_frame_witness :
  self (snd (forward (Tensor (T2 [[1]])) (T2 [[0]]) (T0 0)
               {| self := no_gate_cell; gen := all_zero |}))
  = no_gate_cell.
Proof.
  exact (proj1 (proj2 (forward_frame (Tensor (T2 [[1]])) (T2 [[0]]) (T0 0)
                         {| self := no_gate_cell; gen := all_zero |}))
           eq_refl).
Defined.




Lemma init_checks_witness :
  valid_args 2 "pure" "lecun_tanh" 128 0 0 None = true /\
  exists c g',
    CfCCell_init 1 2 "pure" "lecun_tanh" 128 0 0 None None Tanh all_zero
    = (Ok c, g').
Proof.
  split; [reflexivity|].
  exact (proj2 (proj2 (init_checks 1 2 "pure" "lecun_tanh" 128 0 0 None None
                         Tanh all_zero)) eq_refl).
Defined.

Lemma init_identity_neuromod_witness :
  valid_args 1 "neuromodulated" "lecun_tanh" 128 0 0 (Some [1%nat]) = true /\
  exists c g',
    CfCCell_init 1 1 "neuromodulated" "lecun_tanh" 128 0 0 None
      (Some [1%nat]) Tanh all_zero = (Ok c, g') /\
    neuromod c = Some [] /\
    forall (policy_input neuromod_input : tensor) (g1 : rng),
      neuromod_call c (Tuple policy_input neuromod_input) g1
      = (Ok neuromod_input, g1).
Proof.
  split; [reflexivity|].
  exact (init_identity_neuromod 1 1 "lecun_tanh" 128 0 0 None Tanh all_zero
           eq_refl).
Defined.

End Concrete.

(** ** Further properties of the cell *)

Section MoreProperties.
Context {B : Backend}.

Ltac run_with H := rewrite H; cbv beta iota.

(** *** Failures of [forward] and of the replacement *)

(** X1. In mode "neuromodulated" an input that is not a tuple fails the
    assertion of line 183 before anything is computed: the cell and the
    generator are as before.  In the other modes a tuple is rejected by
    [torch.cat], again with nothing changed. *)
Theorem forward_rejects_input_kind (c : CfCCell) (g : rng)
  (t hx ts policy_input neuromod_input : tensor) :
  let w := {| self := c; gen := g |} in
  (mode c = "neuromodulated" ->
   forward (Tensor t) hx ts w = (Raise (AssertionError not_tuple_msg), w) /\
   spec_category (AssertionError not_tuple_msg) = Some InvalidInput)
  /\ (mode c <> "neuromodulated" ->
      exists msg,
        forward (Tuple policy_input neuromod_input) hx ts w
        = (Raise (TypeError msg), w)).
Proof.
  cbv zeta. split.
  - intros Hm. split; [|reflexivity].
    rewrite forward_run. cbn [self gen].
    unfold forward_value, bind, lift, concat_input. rewrite Hm. reflexivity.
  - intros Hm. apply String.eqb_neq in Hm. eexists.
    rewrite forward_run. cbn [self gen].
    unfold forward_value, bind, lift, concat_input. rewrite Hm. reflexivity.
Qed.

(** X2. Outside mode "neuromodulated" the replacement of the network fails the
    assertion of line 162: the candidate is not evaluated, no probe is
    drawn, and the cell is as before. *)
Theorem change_network_wrong_mode (c : CfCCell) (network : Sequential)
  (g : rng) :
  mode c <> "neuromodulated" ->
  let w := {| self := c; gen := g |} in
  change_neuromodulation_network network w
  = (Raise (AssertionError not_neuromodulated_msg), w)
  /\ spec_category (AssertionError not_neuromodulated_msg)
     = Some InvalidOperation.
Proof.
  intros Hm. cbv zeta. split; [|reflexivity].
  apply String.eqb_neq in Hm.
  unfold change_neuromodulation_network, bind, get_self. cbn [self gen].
  now rewrite Hm.
Qed.

(** *** Failures of the constructor *)

(** X3. With a known mode and an activation keyword outside the five recognised
    ones, the constructor raises [ValueError("Unknown activation ...")]
    (line 99) before any layer is built: the generator is not used. *)
Theorem init_unknown_activation (n_in hidden : nat) (md act : string)
  (units layers : nat) (p : scalar) (mask : option matrix)
  (dims : option (list nat)) (nact : act_kind) (g : rng) :
  existsb (String.eqb md) allowed_modes = true ->
  existsb (String.eqb act) activations = false ->
  CfCCell_init n_in hidden md act units layers p mask dims nact g
  = (Raise (ValueError ("Unknown activation " ++ act)%string), g)
  /\ spec_category (ValueError ("Unknown activation " ++ act)%string)
     = Some InvalidConfiguration.
Proof.
  intros Hm Ha. split; [|reflexivity].
  unfold CfCCell_init, CfCCell_attributes, bind. rewrite Hm. cbn [negb].
  unfold select_activation.
  unfold activations in Ha. cbn [existsb] in Ha.
  repeat (apply orb_false_iff in Ha; destruct Ha as [?E Ha]).
  now rewrite E, E0, E1, E2, E3.
Qed.

(** X4. In mode "neuromodulated" an empty list of dimensions passes the test
    [is not None] and fails in [neuromod_network_dims[-1]] with an
    [IndexError], which is none of the errors of the cell's own checks. *)
Theorem init_empty_dims (n_in hidden : nat) (act : string)
  (units layers : nat) (p : scalar) (mask : option matrix) (nact : act_kind)
  (g : rng) :
  existsb (String.eqb act) activations = true ->
  ((layers =? 0) || (0 <? units)) = true ->
  ((layers <=? 1) || dropout_valid p) = true ->
  exists g',
    CfCCell_init n_in hidden "neuromodulated" act units layers p mask
      (Some []) nact g
    = (Raise (IndexError "list index out of range"), g')
    /\ spec_category (IndexError "list index out of range") = None.
Proof.
  intros Ha Hu Hd.
  unfold CfCCell_init, CfCCell_attributes, bind.
  cbn [existsb allowed_modes String.eqb Ascii.eqb Bool.eqb orb negb].
  destruct (select_activation_ok rng act g Ha) as (k & Hk). run_with Hk.
  destruct (build_backbone_ok n_in hidden k units layers p g Hu Hd)
    as (bb & g1 & Hbb & _).
  run_with Hbb.
  match goal with
  | |- context [nn_Linear ?a ?b g1] =>
      destruct (nn_Linear_ok a b g1) as (f1 & g2 & Hf1 & _)
  end.
  run_with Hf1. unfold build_head.
  cbn [String.eqb Ascii.eqb Bool.eqb orb]. unfold bind, raise.
  exists g2. split; reflexivity.
Qed.

(** X5. With two or more backbone layers a dropout probability above 1 is
    rejected by [nn.Dropout] (line 112) when the second block is built,
    after the generator has been used for the first two linear layers.
    (With at most one backbone layer no dropout layer is created and the
    probability is not checked.) *)
Theorem init_invalid_dropout (n_in hidden : nat) (md act : string)
  (units layers : nat) (p : scalar) (mask : option matrix)
  (dims : option (list nat)) (nact : act_kind) (g : rng) :
  existsb (String.eqb md) allowed_modes = true ->
  existsb (String.eqb act) activations = true ->
  2 <= layers ->
  sltb zero p = true -> sltb one p = true ->
  exists g',
    CfCCell_init n_in hidden md act units layers p mask dims nact g
    = (Raise (ValueError "dropout probability has to be between 0 and 1"), g')
    /\ spec_category
         (ValueError "dropout probability has to be between 0 and 1")
       = Some InvalidConfiguration.
Proof.
  intros Hm Ha Hl Hp0 Hp1.
  unfold CfCCell_init, CfCCell_attributes, bind. rewrite Hm. cbn [negb].
  destruct (select_activation_ok rng act g Ha) as (k & Hk). run_with Hk.
  destruct layers as [|[|n]]; try lia.
  unfold build_backbone. change (0 <? S (S n)) with true. cbv iota.
  unfold bind.
  destruct (nn_Linear_ok (n_in + hidden) units g) as (l & g1 & Hl1 & _).
  run_with Hl1.
  replace (S (S n) - 1) with (S n) by lia. cbn [backbone_blocks].
  unfold bind.
  destruct (nn_Linear_ok units units g1) as (l' & g2 & Hl2 & _).
  run_with Hl2. rewrite Hp0. unfold nn_Dropout, bind.
  rewrite Hp1, orb_true_r. unfold raise.
  exists g2. split; reflexivity.
Qed.

(** X6. Line 187: when the input and the hidden state do not have the same
    number of rows, [torch.cat] fails; nothing has been computed or written,
    and the generator has not been used. *)
Theorem forward_batch_mismatch (c : CfCCell) (x h : matrix)
  (neuromod_input ts : tensor) (g : rng) :
  length x <> length h ->
  let input :=
    if (mode c =? "neuromodulated")%string
    then Tuple (T2 x) neuromod_input else Tensor (T2 x) in
  let w := {| self := c; gen := g |} in
  exists msg,
    forward input (T2 h) ts w = (Raise (RuntimeError msg), w).
Proof.
  intros Hne. cbv zeta. apply Nat.eqb_neq in Hne.
  rewrite forward_run. cbn [self gen].
  unfold forward_value, bind, lift, concat_input.
  destruct (mode c =? "neuromodulated")%string;
    cbn [torch_cat1]; rewrite Hne; eexists; reflexivity.
Qed.

(** *** The cell as a recurrence *)

Lemma cell_wfb_set_tau (c : CfCCell) (t : tensor) :
  cell_wfb (set_tau_system_data c t) = cell_wfb c.
Proof. reflexivity. Qed.

Lemma input_okb_set_tau (c : CfCCell) (t : tensor) (input : py_input)
  (batch : nat) :
  input_okb (set_tau_system_data c t) input batch = input_okb c input batch.
Proof. reflexivity. Qed.

(** One call on a well-formed cell: the result, and the cell afterwards. *)
Lemma forward_step (c : CfCCell) (input : py_input) (hx ts : tensor)
  (batch : nat) (g : rng) :
  cell_wf c -> input_okb c input batch = true ->
  is_mat hx batch (hidden_size c) -> ts_ok ts batch (hidden_size c) ->
  exists nh c' g',
    forward input hx ts {| self := c; gen := g |}
    = (Ok (nh, nh), {| self := c'; gen := g' |}) /\
    is_mat nh batch (hidden_size c) /\
    (c' = c \/ exists t, c' = set_tau_system_data c t).
Proof.
  intros Hc Hin Hhx Hts.
  destruct (forward_value_ok c input hx ts batch g Hc Hin Hhx Hts)
    as (nh & tau & g' & Hv & Snh).
  rewrite forward_run. cbn [self gen]. rewrite Hv.
  destruct tau as [t|]; eexists; eexists; eexists;
    (split; [reflexivity|]); split; eauto.
Qed.

(** X7. The result of a call is a valid hidden state for the next call: on a
    well-formed cell, a second call on the first result and well-shaped new
    inputs succeeds again with the shape (batch, hidden_size), and the cell
    stays well formed throughout. *)
Theorem forward_twice (c : CfCCell) (input1 input2 : py_input)
  (hx ts1 ts2 : tensor) (batch : nat) (g : rng) :
  cell_wf c ->
  input_okb c input1 batch = true -> input_okb c input2 batch = true ->
  is_mat hx batch (hidden_size c) ->
  ts_ok ts1 batch (hidden_size c) -> ts_ok ts2 batch (hidden_size c) ->
  exists h1 w1 h2 w2,
    forward input1 hx ts1 {| self := c; gen := g |} = (Ok (h1, h1), w1) /\
    cell_wf (self w1) /\
    forward input2 h1 ts2 w1 = (Ok (h2, h2), w2) /\
    is_mat h2 batch (hidden_size c) /\
    cell_wf (self w2).
Proof.
  intros Hc Hi1 Hi2 Hhx Ht1 Ht2.
  destruct (forward_step c input1 hx ts1 batch g Hc Hi1 Hhx Ht1)
    as (h1 & c1 & g1 & H1 & S1 & E1).
  assert (Hc1 : cell_wf c1 /\ input_okb c1 input2 batch = true /\
                hidden_size c1 = hidden_size c).
  { destruct E1 as [->|(t & ->)]; auto. }
  destruct Hc1 as (Hc1 & Hi2' & Eh).
  rewrite <- Eh in S1, Ht2.
  destruct (forward_step c1 input2 h1 ts2 batch g1 Hc1 Hi2' S1 Ht2)
    as (h2 & c2 & g2 & H2 & S2 & E2).
  exists h1, {| self := c1; gen := g1 |}, h2, {| self := c2; gen := g2 |}.
  split; [exact H1|]. split; [exact Hc1|]. split; [exact H2|].
  split; [now rewrite <- Eh|].
  cbn [self]. destruct E2 as [->|(t & ->)]; auto.
Qed.

(** *** A mask of zeros *)

Lemma mapM_r_map {X Y} (f : X -> result Y) (g : X -> Y) (l : list X) :
  (forall a, In a l -> f a = Ok (g a)) -> mapM_r f l = Ok (map g l).
Proof.
  induction l as [|a l IH]; intros H; simpl; auto.
  rewrite (H a (or_introl eq_refl)). cbn [rbind].
  rewrite IH by (intros; apply H; now right). reflexivity.
Qed.

Lemma bcast_row_r {X Z} (f : X -> X -> result Z) (g : X -> Z) (a : list X)
  (y : X) :
  (forall x, In x a -> f x y = Ok (g x)) -> bcast f a [y] = Ok (map g a).
Proof.
  intros H. unfold bcast.
  destruct (Nat.eqb_spec (length a) (length [y])) as [E|E].
  - destruct a as [|x [|? ?]]; try discriminate. simpl.
    rewrite (H x (or_introl eq_refl)). reflexivity.
  - destruct a as [|x [|x' a']].
    + reflexivity.
    + now elim E.
    + now apply mapM_r_map.
Qed.

Section LawfulMore.
Context {L : LawfulBackend B}.

Lemma zip_smul_zeros (r z : vector) :
  length r = length z -> Forall (fun e => e = zero) z ->
  zipM_r (fun a b => Ok (smul a b)) r z = Ok z.
Proof.
  revert z. induction r as [|a r IH]; intros [|b z] Hlen Hz; simpl in *;
    try discriminate; auto.
  inversion Hz; subst. rewrite IH by (auto; lia). simpl.
  now rewrite smul_zero_r.
Qed.

Lemma bcast2_smul_zeros (w z : matrix) (o k : nat) :
  has_shape w o k -> has_shape z o k -> zero_matrix z ->
  bcast2 smul w z = Ok z.
Proof.
  intros [Hw1 Hw2] [Hz1 Hz2] Hz. unfold bcast2, bcast.
  assert (Hlen : length w = length z) by exact (eq_trans Hw1 (eq_sym Hz1)).
  rewrite Hlen, Nat.eqb_refl. clear Hw1 Hz1. revert z Hlen Hz2 Hz.
  induction w as [|r w IH]; intros [|s z] Hlen Hz2 Hz; simpl in *;
    try discriminate; auto.
  inversion Hw2; inversion Hz2; inversion Hz; subst.
  unfold bcast1 at 1, bcast.
  assert (E : length r = length s) by congruence.
  rewrite E, Nat.eqb_refl, zip_smul_zeros by auto. simpl.
  rewrite IH; auto.
Qed.

Lemma dot_zeros (r z : vector) :
  length r = length z -> Forall (fun e => e = zero) z -> dot r z = Ok zero.
Proof.
  intros Hlen Hz. unfold dot. rewrite Hlen, Nat.eqb_refl. f_equal.
  revert z Hlen Hz. induction r as [|a r IH]; intros [|b z] Hlen Hz;
    simpl in *; try discriminate; auto.
  inversion Hz; subst. rewrite IH by (auto; lia).
  now rewrite smul_zero_r, sadd_zero_l.
Qed.

Lemma zip_sadd_zeros (r s : vector) :
  length r = length s -> Forall (fun e => e = zero) r ->
  bcast1 sadd r s = Ok s.
Proof.
  intros Hlen Hr. unfold bcast1, bcast. rewrite Hlen, Nat.eqb_refl.
  revert s Hlen Hr. induction r as [|a r IH]; intros [|b s] Hlen Hr;
    simpl in *; try discriminate; auto.
  inversion Hr; subst. rewrite IH by (auto; lia). simpl.
  now rewrite sadd_zero_l.
Qed.

(** X8. Lines 192 to 195: when every entry of the stored mask is zero, the head
    ignores its input, and every row of [ff1] is the bias of the layer. *)
Theorem zero_mask_gives_bias (m : nn_Parameter) (l : Linear) (xm z : matrix)
  (b : vector) (n k o : nat) :
  Linear_wf l k o -> data (bias l) = T1 b ->
  has_shape xm n k ->
  data m = T2 z -> has_shape z o k -> zero_matrix z ->
  masked_linear (Some m) l (T2 xm) = Ok (T2 (map (fun _ => b) xm)).
Proof.
  intros Hl Eb Hx Em Hz Hzero.
  destruct (Linear_wf_inv _ _ _ Hl) as (w & b' & Ew & Eb' & Hw & Hb).
  rewrite Eb in Eb'. injection Eb' as <-.
  unfold masked_linear, tmul. rewrite Ew, Em, Eb. cbn [tbin].
  rewrite (bcast2_smul_zeros w z o k Hw Hz Hzero). cbn [rmap rbind].
  unfold F_linear.
  destruct Hx as [Hx1 Hx2]. destruct Hz as [Hz1 Hz2].
  rewrite (mapM_r_map _ (fun _ => map (fun _ => zero) z)).
  - cbn [rbind]. unfold bcast2.
    rewrite (bcast_row_r _ (fun _ => b)).
    + cbn [rmap rbind]. now rewrite map_map.
    + intros r Hr. apply in_map_iff in Hr. destruct Hr as (r0 & <- & _).
      apply zip_sadd_zeros.
      * rewrite length_map. now rewrite Hz1, Hb.
      * apply Forall_map, Forall_forall. auto.
  - intros r Hr. apply mapM_r_map. intros zr Hzr.
    rewrite Forall_forall in Hx2, Hz2. unfold zero_matrix in Hzero.
    rewrite Forall_forall in Hzero.
    apply dot_zeros; [|auto].
    now rewrite (Hx2 r Hr), (Hz2 zr Hzr).
Qed.

End LawfulMore.

(** *** What the constructor builds *)

Lemma bind_inv {St X Y} (m : M St X) (k : X -> M St Y) (s s' : St) (y : Y) :
  bind m k s = (Ok y, s') ->
  exists x s1, m s = (Ok x, s1) /\ k x s1 = (Ok y, s').
Proof.
  unfold bind. destruct (m s) as [[x|e] s1]; [eauto|discriminate].
Qed.

Lemma ret_inv {St X} (x y : X) (s s' : St) :
  ret x s = (Ok y, s') -> y = x /\ s' = s.
Proof. unfold ret. intros H. injection H as <- <-. auto. Qed.

Tactic Notation "binv" hyp(H) ident(x) ident(g) ident(Hx) :=
  apply bind_inv in H; destruct H as (x & g & Hx & H).

Lemma CfCCell_init_inv (n_in hidden : nat) (md act : string)
  (units layers : nat) (p : scalar) (mask : option matrix)
  (dims : option (list nat)) (nact : act_kind) (g g' : rng) (c : CfCCell) :
  CfCCell_init n_in hidden md act units layers p mask dims nact g = (Ok c, g') ->
  exists c0 g0,
    CfCCell_attributes n_in hidden md act units layers p mask dims nact g
    = (Ok c0, g0) /\
    init_weights c0 g0 = (Ok c, g').
Proof. unfold CfCCell_init. intros H. now apply bind_inv in H. Qed.

Lemma init_weights_inv (c0 c : CfCCell) (g g' : rng) :
  init_weights c0 g = (Ok c, g') ->
  exists g1 g2 g3 g4 g5 g6 g7 g8 g9,
    optM init_param (sparsity_mask c0) g = (Ok (sparsity_mask c), g1) /\
    optM init_param (w_tau c0) g1 = (Ok (w_tau c), g2) /\
    optM init_param (A c0) g2 = (Ok (A c), g3) /\
    init_param (tau_system c0) g3 = (Ok (tau_system c), g4) /\
    optM (mapM init_Module) (backbone c0) g4 = (Ok (backbone c), g5) /\
    init_Linear (ff1 c0) g5 = (Ok (ff1 c), g6) /\
    optM (mapM init_Module) (neuromod c0) g6 = (Ok (neuromod c), g7) /\
    optM init_Linear (ff2 c0) g7 = (Ok (ff2 c), g8) /\
    optM init_Linear (time_a c0) g8 = (Ok (time_a c), g9) /\
    optM init_Linear (time_b c0) g9 = (Ok (time_b c), g') /\
    input_size c = input_size c0 /\ hidden_size c = hidden_size c0 /\
    mode c = mode c0 /\
    neuromod_network_dims c = neuromod_network_dims c0 /\
    backbone_layers c = backbone_layers c0.
Proof.
  unfold init_weights. intros H.
  binv H mask g1 H1. binv H wt g2 H2. binv H a g3 H3. binv H tau g4 H4.
  binv H bb g5 H5. binv H f1 g6 H6. binv H nm g7 H7. binv H f2 g8 H8.
  binv H ta g9 H9. binv H tb g10 H10.
  apply ret_inv in H as [-> ->]. cbn.
  exists g1, g2, g3, g4, g5, g6, g7, g8, g9. repeat split; assumption.
Qed.

Lemma CfCCell_attributes_inv (n_in hidden : nat) (md act : string)
  (units layers : nat) (p : scalar) (mask : option matrix)
  (dims : option (list nat)) (nact : act_kind) (g g0 : rng) (c0 : CfCCell) :
  CfCCell_attributes n_in hidden md act units layers p mask dims nact g
  = (Ok c0, g0) ->
  exists k g1 g2,
    select_activation act g = (Ok k, g) /\
    build_backbone n_in hidden k units layers p g = (Ok (backbone c0), g1) /\
    nn_Linear (if layers =? 0 then hidden + n_in else units) hidden g1
    = (Ok (ff1 c0), g2) /\
    build_head md hidden (if layers =? 0 then hidden + n_in else units) dims
      nact g2
    = (Ok (w_tau c0, A c0, neuromod c0, ff2 c0, time_a c0, time_b c0), g0) /\
    input_size c0 = n_in /\ hidden_size c0 = hidden /\ mode c0 = md /\
    neuromod_network_dims c0 = dims /\ backbone_layers c0 = layers /\
    sparsity_mask c0 = option_map mask_param mask /\
    tau_system c0 = {| data := T1 (repeat one hidden); requires_grad := false |}.
Proof.
  unfold CfCCell_attributes. intros H.
  destruct (negb (existsb (String.eqb md) allowed_modes)); [discriminate|].
  binv H k g1 Hk. binv H bb g2 Hbb. binv H f1 g3 Hf1. binv H head g4 Hh.
  destruct head as [[[[[wt a] nm] f2] ta] tb].
  apply ret_inv in H as [-> ->]. cbn.
  assert (g1 = g).
  { unfold select_activation in Hk.
    repeat match type of Hk with
           | (if ?b then _ else _) _ = _ => destruct b
           end;
      try (apply ret_inv in Hk as [_ E]; exact E); discriminate. }
  subst g1. exists k, g2, g3. repeat split; assumption.
Qed.

Lemma xavier_shape (w w' : nn_Parameter) (r k : nat) (g g' : rng) :
  is_mat (data w) r k -> xavier_uniform_ w g = (Ok w', g') ->
  is_mat (data w') r k /\ requires_grad w' = requires_grad w.
Proof.
  intros Hw Hx. destruct (is_mat_inv _ _ _ Hw) as (m & Em & Sm).
  destruct r as [|r].
  - destruct Sm as [Sm _]. destruct m; [|discriminate].
    unfold xavier_uniform_ in Hx. rewrite Em in Hx. discriminate.
  - destruct (xavier_ok w m (S r) k g Em Sm) as (m' & g1 & Hx' & Sm'); [lia|].
    rewrite Hx in Hx'. injection Hx' as -> _. cbn [data requires_grad].
    split; [now apply is_mat_T2|reflexivity].
Qed.

Lemma init_param_shape (w w' : nn_Parameter) (r k : nat) (g g' : rng) :
  is_mat (data w) r k -> init_param w g = (Ok w', g') ->
  is_mat (data w') r k /\ requires_grad w' = requires_grad w.
Proof.
  intros Hw. unfold init_param.
  destruct ((dim (data w) =? 2) && requires_grad w).
  - now apply xavier_shape.
  - intros H. apply ret_inv in H as [-> _]. auto.
Qed.

(** [init_weights] leaves the shape of a linear layer, and its bias, as
    they are. *)
Lemma init_Linear_shape (l l' : Linear) (k o : nat) (g g' : rng) :
  Linear_wf l k o -> init_Linear l g = (Ok l', g') ->
  Linear_wf l' k o /\ bias l' = bias l.
Proof.
  intros Hl H.
  destruct (Linear_wf_inv _ _ _ Hl) as (w & b & Ew & Eb & Sw & Sb).
  unfold init_Linear in H. binv H w1 g1 Hw. binv H b1 g2 Hb.
  apply ret_inv in H as [-> _]. cbn [weight bias].
  rewrite (init_param_vec _ b _ Eb) in Hb. injection Hb as <- _.
  split; [|reflexivity].
  destruct (init_param_shape (weight l) w1 o k g g1) as [Sw1 _]; auto.
  { rewrite Ew. now apply is_mat_T2. }
  destruct (is_mat_inv _ _ _ Sw1) as (m1 & Em1 & Sm1).
  unfold Linear_wf, Linear_wfb. cbn [weight bias]. rewrite Em1, Eb.
  apply andb_true_iff. split; [now apply has_shapeb_spec|now apply Nat.eqb_eq].
Qed.

Lemma init_Module_sig (s : layer_sig) (m m' : Module_) (g g' : rng) :
  has_sig s m -> init_Module m g = (Ok m', g') -> has_sig s m'.
Proof.
  destruct m as [l|a|q tr]; cbn [init_Module]; intros Hs H.
  - binv H l' g1 Hl. apply ret_inv in H as [-> _].
    destruct s; cbn [has_sig] in *; try contradiction.
    eapply init_Linear_shape; eauto.
  - apply ret_inv in H as [-> _]. exact Hs.
  - apply ret_inv in H as [-> _]. exact Hs.
Qed.

Lemma init_Sequential_sigs (sigs : list layer_sig) (layers : Sequential) :
  Forall2 has_sig sigs layers ->
  forall (layers' : Sequential) (g g' : rng),
    mapM init_Module layers g = (Ok layers', g') ->
    Forall2 has_sig sigs layers'.
Proof.
  induction 1 as [|s m sigs layers Hs Hrest IH]; intros layers' g g' H;
    cbn [mapM] in H.
  - apply ret_inv in H as [-> _]. constructor.
  - binv H m' g1 Hm. binv H rest' g2 Hr. apply ret_inv in H as [-> _].
    constructor; eauto using init_Module_sig.
Qed.

Lemma nn_Linear_sig (n_in n_out : nat) (l : Linear) (g g' : rng) :
  nn_Linear n_in n_out g = (Ok l, g') -> Linear_wf l n_in n_out.
Proof.
  intros H. destruct (nn_Linear_ok n_in n_out g) as (l' & g1 & Hl & Wl).
  rewrite H in Hl. now injection Hl as <- _.
Qed.

Lemma backbone_blocks_sigs (n : nat) (act : act_kind) (units : nat)
  (p : scalar) :
  forall (layers : Sequential) (g g' : rng),
    backbone_blocks n act units p g = (Ok layers, g') ->
    Forall2 has_sig (concat (repeat (block_sigs act units p) n)) layers.
Proof.
  induction n as [|n IH]; intros layers g g' H; cbn [backbone_blocks] in H.
  - apply ret_inv in H as [-> _]. constructor.
  - binv H l g1 Hl. binv H d g2 Hd. binv H rest g3 Hr.
    apply ret_inv in H as [-> _].
    cbn [repeat concat]. unfold block_sigs at 1. cbn [app].
    constructor; [exact (nn_Linear_sig _ _ _ _ _ Hl)|].
    constructor; [reflexivity|].
    destruct (sltb zero p).
    + binv Hd m g4 Hm. apply ret_inv in Hd as [-> _].
      unfold nn_Dropout in Hm.
      destruct (sltb p zero || sltb one p); [discriminate|].
      apply ret_inv in Hm as [-> _]. cbn [app].
      constructor; [split; reflexivity|]. eapply IH; eauto.
    + apply ret_inv in Hd as [-> _]. cbn [app]. eapply IH; eauto.
Qed.

Lemma build_backbone_sigs (n_in hidden : nat) (act : act_kind)
  (units layers : nat) (p : scalar) (bb : option Sequential) (g g' : rng) :
  build_backbone n_in hidden act units layers p g = (Ok bb, g') ->
  match bb with
  | Some b =>
      0 < layers /\
      Forall2 has_sig (backbone_sigs n_in hidden act units layers p) b
  | None => layers = 0
  end.
Proof.
  unfold build_backbone. intros H. destruct layers as [|n].
  - cbn in H. apply ret_inv in H as [-> _]. reflexivity.
  - change (0 <? S n) with true in H. cbv iota in H.
    binv H l g1 Hl. binv H rest g2 Hr. apply ret_inv in H as [-> _].
    split; [lia|]. cbn [backbone_sigs].
    constructor; [exact (nn_Linear_sig _ _ _ _ _ Hl)|].
    constructor; [reflexivity|].
    replace (S n - 1) with n in Hr by lia.
    eapply backbone_blocks_sigs; eauto.
Qed.

Lemma neuromod_layers_sigs (act : act_kind) (dims : list nat) :
  forall (layers : Sequential) (g g' : rng),
    neuromod_layers act dims g = (Ok layers, g') ->
    Forall2 has_sig (neuromod_sigs act dims) layers.
Proof.
  induction dims as [|d0 tl IH]; intros layers g g' H.
  - apply ret_inv in H as [-> _]. constructor.
  - destruct tl as [|d1 tl'].
    + apply ret_inv in H as [-> _]. constructor.
    + rewrite neuromod_layers_cons in H.
      binv H l g1 Hl. binv H rest g2 Hr. apply ret_inv in H as [-> _].
      change (neuromod_sigs act (d0 :: d1 :: tl'))
        with (SLinear d0 d1 :: SActivation act :: neuromod_sigs act (d1 :: tl')).
      constructor; [exact (nn_Linear_sig _ _ _ _ _ Hl)|].
      constructor; [reflexivity|]. eapply IH; eauto.
Qed.

Lemma optM_Sequential_sigs (sigs : list layer_sig) (bb : Sequential)
  (o : option Sequential) (g g' : rng) :
  Forall2 has_sig sigs bb ->
  optM (mapM init_Module) (Some bb) g = (Ok o, g') ->
  exists bb', o = Some bb' /\ Forall2 has_sig sigs bb'.
Proof.
  intros Hs H. cbn [optM] in H. binv H bb' g1 Hb.
  apply ret_inv in H as [-> _]. eauto using init_Sequential_sigs.
Qed.

Lemma CfCCell_init_backbone (n_in hidden : nat) (md act : string)
  (units layers : nat) (p : scalar) (mask : option matrix)
  (dims : option (list nat)) (nact : act_kind) (g g' : rng) (c : CfCCell) :
  CfCCell_init n_in hidden md act units layers p mask dims nact g = (Ok c, g') ->
  exists k,
    select_activation act g = (Ok k, g) /\
    backbone_layers c = layers /\
    match backbone c with
    | Some bb =>
        0 < layers /\
        Forall2 has_sig (backbone_sigs n_in hidden k units layers p) bb
    | None => layers = 0
    end.
Proof.
  intros Hc.
  destruct (CfCCell_init_inv _ _ _ _ _ _ _ _ _ _ _ _ _ Hc)
    as (c0 & g0 & Ha & Hi).
  destruct (CfCCell_attributes_inv _ _ _ _ _ _ _ _ _ _ _ _ _ Ha)
    as (k & g1 & g4 & Hk & Hbb & _ & _ & _ & _ & _ & _ & El & _).
  destruct (init_weights_inv _ _ _ _ Hi)
    as (h1 & h2 & h3 & h4 & h5 & h6 & h7 & h8 & h9 & _ & _ & _ & _ & Hb
        & _ & _ & _ & _ & _ & _ & _ & _ & _ & El').
  exists k. split; [exact Hk|]. split; [congruence|].
  apply build_backbone_sigs in Hbb.
  destruct (backbone c0) as [bb|].
  - destruct Hbb as [Hpos Hs].
    destruct (optM_Sequential_sigs _ _ _ _ _ Hs Hb) as (bb' & -> & Hs').
    auto.
  - cbn [optM] in Hb. apply ret_inv in Hb as [-> _]. exact Hbb.
Qed.

(** X9. Lines 101 to 113 and 151 to 154: the backbone of a constructed cell is
    absent when [backbone_layers] is 0; otherwise it is the stack
    Linear(input_size + hidden_size, backbone_units), activation, followed
    by [backbone_layers - 1] blocks of Linear(backbone_units,
    backbone_units), activation and, when [backbone_dropout > 0], a
    dropout layer in training mode.  The first block never has a dropout
    layer, and the initialisation of the weights keeps the architecture. *)
Theorem init_backbone_architecture (n_in hidden : nat) (md act : string)
  (units layers : nat) (p : scalar) (mask : option matrix)
  (dims : option (list nat)) (nact : act_kind) (g : rng) :
  valid_args hidden md act units layers p dims = true ->
  exists c g' k,
    CfCCell_init n_in hidden md act units layers p mask dims nact g
    = (Ok c, g') /\
    select_activation act g = (Ok k, g) /\
    backbone_layers c = layers /\
    match backbone c with
    | Some bb =>
        0 < layers /\
        Forall2 has_sig (backbone_sigs n_in hidden k units layers p) bb
    | None => layers = 0
    end.
Proof.
  intros Hv.
  destruct (CfCCell_init_ok n_in hidden md act units layers p mask dims nact g Hv)
    as (c0 & g0 & c & g2 & g3 & g' & _ & Hc & _).
  destruct (CfCCell_init_backbone _ _ _ _ _ _ _ _ _ _ _ _ _ Hc) as (k & Hk).
  exists c, g', k. split; [exact Hc|exact Hk].
Qed.

Lemma build_head_inv (md : string) (hidden cat : nat)
  (dims : option (list nat)) (nact : act_kind) (g g' : rng)
  (wt a : option nn_Parameter) (nm : option Sequential)
  (f2 ta tb : option Linear) :
  build_head md hidden cat dims nact g = (Ok (wt, a, nm, f2, ta, tb), g') ->
  if ((md =? "pure") || (md =? "neuromodulated"))%string
  then wt = Some (zeros_param hidden) /\ a = Some (ones_param hidden) /\
       f2 = None /\ ta = None /\ tb = None /\
       if (md =? "neuromodulated")%string
       then exists ds layers,
              dims = Some ds /\ last ds 0 = hidden /\ nm = Some layers /\
              Forall2 has_sig (neuromod_sigs nact ds) layers
       else nm = None
  else wt = None /\ a = None /\ nm = None /\
       exists l2 la lb,
         f2 = Some l2 /\ ta = Some la /\ tb = Some lb /\
         Linear_wf l2 cat hidden /\ Linear_wf la cat hidden /\
         Linear_wf lb cat hidden.
Proof.
  unfold build_head. intros H.
  destruct ((md =? "pure") || (md =? "neuromodulated"))%string.
  - binv H nm0 g1 Hn. apply ret_inv in H as [E _].
    injection E as -> -> -> -> -> ->. do 5 (split; [reflexivity|]).
    destruct (md =? "neuromodulated")%string.
    + destruct dims as [[|d0 ds]|]; try discriminate.
      destruct (Nat.eqb_spec (last (d0 :: ds) 0) hidden) as [E|E];
        [|discriminate].
      cbn [negb] in Hn. binv Hn layers g2 Hl. apply ret_inv in Hn as [-> _].
      exists (d0 :: ds), layers. repeat split; auto.
      eapply neuromod_layers_sigs; eauto.
    + now apply ret_inv in Hn as [-> _].
  - binv H l2 g1 H2. binv H la g2 Ha. binv H lb g3 Hb.
    apply ret_inv in H as [E _]. injection E as -> -> -> -> -> ->.
    do 3 (split; [reflexivity|]). exists l2, la, lb.
    repeat split; eauto using nn_Linear_sig.
Qed.

Lemma optM_init_Linear_shape (o o' : option Linear) (k h : nat) (g g' : rng) :
  optM init_Linear o g = (Ok o', g') ->
  match o with
  | Some l => Linear_wf l k h -> exists l', o' = Some l' /\ Linear_wf l' k h
  | None => o' = None
  end.
Proof.
  destruct o as [l|]; cbn [optM]; intros H.
  - binv H l' g1 Hl. apply ret_inv in H as [-> _]. intros Wl.
    exists l'. split; [reflexivity|]. eapply init_Linear_shape; eauto.
  - now apply ret_inv in H as [-> _].
Qed.

Lemma optM_init_param_shape (o o' : option nn_Parameter) (r k : nat)
  (g g' : rng) :
  optM init_param o g = (Ok o', g') ->
  match o with
  | Some w =>
      is_mat (data w) r k ->
      exists w', o' = Some w' /\ is_mat (data w') r k /\
                 requires_grad w' = requires_grad w
  | None => o' = None
  end.
Proof.
  destruct o as [w|]; cbn [optM]; intros H.
  - binv H w' g1 Hw. apply ret_inv in H as [-> _]. intros Sw.
    exists w'. split; [reflexivity|]. eapply init_param_shape; eauto.
  - now apply ret_inv in H as [-> _].
Qed.

Lemma optM_Sequential_none (o : option Sequential) (g g' : rng) :
  optM (mapM init_Module) None g = (Ok o, g') -> o = None.
Proof. cbn [optM]. intros H. now apply ret_inv in H as [-> _]. Qed.

Lemma is_mat_repeat (x : scalar) (h : nat) : is_mat (T2 [repeat x h]) 1 h.
Proof.
  apply is_mat_T2. split; [reflexivity|].
  constructor; [apply repeat_length|constructor].
Qed.

Lemma CfCCell_init_head (n_in hidden : nat) (md act : string)
  (units layers : nat) (p : scalar) (mask : option matrix)
  (dims : option (list nat)) (nact : act_kind) (g g' : rng) (c : CfCCell) :
  CfCCell_init n_in hidden md act units layers p mask dims nact g = (Ok c, g') ->
    if ((md =? "pure") || (md =? "neuromodulated"))%string
    then (exists wt a,
            w_tau c = Some wt /\ A c = Some a /\
            is_mat (data wt) 1 hidden /\ is_mat (data a) 1 hidden /\
            requires_grad wt = true /\ requires_grad a = true) /\
         ff2 c = None /\ time_a c = None /\ time_b c = None /\
         if (md =? "neuromodulated")%string
         then exists ds nm,
                dims = Some ds /\ neuromod c = Some nm /\
                Forall2 has_sig (neuromod_sigs nact ds) nm
         else neuromod c = None
    else w_tau c = None /\ A c = None /\ neuromod c = None /\
         exists l2 la lb,
           let cat_shape := if layers =? 0 then hidden + n_in else units in
           ff2 c = Some l2 /\ time_a c = Some la /\ time_b c = Some lb /\
           Linear_wf l2 cat_shape hidden /\ Linear_wf la cat_shape hidden /\
           Linear_wf lb cat_shape hidden.
Proof.
  intros Hc.
  destruct (CfCCell_init_inv _ _ _ _ _ _ _ _ _ _ _ _ _ Hc)
    as (c0 & g0 & Ha & Hi).
  destruct (CfCCell_attributes_inv _ _ _ _ _ _ _ _ _ _ _ _ _ Ha)
    as (k & g1 & g4 & _ & _ & _ & Hh & _).
  destruct (init_weights_inv _ _ _ _ Hi)
    as (h1 & h2 & h3 & h4 & h5 & h6 & h7 & h8 & h9 & _ & Hwt & HA & _ & _
        & _ & Hnm & Hf2 & Hta & Htb & _).
  apply build_head_inv in Hh.
  destruct ((md =? "pure") || (md =? "neuromodulated"))%string.
  - destruct Hh as (Ewt & EA & E2 & Ea & Eb & Hn).
    rewrite Ewt in Hwt. rewrite EA in HA.
    rewrite E2 in Hf2. rewrite Ea in Hta. rewrite Eb in Htb.
    apply (optM_init_param_shape _ _ 1 hidden) in Hwt.
    apply (optM_init_param_shape _ _ 1 hidden) in HA.
    destruct (Hwt (is_mat_repeat zero hidden)) as (wt & Ewt' & Swt & Gwt).
    destruct (HA (is_mat_repeat one hidden)) as (a & EA' & Sa & Ga).
    split; [exists wt, a; repeat split; assumption|].
    apply (optM_init_Linear_shape _ _ 0 0) in Hf2, Hta, Htb.
    do 3 (split; [assumption|]).
    destruct (md =? "neuromodulated")%string.
    + destruct Hn as (ds & nm & Ed & _ & En & Hs). rewrite En in Hnm.
      destruct (optM_Sequential_sigs _ _ _ _ _ Hs Hnm) as (nm' & E' & Hs').
      exists ds, nm'. auto.
    + rewrite Hn in Hnm. now apply optM_Sequential_none in Hnm.
  - destruct Hh as (Ewt & EA & En & l2 & la & lb & E2 & Ea & Eb & W2 & Wa & Wb).
    rewrite Ewt in Hwt. rewrite EA in HA. rewrite En in Hnm.
    rewrite E2 in Hf2. rewrite Ea in Hta. rewrite Eb in Htb.
    apply (optM_init_param_shape _ _ 0 0) in Hwt, HA.
    apply optM_Sequential_none in Hnm.
    do 3 (split; [assumption|]).
    set (cat := if layers =? 0 then hidden + n_in else units) in *.
    apply (optM_init_Linear_shape _ _ cat hidden) in Hf2, Hta, Htb.
    destruct (Hf2 W2) as (l2' & ? & ?). destruct (Hta Wa) as (la' & ? & ?).
    destruct (Htb Wb) as (lb' & ? & ?).
    exists l2', la', lb'. cbv zeta. auto 10.
Qed.

(** X10. Lines 121 to 141 and 151 to 154: which attributes a constructed cell
    has.  In the modes "pure" and "neuromodulated" it has the trainable
    (1, hidden_size) parameters [w_tau] and [A] and none of [ff2], [time_a]
    and [time_b]; the network [neuromod] exists in mode "neuromodulated"
    only, as one Linear(dims[i], dims[i+1]) and one activation for every
    pair of consecutive dimensions.  In the modes "default" and "no_gate"
    it has the three linear layers from [cat_shape] to [hidden_size]
    features and none of [w_tau], [A] and [neuromod]. *)
Theorem init_attributes_by_mode (n_in hidden : nat) (md act : string)
  (units layers : nat) (p : scalar) (mask : option matrix)
  (dims : option (list nat)) (nact : act_kind) (g : rng) :
  valid_args hidden md act units layers p dims = true ->
  exists c g',
    CfCCell_init n_in hidden md act units layers p mask dims nact g
    = (Ok c, g') /\
    if ((md =? "pure") || (md =? "neuromodulated"))%string
    then (exists wt a,
            w_tau c = Some wt /\ A c = Some a /\
            is_mat (data wt) 1 hidden /\ is_mat (data a) 1 hidden /\
            requires_grad wt = true /\ requires_grad a = true) /\
         ff2 c = None /\ time_a c = None /\ time_b c = None /\
         if (md =? "neuromodulated")%string
         then exists ds nm,
                dims = Some ds /\ neuromod c = Some nm /\
                Forall2 has_sig (neuromod_sigs nact ds) nm
         else neuromod c = None
    else w_tau c = None /\ A c = None /\ neuromod c = None /\
         exists l2 la lb,
           let cat_shape := if layers =? 0 then hidden + n_in else units in
           ff2 c = Some l2 /\ time_a c = Some la /\ time_b c = Some lb /\
           Linear_wf l2 cat_shape hidden /\ Linear_wf la cat_shape hidden /\
           Linear_wf lb cat_shape hidden.
Proof.
  intros Hv.
  destruct (CfCCell_init_ok n_in hidden md act units layers p mask dims nact g Hv)
    as (c0 & g0 & c & g2 & g3 & g' & _ & Hc & _).
  exists c, g'. split; [exact Hc|].
  exact (CfCCell_init_head _ _ _ _ _ _ _ _ _ _ _ _ _ Hc).
Qed.

(** *** Constructed cells without dropout *)






(** *** The sparsity mask *)

Lemma transpose_shape (m : matrix) (k h : nat) :
  has_shape m k h -> 0 < k -> has_shape (transpose m) h k.
Proof.
  intros [Hk Hrows] Hpos. destruct m as [|r m]; [simpl in Hk; lia|].
  cbn [transpose]. inversion Hrows as [|? ? Hr _]; subst. split.
  - now rewrite length_map, length_seq.
  - rewrite Forall_map, Forall_forall. intros j _. now rewrite length_map.
Qed.

Lemma transpose_entry (m : matrix) (k h i j : nat) :
  has_shape m k h -> i < k -> j < h ->
  entry (transpose m) j i = entry m i j.
Proof.
  intros [Hk Hrows] Hi Hj. destruct m as [|r m]; [simpl in Hk; lia|].
  unfold entry. cbn [transpose].
  inversion Hrows as [|? ? Hr _]; subst.
  set (F := fun j => map (fun row : vector => nth j row zero) (r :: m)).
  rewrite (nth_indep _ [] (F 0)) by now rewrite length_map, length_seq.
  rewrite map_nth, seq_nth by assumption. cbn [Nat.add]. unfold F.
  set (G := fun row : vector => nth j row zero).
  assert (E0 : zero = G []) by (unfold G; now destruct j).
  rewrite E0 at 1. now rewrite map_nth.
Qed.

Lemma valid_args_cat (hidden : nat) (md act : string) (units layers : nat)
  (p : scalar) (dims : option (list nat)) (n_in : nat) :
  valid_args hidden md act units layers p dims = true ->
  0 < hidden /\
  (if layers =? 0 then n_in + hidden else units)
  = (if layers =? 0 then hidden + n_in else units) /\
  0 < (if layers =? 0 then hidden + n_in else units).
Proof.
  unfold valid_args. rewrite !andb_true_iff.
  intros [[[[[_ _] Hh] Hu] _] _]. apply Nat.ltb_lt in Hh.
  destruct (layers =? 0); cbn [orb] in Hu.
  - repeat split; lia.
  - apply Nat.ltb_lt in Hu. auto.
Qed.

(** X12. Lines 76 to 83 and 151 to 154: a mask given as an array of shape
    (cat_shape, hidden_size) is stored transposed and in absolute value,
    as a parameter of shape (hidden_size, cat_shape) that is not trainable,
    and the initialisation of the weights does not touch it: the entry
    (j, i) of the stored mask is [|mask[i][j]|]. *)
Theorem init_stores_mask (n_in hidden : nat) (md act : string)
  (units layers : nat) (p : scalar) (m : matrix)
  (dims : option (list nat)) (nact : act_kind) (g : rng) :
  valid_args hidden md act units layers p dims = true ->
  has_shape m (if layers =? 0 then hidden + n_in else units) hidden ->
  exists c g' z,
    CfCCell_init n_in hidden md act units layers p (Some m) dims nact g
    = (Ok c, g') /\
    sparsity_mask c = Some {| data := T2 z; requires_grad := false |} /\
    has_shape z hidden (if layers =? 0 then hidden + n_in else units) /\
    forall i j,
      i < (if layers =? 0 then hidden + n_in else units) -> j < hidden ->
      entry z j i = sabs (entry m i j).
Proof.
  intros Hv Hm.
  destruct (valid_args_cat _ _ _ _ _ _ _ n_in Hv) as (Hh & _ & Hcat).
  destruct (CfCCell_init_ok n_in hidden md act units layers p (Some m) dims
              nact g Hv)
    as (c0 & g0 & c & g2 & g3 & g' & _ & Hc & _ & _ & _ & _ & _ & _ & _ & _
        & Em & _).
  exists c, g', (map (map sabs) (transpose m)).
  split; [exact Hc|]. split; [exact Em|].
  pose proof (transpose_shape m _ _ Hm Hcat) as Ht.
  split; [now apply has_shape_map|].
  intros i j Hi Hj.
  rewrite (entry_map sabs _ _ _ _ _ Ht Hj Hi).
  now rewrite (transpose_entry m _ _ i j Hm Hi Hj).
Qed.

(** *** Construction, then evaluation *)

Lemma CfCCell_init_runs (n_in hidden : nat) (md act : string)
  (units layers : nat) (p : scalar) (mask : option matrix)
  (dims : option (list nat)) (nact : act_kind) (g : rng) :
  valid_args hidden md act units layers p dims = true ->
  match mask with
  | Some m => has_shape m (if layers =? 0 then hidden + n_in else units) hidden
  | None => True
  end ->
  exists c g',
    CfCCell_init n_in hidden md act units layers p mask dims nact g
    = (Ok c, g') /\
    cell_wf c /\ hidden_size c = hidden /\ input_size c = n_in /\ mode c = md /\
    neuromod_network_dims c = dims.
Proof.
  intros Hv Hm.
  destruct (valid_args_cat _ _ _ _ _ _ _ n_in Hv) as (Hh & Ecat & Hcat).
  destruct (CfCCell_init_ok n_in hidden md act units layers p mask dims
              nact g Hv)
    as (c0 & g0 & c & g2 & g3 & g' & _ & Hc & _ & _ & _ & _ & Ei & Eh & Emd
        & Ed & _).
  exists c, g'. split; [exact Hc|]. split; [|auto].
  apply (CfCCell_init_wf n_in hidden md act units layers p mask dims nact g g'
           c Hv); [|exact Hc].
  destruct mask as [m|]; [|exact I]. rewrite Ecat.
  now apply transpose_shape.
Qed.

(** X13. Lines 37 to 149 with 178 to 239: on valid arguments, and with a mask of
    the shape (cat_shape, hidden_size) when one is given, the constructor
    returns a cell on which every call of [forward] with well-shaped
    arguments succeeds, with a result of the shape (batch, hidden_size),
    whatever the state of the generator. *)
Theorem init_then_forward (n_in hidden : nat) (md act : string)
  (units layers : nat) (p : scalar) (mask : option matrix)
  (dims : option (list nat)) (nact : act_kind) (g : rng) :
  valid_args hidden md act units layers p dims = true ->
  match mask with
  | Some m => has_shape m (if layers =? 0 then hidden + n_in else units) hidden
  | None => True
  end ->
  exists c g',
    CfCCell_init n_in hidden md act units layers p mask dims nact g
    = (Ok c, g') /\
    forall (input : py_input) (hx ts : tensor) (batch : nat) (g1 : rng),
      input_okb c input batch = true ->
      is_mat hx batch hidden -> ts_ok ts batch hidden ->
      exists nh w',
        forward input hx ts {| self := c; gen := g1 |} = (Ok (nh, nh), w') /\
        is_mat nh batch hidden.
Proof.
  intros Hv Hm.
  destruct (CfCCell_init_runs n_in hidden md act units layers p mask dims
              nact g Hv Hm) as (c & g' & Hc & Wc & Eh & _).
  exists c, g'. split; [exact Hc|].
  intros input hx ts batch g1 Hin Hhx Hts. rewrite <- Eh in *.
  destruct (forward_step c input hx ts batch g1 Wc Hin Hhx Hts)
    as (nh & c' & g2 & Hf & Snh & _).
  eauto.
Qed.

(** *** The buffer [tau_system] *)

(** As [forward_value_ok], with the shape of the tensor stored in
    [tau_system]. *)
Lemma forward_value_tau_ok (c : CfCCell) (input : py_input) (hx ts : tensor)
  (batch : nat) (g : rng) :
  cell_wf c ->
  input_okb c input batch = true ->
  is_mat hx batch (hidden_size c) ->
  ts_ok ts batch (hidden_size c) ->
  exists nh tau g',
    forward_value c input hx ts g = (Ok (nh, tau), g') /\
    is_mat nh batch (hidden_size c) /\
    match tau with
    | Some t =>
        ((mode c =? "pure") || (mode c =? "neuromodulated"))%string = true /\
        is_mat t batch (hidden_size c)
    | None =>
        ((mode c =? "pure") || (mode c =? "neuromodulated"))%string = false
    end.
Proof.
  intros Hc Hin Hhx Hts.
  destruct (cell_wf_inv c Hc) as (k & Hk & W1 & Wm & Hh).
  unfold forward_value, bind, lift.
  assert (exists x, concat_input c input hx = Ok x /\
                    is_mat x batch (input_size c + hidden_size c)) as (x & Hx & Sx).
  { unfold concat_input, input_okb in *.
    destruct (mode c =? "neuromodulated")%string.
    - destruct input as [t|i0 i1]; try discriminate.
      destruct (neuromod_network_dims c) as [[|d0 ?]|]; try discriminate.
      apply andb_true_iff in Hin as [H0 H1].
      now apply torch_cat1_mat.
    - destruct input as [t|i0 i1]; try discriminate.
      now apply torch_cat1_mat. }
  rewrite Hx.
  destruct (apply_backbone_mat c x batch k g Hk Sx) as (x' & g1 & Hx' & Sx').
  rewrite Hx'.
  destruct (masked_linear_mat _ (ff1 c) x' batch k _ Wm W1 Sx') as (f & Hf & Sf).
  rewrite Hf.
  destruct (mode c =? "pure")%string eqn:Ep.
  - destruct (closed_form_mat c ts f f batch Hh Hts Sf Sf) as (nh & Hnh & Snh).
    destruct (tau_of_ok c f batch Hh Sf) as (tau & Htau & Stau).
    rewrite Hnh, Htau. unfold ret. eexists; eexists; eexists.
    split; [reflexivity|]. auto.
  - destruct (mode c =? "neuromodulated")%string eqn:En.
    + apply andb_true_iff in Hh as [Hh Hn].
      destruct (neuromod_inv c Hn) as (d0 & dims & nm & Ed & Enm & Wnm & _).
      unfold input_okb in Hin. rewrite En, Ed in Hin.
      destruct input as [t|i0 i1]; try discriminate.
      apply andb_true_iff in Hin as [H0 H1].
      destruct (Sequential_call_mat nm i1 batch d0 _ g1 Wnm H1)
        as (sg & g2 & Hsg & Ssg).
      unfold neuromod_call, bind, lift, attr. rewrite Enm, Hsg.
      destruct (closed_form_mat c ts sg f batch Hh Hts Ssg Sf) as (nh & Hnh & Snh).
      destruct (tau_of_ok c sg batch Hh Ssg) as (tau & Htau & Stau).
      rewrite Hnh, Htau. unfold ret. eexists; eexists; eexists.
      split; [reflexivity|]. auto.
    + destruct (gated_mat c ts x' f batch k Hh Wm Hts Sx' Sf) as (nh & Hnh & Snh).
      rewrite Hnh. unfold ret. eexists; eexists; eexists.
      split; [reflexivity|]. auto.
Qed.

Lemma CfCCell_init_tau_system (n_in hidden : nat) (md act : string)
  (units layers : nat) (p : scalar) (mask : option matrix)
  (dims : option (list nat)) (nact : act_kind) (g g' : rng) (c : CfCCell) :
  CfCCell_init n_in hidden md act units layers p mask dims nact g = (Ok c, g') ->
  tau_system c = {| data := T1 (repeat one hidden); requires_grad := false |}.
Proof.
  intros Hc.
  destruct (CfCCell_init_inv _ _ _ _ _ _ _ _ _ _ _ _ _ Hc)
    as (c0 & g0 & Ha & Hi).
  destruct (CfCCell_attributes_inv _ _ _ _ _ _ _ _ _ _ _ _ _ Ha)
    as (k & g1 & g4 & _ & _ & _ & _ & _ & _ & _ & _ & _ & _ & Et).
  destruct (init_weights_inv _ _ _ _ Hi)
    as (h1 & h2 & h3 & h4 & h5 & h6 & h7 & h8 & h9 & _ & _ & _ & Ht & _).
  rewrite Et in Ht. unfold init_param in Ht. cbn in Ht.
  apply ret_inv in Ht as [-> _]. reflexivity.
Qed.

(** X14. Lines 143 to 148, 209 and 223: the buffer [tau_system] of a constructed
    cell is the vector of [hidden_size] ones, not trainable.  A successful
    call of [forward] in the modes "pure" and "neuromodulated" replaces its
    data by a matrix of the shape (batch, hidden_size), so the rank of the
    buffer changes from 1 to 2 with the first call; in the other modes the
    buffer keeps the ones.  It is never made trainable. *)
Theorem tau_system_lifecycle (n_in hidden : nat) (md act : string)
  (units layers : nat) (p : scalar) (mask : option matrix)
  (dims : option (list nat)) (nact : act_kind) (g : rng) :
  valid_args hidden md act units layers p dims = true ->
  match mask with
  | Some m => has_shape m (if layers =? 0 then hidden + n_in else units) hidden
  | None => True
  end ->
  exists c g',
    CfCCell_init n_in hidden md act units layers p mask dims nact g
    = (Ok c, g') /\
    tau_system c
    = {| data := T1 (repeat one hidden); requires_grad := false |} /\
    forall (input : py_input) (hx ts : tensor) (batch : nat) (g1 : rng),
      input_okb c input batch = true ->
      is_mat hx batch hidden -> ts_ok ts batch hidden ->
      exists out w',
        forward input hx ts {| self := c; gen := g1 |} = (Ok out, w') /\
        requires_grad (tau_system (self w')) = false /\
        if ((md =? "pure") || (md =? "neuromodulated"))%string
        then is_mat (data (tau_system (self w'))) batch hidden
        else tau_system (self w') = tau_system c.
Proof.
  intros Hv Hm.
  destruct (CfCCell_init_runs n_in hidden md act units layers p mask dims
              nact g Hv Hm) as (c & g' & Hc & Wc & Eh & _ & Emd & _).
  pose proof (CfCCell_init_tau_system _ _ _ _ _ _ _ _ _ _ _ _ _ Hc) as Et.
  exists c, g'. split; [exact Hc|]. split; [exact Et|].
  intros input hx ts batch g1 Hin Hhx Hts. rewrite <- Eh in *.
  destruct (forward_value_tau_ok c input hx ts batch g1 Wc Hin Hhx Hts)
    as (nh & tau & g2 & Hf & _ & Htau).
  rewrite forward_run. cbn [self gen]. rewrite Hf. rewrite Emd in Htau.
  eexists; eexists. split; [reflexivity|]. cbn [self].
  destruct tau as [t|].
  - destruct Htau as [-> St]. cbn [set_tau_system_data tau_system data
                                    requires_grad].
    split; [now rewrite Et|exact St].
  - rewrite Htau. split; [now rewrite Et|reflexivity].
Qed.

(** *** Initialising the weights again *)

Lemma sigs_pos (sigs : list layer_sig) (layers : Sequential) :
  Forall2 has_sig sigs layers ->
  Forall (fun s => match s with SLinear _ o => 0 < o | _ => True end) sigs ->
  seq_posb layers = true.
Proof.
  induction 1 as [|s m sigs layers Hs Hrest IH]; [reflexivity|].
  intros Hp. inversion Hp as [|? ? Hp1 Hp2]; subst.
  unfold seq_posb in *. cbn [forallb]. rewrite (IH Hp2), andb_true_r.
  destruct s as [i o|k|p tr], m as [l|k'|p' tr']; cbn [has_sig] in Hs;
    try contradiction; try reflexivity.
  destruct (Linear_wf_pos l i o Hs Hp1) as (r & w & ->). reflexivity.
Qed.

Lemma blocks_pos (act : act_kind) (units : nat) (p : scalar) (n : nat) :
  0 < units ->
  Forall (fun s => match s with SLinear _ o => 0 < o | _ => True end)
    (concat (repeat (block_sigs act units p) n)).
Proof.
  intros Hu. induction n as [|n IH]; [constructor|].
  cbn [repeat concat]. apply Forall_app. split; [|exact IH].
  unfold block_sigs. destruct (sltb zero p); repeat constructor; exact Hu.
Qed.

Lemma neuromod_sigs_pos (act : act_kind) (ds : list nat) :
  forall d0,
    forallb (fun d => 0 <? d) ds = true ->
    Forall (fun s => match s with SLinear _ o => 0 < o | _ => True end)
      (neuromod_sigs act (d0 :: ds)).
Proof.
  induction ds as [|d1 ds IH]; intros d0 Hp; [constructor|].
  cbn [forallb] in Hp. apply andb_true_iff in Hp as [H1 Hp].
  apply Nat.ltb_lt in H1.
  change (neuromod_sigs act (d0 :: d1 :: ds))
    with (SLinear d0 d1 :: SActivation act :: neuromod_sigs act (d1 :: ds)).
  constructor; [exact H1|]. constructor; [exact I|]. now apply IH.
Qed.

(** A constructed cell has what [init_weights] relies on. *)
Lemma CfCCell_init_fresh (n_in hidden : nat) (md act : string)
  (units layers : nat) (p : scalar) (mask : option matrix)
  (dims : option (list nat)) (nact : act_kind) (g g' : rng) (c : CfCCell) :
  valid_args hidden md act units layers p dims = true ->
  CfCCell_init n_in hidden md act units layers p mask dims nact g = (Ok c, g') ->
  heads_wfb c = true /\ cell_fresh c.
Proof.
  intros Hv Hc.
  destruct (CfCCell_init_ok n_in hidden md act units layers p mask dims nact g Hv)
    as (c0 & g0 & c1 & g2 & g3 & g1 & _ & Hc1 & _ & _ & _ & Hw & _ & Eh & Em
        & Ed & Ek & _).
  rewrite Hc in Hc1. injection Hc1 as <- <-.
  split; [exact Hw|].
  pose proof Hv as Hv'. unfold valid_args in Hv'.
  rewrite !andb_true_iff in Hv'.
  destruct Hv' as [[[[[_ _] Hh] Hu] _] Hn]. apply Nat.ltb_lt in Hh.
  unfold cell_fresh. rewrite Eh. split; [exact Hh|].
  split.
  { rewrite (CfCCell_init_tau_system _ _ _ _ _ _ _ _ _ _ _ _ _ Hc).
    cbn [data]. eauto. }
  split.
  { rewrite Ek. destruct mask; [reflexivity|exact I]. }
  split.
  { destruct (CfCCell_init_backbone _ _ _ _ _ _ _ _ _ _ _ _ _ Hc)
      as (k & _ & El & Hb).
    rewrite El. destruct (backbone c) as [bb|].
    - destruct Hb as [Hpos Hs].
      assert (E : (0 <? layers) = true) by now apply Nat.ltb_lt.
      rewrite E. apply (sigs_pos _ _ Hs).
      destruct layers as [|n]; [lia|]. cbn [orb Nat.eqb] in Hu.
      apply Nat.ltb_lt in Hu. cbn [backbone_sigs].
      constructor; [exact Hu|]. constructor; [exact I|].
      now apply blocks_pos.
    - rewrite Hb. reflexivity. }
  pose proof (CfCCell_init_head _ _ _ _ _ _ _ _ _ _ _ _ _ Hc) as Hd.
  rewrite Em. unfold neuromod_dims_valid in Hn.
  destruct (md =? "pure")%string eqn:Ep.
  - cbn [orb] in Hd. destruct Hd as (_ & E2 & Ea & Eb & Hnm).
    assert (En : (md =? "neuromodulated")%string = false).
    { apply String.eqb_eq in Ep. now rewrite Ep. }
    rewrite En in Hnm. auto.
  - cbn [orb] in Hd. destruct (md =? "neuromodulated")%string eqn:En.
    + destruct Hd as (_ & E2 & Ea & Eb & ds & nm & Eds & Enm & Hs).
      rewrite Enm. repeat split; auto.
      apply (sigs_pos _ _ Hs). rewrite Eds in Hn.
      destruct ds as [|d0 ds]; [discriminate|].
      apply andb_true_iff in Hn as [_ Hn]. now apply neuromod_sigs_pos.
    + destruct Hd as (E1 & E2 & E3 & _). auto.
Qed.

(** X15. Lines 151 to 154: [init_weights] can be called again on a constructed
    cell, in whatever state the generator is: it succeeds, leaves the mask
    and the buffer [tau_system] as they are, and the cell it leaves is well
    formed again, so that [forward] runs on it as before. *)
Theorem init_weights_again (n_in hidden : nat) (md act : string)
  (units layers : nat) (p : scalar) (mask : option matrix)
  (dims : option (list nat)) (nact : act_kind) (g : rng) :
  valid_args hidden md act units layers p dims = true ->
  match mask with
  | Some m => has_shape m (if layers =? 0 then hidden + n_in else units) hidden
  | None => True
  end ->
  exists c g',
    CfCCell_init n_in hidden md act units layers p mask dims nact g
    = (Ok c, g') /\
    forall g1, exists c' g2,
      init_weights c g1 = (Ok c', g2) /\
      cell_wf c' /\
      sparsity_mask c' = sparsity_mask c /\
      tau_system c' = tau_system c /\
      mode c' = mode c /\ input_size c' = input_size c /\
      hidden_size c' = hidden_size c /\
      neuromod_network_dims c' = neuromod_network_dims c.
Proof.
  intros Hv Hm.
  destruct (CfCCell_init_runs n_in hidden md act units layers p mask dims
              nact g Hv Hm) as (c & g' & Hc & Wc & _).
  exists c, g'. split; [exact Hc|]. intros g1.
  destruct (CfCCell_init_fresh _ _ _ _ _ _ _ _ _ _ _ _ _ Hv Hc) as [Hw Hf].
  destruct (init_weights_ok c g1 Hw Hf)
    as (c' & h2 & h3 & g2 & Hi & _ & _ & Hw' & Ei & Eh & Emd & Ed & _ & Ek
        & Et & Ef & _).
  exists c', g2. split; [exact Hi|].
  split; [|auto 10].
  unfold cell_wf, cell_wfb in *. rewrite Hw'. cbn [andb].
  apply andb_true_iff in Wc as [_ Wk].
  unfold mask_wfb in *. now rewrite Ek, Ef, Eh.
Qed.

(** *** Replacing the neuromodulation network *)

(** The run of [change_neuromodulation_network] in mode "neuromodulated". *)
Lemma change_network_run (c : CfCCell) (d0 : nat) (dims : list nat)
  (network : Sequential) (g : rng) :
  mode c = "neuromodulated" ->
  neuromod_network_dims c = Some (d0 :: dims) ->
  exists probe g1,
    torch_rand 1 d0 g = (Ok probe, g1) /\ is_mat probe 1 d0 /\
    change_neuromodulation_network network {| self := c; gen := g |} =
    match Sequential_call network probe g1 with
    | (Ok (T2 out), g2) =>
        if length (hd [] out) =? last (d0 :: dims) 0
        then (Ok tt, {| self := set_neuromod c network; gen := g2 |})
        else (Raise (ValueError (wrong_input_size_msg d0)),
              {| self := c; gen := g2 |})
    | (_, g2) => (Raise (ValueError (wrong_input_size_msg d0)),
                  {| self := c; gen := g2 |})
    end.
Proof.
  intros Hm Hd.
  destruct (torch_rand_ok 1 d0 g) as (probe & g1 & Hp & Sp).
  exists probe, g1. split; auto. split; auto.
  unfold change_neuromodulation_network, bind, get_self, dims_first, dims_last,
    try_except, with_gen, shape1, assign_neuromod, raise, ret.
  cbn [self gen]. rewrite Hm.
  cbn [String.eqb Ascii.eqb Bool.eqb negb self gen]. rewrite Hd.
  cbn [self gen]. rewrite Hp. cbn [self gen].
  destruct (Sequential_call network probe g1) as [[[s|v|out]|e] g2];
    cbn [self gen]; try reflexivity.
  destruct (length (hd [] out) =? last (d0 :: dims) 0); reflexivity.
Qed.

Lemma is_mat_row_width (out : matrix) (h : nat) :
  is_mat (T2 out) 1 h -> length (hd [] out) = h.
Proof.
  intros H. destruct (is_mat_inv _ _ _ H) as (x & E & [H1 H2]).
  injection E as <-. destruct out as [|r out]; [discriminate|].
  now inversion H2.
Qed.







Lemma is_mat_one_row (x : tensor) (k : nat) :
  is_mat x 1 k -> exists r, x = T2 [r] /\ length r = k.
Proof.
  intros H. destruct (is_mat_inv _ _ _ H) as (xm & -> & H1 & H2).
  destruct xm as [|r [|r' xm]]; try discriminate.
  exists r. split; [reflexivity|]. now inversion H2.
Qed.




Lemma change_network_raises (c : CfCCell) (d0 : nat) (dims : list nat)
  (network : Sequential) (g : rng) :
  mode c = "neuromodulated" ->
  neuromod_network_dims c = Some (d0 :: dims) ->
  (forall probe g1,
     is_mat probe 1 d0 ->
     match Sequential_call network probe g1 with
     | (Ok (T2 out), _) => length (hd [] out) <> last (d0 :: dims) 0
     | _ => True
     end) ->
  exists g',
    change_neuromodulation_network network {| self := c; gen := g |}
    = (Raise (ValueError (wrong_input_size_msg d0)),
       {| self := c; gen := g' |}).
Proof.
  intros Hm Hd H.
  destruct (change_network_run c d0 dims network g Hm Hd)
    as (probe & g1 & _ & Sp & Hrun).
  specialize (H probe g1 Sp). rewrite Hrun.
  destruct (Sequential_call network probe g1) as [[[s|v|out]|e] g2];
    try (eexists; reflexivity).
  apply Nat.eqb_neq in H. rewrite H. eexists; reflexivity.
Qed.

(** X17. Lines 166 to 172: a candidate is rejected when its first layer is a
    linear layer for another number of input features than
    [neuromod_network_dims[0]], and also when its layers fit that input and
    one another but end in another width than [neuromod_network_dims[-1]].
    In both cases the error is the [ValueError] that names the input size:
    the message of the assertion on the output size never reaches the
    caller.  The cell keeps its network. *)
Theorem change_network_rejects_misfit (c : CfCCell) (d0 : nat)
  (dims : list nat) (network : Sequential) (g : rng) :
  mode c = "neuromodulated" ->
  neuromod_network_dims c = Some (d0 :: dims) ->
  (exists l rest k o,
     network = LinearLayer l :: rest /\ Linear_wf l k o /\ k <> d0 /\ 0 < o)
  \/ (exists k, seq_width network d0 = Some k /\ k <> last (d0 :: dims) 0) ->
  exists g',
    change_neuromodulation_network network {| self := c; gen := g |}
    = (Raise (ValueError (wrong_input_size_msg d0)),
       {| self := c; gen := g' |}) /\
    spec_category (ValueError (wrong_input_size_msg d0))
    = Some InvalidConfiguration.
Proof.
  intros Hm Hd Hbad.
  destruct (change_network_raises c d0 dims network g Hm Hd) as (g' & Hg).
  - intros probe g1 Sp.
    destruct Hbad as [(l & rest & k & o & -> & Wl & Hk & Ho)|(k & Hw & Hk)].
    + destruct (is_mat_one_row _ _ Sp) as (r & -> & Lr).
      destruct (Linear_wf_inv _ _ _ Wl) as (w & b & Ew & Eb & [Lw Hw] & Lb).
      cbn [Sequential_call Module_call]. unfold bind, lift.
      rewrite Ew, Eb. cbn [F_linear mapM_r].
      destruct w as [|wr w]; [simpl in Lw; lia|].
      inversion Hw as [|? ? Lwr _]; subst.
      cbn [mapM_r]. unfold dot at 1.
      destruct (Nat.eqb_spec (length r) (length wr)) as [E|E];
        [congruence|].
      cbn [rbind]. exact I.
    + destruct (Sequential_call_mat network probe 1 d0 k g1 Hw Sp)
        as (out & g2 & Hout & Sout).
      rewrite Hout. destruct (is_mat_inv _ _ _ Sout) as (m & -> & _).
      now rewrite (is_mat_row_width _ _ Sout).
  - exists g'. split; [exact Hg|reflexivity].
Qed.



(** *** The value of the update, entry by entry *)





(** *** What the recorded time constant depends on *)

Lemma apply_backbone_det (c : CfCCell) (x : tensor) :
  deterministic_net (backbone c) = true ->
  exists r, forall g, apply_backbone c x g = (r, g).
Proof.
  intros Hb. unfold apply_backbone. destruct (0 <? backbone_layers c).
  - destruct (backbone c) as [bb|].
    + now apply Sequential_call_det.
    + unfold raise. eauto.
  - unfold ret. eauto.
Qed.

(** X19. Lines 211 and 223: in mode "neuromodulated" the tensor recorded in
    [tau_system] is computed from [w_tau] and from the neuromodulation
    input alone.  With a backbone that has no dropout layer, two successful
    calls with the same neuromodulation input record the same tensor,
    whatever the policy inputs, the hidden states and the elapsed times. *)
Theorem neuromodulated_tau_ignores_policy (c : CfCCell)
  (policy1 policy2 neuromod_input hx1 hx2 ts1 ts2 : tensor) (g : rng)
  (out1 out2 : tensor * tensor) (w1 w2 : world) :
  mode c = "neuromodulated" ->
  deterministic_net (backbone c) = true ->
  forward (Tuple policy1 neuromod_input) hx1 ts1 {| self := c; gen := g |}
  = (Ok out1, w1) ->
  forward (Tuple policy2 neuromod_input) hx2 ts2 {| self := c; gen := g |}
  = (Ok out2, w2) ->
  tau_system (self w1) = tau_system (self w2).
Proof.
  intros Hm Hb. rewrite !forward_run. cbn [self gen].
  unfold forward_value, bind, lift. rewrite Hm.
  cbn [String.eqb Ascii.eqb Bool.eqb].
  destruct (concat_input c (Tuple policy1 neuromod_input) hx1) as [x1|e];
    [|discriminate].
  destruct (concat_input c (Tuple policy2 neuromod_input) hx2) as [x2|e];
    [|discriminate].
  destruct (apply_backbone_det c x1 Hb) as (r1 & H1). rewrite H1.
  destruct (apply_backbone_det c x2 Hb) as (r2 & H2). rewrite H2.
  destruct r1 as [y1|e]; [|discriminate].
  destruct r2 as [y2|e]; [|discriminate].
  destruct (masked_linear (sparsity_mask c) (ff1 c) y1) as [f1|e];
    [|discriminate].
  destruct (masked_linear (sparsity_mask c) (ff1 c) y2) as [f2|e];
    [|discriminate].
  destruct (neuromod_call c (Tuple policy1 neuromod_input) g)
    as [[sg|e] g1] eqn:Hn.
  - assert (Hn' : neuromod_call c (Tuple policy2 neuromod_input) g
                  = (Ok sg, g1)) by exact Hn.
    rewrite Hn'.
    destruct (closed_form c ts1 sg f1) as [nh1|e]; [|discriminate].
    destruct (closed_form c ts2 sg f2) as [nh2|e];
      [|destruct (tau_of c sg); discriminate].
    destruct (tau_of c sg) as [tau|e]; [|discriminate].
    unfold ret. intros E1 E2. injection E1 as _ <-. injection E2 as _ <-.
    reflexivity.
  - discriminate.
Qed.




(** *** The samples of a batch are processed independently *)

















(** *** Invariants of the generator *)

Lemma mapM_inv {X Y} (f : X -> M rng Y) (I : rng -> Prop) (Q : Y -> Prop)
  (l : list X) :
  (forall a s b s', I s -> f a s = (Ok b, s') -> Q b /\ I s') ->
  forall s l' s', I s -> mapM f l s = (Ok l', s') -> Forall Q l' /\ I s'.
Proof.
  intros Hf. induction l as [|a l IH]; intros s l' s' Hs H; cbn [mapM] in H.
  - apply ret_inv in H as [-> ->]. auto.
  - binv H b s1 Hb. binv H bs s2 Hbs. apply ret_inv in H as [-> ->].
    destruct (Hf a s b s1 Hs Hb) as [Qb Is1].
    destruct (IH s1 bs s2 Is1 Hbs) as [Qbs Is2]. auto.
Qed.

Section Invariant.
Variable I : rng -> Prop.
Hypothesis uniform_inv :
  forall lo hi s, I s -> I (snd (uniform lo hi s)).

Lemma draw_uniform_inv (lo hi : scalar) (s s' : rng) (x : scalar) :
  I s -> draw_uniform lo hi s = (Ok x, s') ->
  x = fst (uniform lo hi s) /\ I s'.
Proof.
  intros Hs. unfold draw_uniform. pose proof (uniform_inv lo hi s Hs) as H.
  destruct (uniform lo hi s) as [y s1]. intros E. injection E as <- <-.
  auto.
Qed.

Lemma uniform_matrix_inv (rows cols : nat) (lo hi : scalar) (Q : scalar -> Prop)
  (s s' : rng) (m : matrix) :
  (forall s0, I s0 -> Q (fst (uniform lo hi s0))) ->
  I s -> uniform_matrix rows cols lo hi s = (Ok m, s') ->
  Forall (Forall Q) m /\ I s'.
Proof.
  intros HQ Hs H. unfold uniform_matrix in H.
  apply (mapM_inv _ I (Forall Q) _) with (s := s) (2 := Hs) (3 := H).
  intros _ s0 v s1 Hs0 Hv. unfold uniform_vector in Hv.
  apply (mapM_inv _ I Q _) with (s := s0) (2 := Hs0) (3 := Hv).
  intros _ s2 x s3 Hs2 Hx.
  destruct (draw_uniform_inv lo hi s2 s3 x Hs2 Hx) as [-> Hs3]. auto.
Qed.

Lemma uniform_vector_inv (n : nat) (lo hi : scalar) (s s' : rng) (v : vector) :
  I s -> uniform_vector n lo hi s = (Ok v, s') -> I s'.
Proof.
  intros Hs H. unfold uniform_vector in H.
  apply (mapM_inv _ I (fun _ => True) _) with (s := s) (2 := Hs) (3 := H).
  intros _ s2 x s3 Hs2 Hx.
  destruct (draw_uniform_inv lo hi s2 s3 x Hs2 Hx) as [_ Hs3]. auto.
Qed.

Lemma nn_Linear_inv (n_in n_out : nat) (s s' : rng) (l : Linear) :
  I s -> nn_Linear n_in n_out s = (Ok l, s') -> I s'.
Proof.
  intros Hs H. unfold nn_Linear in H. binv H w s1 Hw. binv H b s2 Hb.
  apply ret_inv in H as [_ ->].
  destruct (uniform_matrix_inv _ _ _ _ (fun _ => True) _ _ _
              (fun _ _ => Logic.I) Hs Hw) as [_ Hs1].
  eapply uniform_vector_inv; eauto.
Qed.

Lemma backbone_blocks_inv (n : nat) (act : act_kind) (units : nat)
  (p : scalar) :
  forall s s' layers,
    I s -> backbone_blocks n act units p s = (Ok layers, s') -> I s'.
Proof.
  induction n as [|n IH]; intros s s' layers Hs H; cbn [backbone_blocks] in H.
  - now apply ret_inv in H as [_ ->].
  - binv H l s1 Hl. binv H d s2 Hd. binv H rest s3 Hr.
    apply ret_inv in H as [_ ->].
    pose proof (nn_Linear_inv _ _ _ _ _ Hs Hl) as Hs1.
    assert (Hs2 : I s2).
    { destruct (sltb zero p).
      - binv Hd m s4 Hm. apply ret_inv in Hd as [_ ->].
        unfold nn_Dropout in Hm.
        destruct (sltb p zero || sltb one p); [discriminate|].
        now apply ret_inv in Hm as [_ ->].
      - now apply ret_inv in Hd as [_ ->]. }
    exact (IH s2 s3 rest Hs2 Hr).
Qed.

Lemma neuromod_layers_inv (act : act_kind) (dims : list nat) :
  forall s s' layers,
    I s -> neuromod_layers act dims s = (Ok layers, s') -> I s'.
Proof.
  induction dims as [|d0 tl IH]; intros s s' layers Hs H.
  - now apply ret_inv in H as [_ ->].
  - destruct tl as [|d1 tl'].
    + now apply ret_inv in H as [_ ->].
    + rewrite neuromod_layers_cons in H.
      binv H l s1 Hl. binv H rest s2 Hr. apply ret_inv in H as [_ ->].
      apply (IH s1 s2 rest); [|exact Hr].
      exact (nn_Linear_inv _ _ _ _ _ Hs Hl).
Qed.

Lemma CfCCell_attributes_gen_inv (n_in hidden : nat) (md act : string)
  (units layers : nat) (p : scalar) (mask : option matrix)
  (dims : option (list nat)) (nact : act_kind) (s s' : rng) (c0 : CfCCell) :
  I s ->
  CfCCell_attributes n_in hidden md act units layers p mask dims nact s
  = (Ok c0, s') ->
  I s'.
Proof.
  intros Hs H.
  destruct (CfCCell_attributes_inv _ _ _ _ _ _ _ _ _ _ _ _ _ H)
    as (k & s1 & s2 & _ & Hbb & Hf1 & Hh & _).
  assert (Hs1 : I s1).
  { unfold build_backbone in Hbb. destruct (0 <? layers).
    - binv Hbb l s3 Hl. binv Hbb rest s4 Hr. apply ret_inv in Hbb as [_ ->].
      apply (backbone_blocks_inv (layers - 1) k units p s3 s4 rest);
        [|exact Hr].
      exact (nn_Linear_inv _ _ _ _ _ Hs Hl).
    - now apply ret_inv in Hbb as [_ ->]. }
  pose proof (nn_Linear_inv _ _ _ _ _ Hs1 Hf1) as Hs2.
  unfold build_head in Hh.
  destruct ((md =? "pure") || (md =? "neuromodulated"))%string.
  - binv Hh nm s3 Hn. apply ret_inv in Hh as [_ ->].
    destruct (md =? "neuromodulated")%string.
    + destruct dims as [[|d0 ds]|]; try discriminate.
      destruct (negb (last (d0 :: ds) 0 =? hidden)); [discriminate|].
      binv Hn layers0 s4 Hl. apply ret_inv in Hn as [_ ->].
      exact (neuromod_layers_inv _ _ _ _ _ Hs2 Hl).
    + now apply ret_inv in Hn as [_ ->].
  - binv Hh l2 s3 H2. binv Hh la s4 Ha. binv Hh lb s5 Hb.
    apply ret_inv in Hh as [_ ->].
    pose proof (nn_Linear_inv _ _ _ _ _ Hs2 H2) as Hs3.
    pose proof (nn_Linear_inv _ _ _ _ _ Hs3 Ha) as Hs4.
    exact (nn_Linear_inv _ _ _ _ _ Hs4 Hb).
Qed.

(** What [xavier_uniform_] leaves of a (1, h) parameter. *)
Lemma xavier_row_inv (w w' : nn_Parameter) (r : vector) (Q : scalar -> Prop)
  (s s' : rng) :
  data w = T2 [r] ->
  (forall s0,
     I s0 ->
     let a := smul (ssqrt (lit (3 # 1)))
                (smul one (ssqrt (sdiv (lit (2 # 1))
                                    (of_nat (length r + 1))))) in
     Q (fst (uniform (sneg a) a s0))) ->
  I s -> xavier_uniform_ w s = (Ok w', s') ->
  exists r', data w' = T2 [r'] /\ length r' = length r /\ Forall Q r' /\ I s'.
Proof.
  intros Ew HQ Hs H. unfold xavier_uniform_ in H. rewrite Ew in H.
  cbn [length hd] in H.
  destruct (length r + 1 =? 0); [discriminate|].
  binv H m s1 Hm. apply ret_inv in H as [-> ->]. cbn [data].
  destruct (uniform_matrix_inv _ _ _ _ Q _ _ _ HQ Hs Hm) as [HQm Hs1].
  match type of Hm with
  | uniform_matrix _ _ ?lo ?hi _ = _ =>
      destruct (uniform_matrix_ok 1 (length r) lo hi s)
        as (m' & s2 & Hm' & [L1 L2])
  end.
  rewrite Hm in Hm'. injection Hm' as <- <-.
  destruct m as [|r' [|? ?]]; try discriminate.
  exists r'. split; [reflexivity|].
  inversion L2; subst. inversion HQm; subst. auto.
Qed.

End Invariant.

End MoreProperties.

(** ** Properties over the real numbers *)

Module RealProperties.
Import RealBackend RealGenerators.

Local Open Scope R_scope.

Lemma tanh_exp (x : R) : tanh x = (exp x - exp (- x)) / (exp x + exp (- x)).
Proof.
  unfold tanh, sinh, cosh.
  pose proof (exp_pos x). pose proof (exp_pos (- x)). field. lra.
Qed.

Lemma tanh_bound (x : R) : -1 < tanh x < 1.
Proof.
  rewrite tanh_exp.
  pose proof (exp_pos x) as Hx. pose proof (exp_pos (- x)) as Hy.
  set (a := exp x) in *. set (b := exp (- x)) in *.
  assert (Hs : 0 < a + b) by lra.
  split.
  - apply (Rmult_lt_reg_r (a + b)); [exact Hs|].
    unfold Rdiv. rewrite Rmult_assoc, Rinv_l by lra. lra.
  - apply (Rmult_lt_reg_r (a + b)); [exact Hs|].
    unfold Rdiv. rewrite Rmult_assoc, Rinv_l by lra. lra.
Qed.

Lemma tanh_odd (x : R) : tanh (- x) = - tanh x.
Proof.
  rewrite !tanh_exp, Ropp_involutive.
  pose proof (exp_pos x). pose proof (exp_pos (- x)). field. lra.
Qed.



(** X21. Lines 32 and 33: over the real numbers [LeCun] is an odd function with
    values strictly between -1.7159 and 1.7159; in particular it maps 0
    to 0. *)
Theorem LeCun_odd_and_bounded (x : R) :
  LeCun_forward (- x) = - LeCun_forward x /\
  Rabs (LeCun_forward x) < 17159 / 10000 /\
  LeCun_forward 0 = 0.
Proof.
  unfold LeCun_forward. cbn [smul stanh lit scalar backend].
  assert (E1 : Q2R (17159 # 10000) = 17159 / 10000)
    by (unfold Q2R; simpl; lra).
  rewrite E1. split; [|split].
  - replace (Q2R (666 # 1000) * - x) with (- (Q2R (666 # 1000) * x)) by ring.
    rewrite tanh_odd. ring.
  - pose proof (tanh_bound (Q2R (666 # 1000) * x)) as [H1 H2].
    apply Rabs_def1; nra.
  - rewrite Rmult_0_r. unfold tanh. rewrite sinh_0. unfold Rdiv. ring.
Qed.






Lemma unit_variates_uniform (lo hi : R) (g : generator) :
  unit_variates g -> unit_variates (snd (uniform lo hi g)).
Proof. intros H n. exact (H n). Qed.

Lemma uniform_symmetric_bound (a : R) (g : generator) :
  0 <= a -> unit_variates g -> Rabs (fst (uniform (sneg a) a g)) <= a.
Proof.
  intros Ha Hg. cbn [uniform sneg fst backend]. unfold draw.
  pose proof (Hg (pos g)) as [H0 H1].
  apply Rabs_le. nra.
Qed.

Lemma xavier_bound_eq (h : nat) :
  smul (ssqrt (lit (3 # 1)))
    (smul one (ssqrt (sdiv (lit (2 # 1)) (of_nat (h + 1)))))
  = sqrt 3 * sqrt (2 / INR (h + 1)).
Proof.
  cbn [smul ssqrt lit sdiv of_nat one scalar backend].
  replace (Q2R (3 # 1)) with 3 by (unfold Q2R; simpl; lra).
  replace (Q2R (2 # 1)) with 2 by (unfold Q2R; simpl; lra).
  ring.
Qed.

Lemma xavier_bound_small (h : nat) :
  (6 <= h)%nat -> sqrt 3 * sqrt (2 / INR (h + 1)) < 1.
Proof.
  intros Hh.
  assert (Hn : 7 <= INR (h + 1)).
  { replace 7 with (INR 7) by (simpl; lra). apply le_INR. lia. }
  assert (Hp : 0 < 2 / INR (h + 1)) by (apply Rdiv_lt_0_compat; lra).
  rewrite <- sqrt_mult by lra.
  rewrite <- sqrt_1. apply sqrt_lt_1_alt. split; [nra|].
  apply (Rmult_lt_reg_r (INR (h + 1))); [lra|].
  unfold Rdiv. rewrite !Rmult_assoc, Rinv_l by lra. lra.
Qed.

(** X25. Lines 122 to 127 with 151 to 154: in the modes "pure" and
    "neuromodulated", and with a generator whose variates lie in the unit
    interval, the parameters [w_tau] and [A] of a constructed cell are rows
    of [hidden_size] entries of magnitude at most
    [sqrt(3) * sqrt(2 / (hidden_size + 1))], the bound of
    [xavier_uniform_]; from [hidden_size = 6] on this is below 1, so that no
    entry of [A] is 1. *)
Theorem init_tau_head_within_xavier_bound (n_in hidden : nat)
  (md act : string) (units layers : nat) (p : R) (mask : option (list (list R)))
  (dims : option (list nat)) (nact : act_kind) (g : generator) :
  valid_args hidden md act units layers p dims = true ->
  ((md =? "pure") || (md =? "neuromodulated"))%string = true ->
  unit_variates g ->
  exists c g' wt a wr ar,
    CfCCell_init n_in hidden md act units layers p mask dims nact g
    = (Ok c, g') /\
    w_tau c = Some wt /\ A c = Some a /\
    data wt = T2 [wr] /\ data a = T2 [ar] /\
    length wr = hidden /\ length ar = hidden /\
    Forall (fun e => Rabs e <= sqrt 3 * sqrt (2 / INR (hidden + 1))) wr /\
    Forall (fun e => Rabs e <= sqrt 3 * sqrt (2 / INR (hidden + 1))) ar /\
    ((6 <= hidden)%nat -> Forall (fun e => e < 1) ar).
Proof.
  intros Hv Hm Hg.
  pose proof (CfCCell_init_ok (B := backend) n_in hidden md act units layers p
                mask dims nact g Hv)
    as (c0 & g0 & c & g2 & g3 & g' & Ha & Hc & Hwt & HA & Htau & _).
  destruct (Htau Hm) as [Ewt EA]. rewrite Ewt in Hwt. rewrite EA in HA.
  pose proof (CfCCell_attributes_gen_inv (B := backend) unit_variates
                unit_variates_uniform _ _ _ _ _ _ _ _ _ _ _ _ _ Hg Ha) as Hg0.
  set (Q := fun e : R => Rabs e <= sqrt 3 * sqrt (2 / INR (hidden + 1))).
  assert (HQ : forall r : list R, length r = hidden ->
            forall s0 : generator, unit_variates s0 ->
            let b := smul (ssqrt (lit (3 # 1)))
                       (smul one (ssqrt (sdiv (lit (2 # 1))
                                           (of_nat (length r + 1))))) in
            Q (fst (uniform (sneg b) b s0))).
  { intros r Lr s0 Hs0. cbv zeta. rewrite Lr, xavier_bound_eq. unfold Q.
    apply uniform_symmetric_bound; [|exact Hs0].
    apply Rmult_le_pos; apply sqrt_pos. }
  cbn [optM] in Hwt, HA.
  apply bind_inv in Hwt. destruct Hwt as (wt & s1 & Hwt & Hr1).
  apply ret_inv in Hr1 as [Ewt' ->].
  apply bind_inv in HA. destruct HA as (a & s2 & HA & Hr2).
  apply ret_inv in Hr2 as [EA' ->].
  unfold init_param in Hwt, HA.
  cbn [zeros_param ones_param data requires_grad dim Nat.eqb andb] in Hwt, HA.
  fold (zeros_param hidden) in Hwt. fold (ones_param hidden) in HA.
  pose proof (xavier_row_inv (B := backend) unit_variates
                unit_variates_uniform (zeros_param hidden) wt
                (repeat zero hidden) Q g0 s1 eq_refl
                (HQ _ (repeat_length _ _)) Hg0 Hwt)
    as (wr & Dw & Lw & Qw & Hg1).
  pose proof (xavier_row_inv (B := backend) unit_variates
                unit_variates_uniform (ones_param hidden) a
                (repeat one hidden) Q s1 s2 eq_refl
                (HQ _ (repeat_length _ _)) Hg1 HA)
    as (ar & Da & La & Qa & _).
  rewrite repeat_length in Lw, La.
  exists c, g', wt, a, wr, ar.
  split; [exact Hc|]. do 2 (split; [congruence|]).
  do 6 (split; [assumption|]).
  intros Hh. pose proof (xavier_bound_small hidden Hh) as Hb.
  apply Forall_impl with (2 := Qa). unfold Q. intros e He.
  pose proof (Rle_abs e). lra.
Qed.

End RealProperties.

(** ** The further properties at concrete cells *)

Module ConcreteMore.
Import RealBackend Examples MoreExamples.

Local Open Scope R_scope.

Lemma pure_not_neuromodulated : mode pure_cell <> "neuromodulated"%string.
Proof. discriminate. Defined.

Lemma forward_rejects_input_kind_witness :
  (mode neuromodulated_cell = "neuromodulated"%string /\
   forward (Tensor (T2 [[1]])) (T2 [[0]]) (T0 0)
     {| self := neuromodulated_cell; gen := all_zero |}
   = (Raise (AssertionError not_tuple_msg),
      {| self := neuromodulated_cell; gen := all_zero |})) /\
  (mode pure_cell <> "neuromodulated"%string /\
   exists msg,
     forward (Tuple (T2 [[1]]) (T2 [[1]])) (T2 [[0]]) (T0 0)
       {| self := pure_cell; gen := all_zero |}
     = (Raise (TypeError msg), {| self := pure_cell; gen := all_zero |})).
Proof.
  split.
  - split; [reflexivity|].
    exact (proj1 (proj1 (forward_rejects_input_kind neuromodulated_cell
                           all_zero (T2 [[1]]) (T2 [[0]]) (T0 0) (T2 [[1]])
                           (T2 [[1]])) eq_refl)).
  - split; [exact pure_not_neuromodulated|].
    exact (proj2 (forward_rejects_input_kind pure_cell all_zero (T2 [[1]])
                    (T2 [[0]]) (T0 0) (T2 [[1]]) (T2 [[1]]))
             pure_not_neuromodulated).
Defined.

Lemma change_network_wrong_mode_witness :
  mode pure_cell <> "neuromodulated"%string /\
  change_neuromodulation_network []
    {| self := pure_cell; gen := all_zero |}
  = (Raise (AssertionError not_neuromodulated_msg),
     {| self := pure_cell; gen := all_zero |}).
Proof.
  split; [exact pure_not_neuromodulated|].
  exact (proj1 (change_network_wrong_mode pure_cell [] all_zero
                  pure_not_neuromodulated)).
Defined.

Lemma init_unknown_activation_witness :
  existsb (String.eqb "pure") allowed_modes = true /\
  existsb (String.eqb "swish") activations = false /\
  CfCCell_init 1 1 "pure" "swish" 128 1 0 None None Tanh all_zero
  = (Raise (ValueError "Unknown activation swish"), all_zero).
Proof.
  split; [reflexivity|]. split; [reflexivity|].
  exact (proj1 (init_unknown_activation 1 1 "pure" "swish" 128 1 0 None None
                  Tanh all_zero eq_refl eq_refl)).
Defined.

Lemma init_empty_dims_witness :
  exists g',
    CfCCell_init 1 1 "neuromodulated" "tanh" 128 0 0 None (Some []) Tanh
      all_zero
    = (Raise (IndexError "list index out of range"), g').
Proof.
  destruct (init_empty_dims (B := backend) 1 1 "tanh" 128 0 0 None Tanh all_zero
              eq_refl eq_refl eq_refl) as (g' & H & _).
  exists g'. exact H.
Defined.

Lemma init_invalid_dropout_witness :
  (2 <= 2)%nat /\ sltb zero 2 = true /\ sltb one 2 = true /\
  exists g',
    CfCCell_init 1 1 "pure" "tanh" 128 2 2 None None Tanh all_zero
    = (Raise (ValueError "dropout probability has to be between 0 and 1"), g').
Proof.
  assert (H0 : sltb zero 2 = true).
  { cbn [sltb zero backend]. unfold Rltb.
    destruct (Rlt_dec 0 2) as [H|H]; [reflexivity|exfalso; lra]. }
  assert (H1 : sltb one 2 = true).
  { cbn [sltb one backend]. unfold Rltb.
    destruct (Rlt_dec 1 2) as [H|H]; [reflexivity|exfalso; lra]. }
  split; [exact (le_n 2)|]. split; [exact H0|]. split; [exact H1|].
  pose proof (init_invalid_dropout 1 1 "pure" "tanh" 128 2 2 None None Tanh
                all_zero eq_refl eq_refl (le_n 2) H0 H1) as (g' & H & _).
  exists g'. exact H.
Defined.

Lemma one_row_not_two : length [[1]] <> length [[0]; [0]].
Proof. discriminate. Defined.

Lemma forward_batch_mismatch_witness :
  length [[1]] <> length [[0]; [0]] /\
  exists msg,
    forward (Tensor (T2 [[1]])) (T2 [[0]; [0]]) (T0 0)
      {| self := pure_cell; gen := all_zero |}
    = (Raise (RuntimeError msg), {| self := pure_cell; gen := all_zero |}).
Proof.
  split; [exact one_row_not_two|].
  exact (forward_batch_mismatch pure_cell [[1]] [[0]; [0]] (T2 [[1]]) (T0 0)
           all_zero one_row_not_two).
Defined.

Lemma forward_twice_witness :
  cell_wf pure_cell /\
  exists h1 w1 h2 w2,
    forward (Tensor (T2 [[1]])) (T2 [[0]]) (T0 0)
      {| self := pure_cell; gen := all_zero |} = (Ok (h1, h1), w1) /\
    cell_wf (self w1) /\
    forward (Tensor (T2 [[2]])) h1 (T0 1) w1 = (Ok (h2, h2), w2) /\
    is_mat h2 1 (hidden_size pure_cell) /\
    cell_wf (self w2).
Proof.
  split; [reflexivity|].
  exact (forward_twice pure_cell (Tensor (T2 [[1]])) (Tensor (T2 [[2]]))
           (T2 [[0]]) (T0 0) (T0 1) 1 all_zero
           eq_refl eq_refl eq_refl eq_refl eq_refl eq_refl).
Defined.

Lemma zero_mask_gives_bias_witness :
  Linear_wf (linear_layer [[1; 0]] [5]) 2 1 /\
  masked_linear (Some zero_mask) (linear_layer [[1; 0]] [5])
    (T2 [[1; 2]; [3; 4]])
  = Ok (T2 [[5]; [5]]).
Proof.
  split; [reflexivity|].
  apply (zero_mask_gives_bias zero_mask (linear_layer [[1; 0]] [5])
           [[1; 2]; [3; 4]] [[0; 0]] [5] 2 2 1).
  - reflexivity.
  - reflexivity.
  - split; [reflexivity|]. repeat constructor.
  - reflexivity.
  - split; [reflexivity|]. repeat constructor.
  - repeat constructor.
Defined.

Lemma init_backbone_architecture_witness :
  valid_args 1 "pure" "relu" 3 2 0 None = true /\
  exists c g' k,
    CfCCell_init 2 1 "pure" "relu" 3 2 0 None None Tanh all_zero = (Ok c, g') /\
    select_activation "relu" all_zero = (Ok k, all_zero) /\
    backbone_layers c = 2%nat /\
    match backbone c with
    | Some bb =>
        (0 < 2)%nat /\ Forall2 has_sig (backbone_sigs 2 1 k 3 2 0) bb
    | None => 2%nat = 0%nat
    end.
Proof.
  assert (Hv : valid_args 1 "pure" "relu" 3 2 0 None = true).
  { unfold valid_args, dropout_valid.
    cbn [existsb allowed_modes activations String.eqb Ascii.eqb Bool.eqb
         orb andb Nat.ltb Nat.leb Nat.eqb neuromod_dims_valid sltb zero one
         backend negb].
    unfold Rltb. destruct (Rlt_dec 0 0) as [H|H]; [exfalso; lra|].
    reflexivity. }
  split; [exact Hv|].
  exact (init_backbone_architecture 2 1 "pure" "relu" 3 2 0 None None Tanh
           all_zero Hv).
Defined.

Lemma init_attributes_by_mode_witness :
  valid_args 1 "no_gate" "tanh" 128 0 0 None = true /\
  exists c g',
    CfCCell_init 1 1 "no_gate" "tanh" 128 0 0 None None Tanh all_zero
    = (Ok c, g') /\
    w_tau c = None /\ A c = None /\ neuromod c = None /\
    exists l2 la lb,
      ff2 c = Some l2 /\ time_a c = Some la /\ time_b c = Some lb /\
      Linear_wf l2 2 1 /\ Linear_wf la 2 1 /\ Linear_wf lb 2 1.
Proof.
  split; [reflexivity|].
  exact (init_attributes_by_mode 1 1 "no_gate" "tanh" 128 0 0 None None Tanh
           all_zero eq_refl).
Defined.


Lemma init_stores_mask_witness :
  valid_args 1 "pure" "tanh" 128 0 0 None = true /\
  exists c g' z,
    CfCCell_init 1 1 "pure" "tanh" 128 0 0 (Some [[1]; [-1]]) None Tanh
      all_zero = (Ok c, g') /\
    sparsity_mask c = Some {| data := T2 z; requires_grad := false |} /\
    has_shape z 1 2 /\
    forall i j, (i < 2)%nat -> (j < 1)%nat ->
                entry z j i = Rabs (entry [[1]; [-1]] i j).
Proof.
  split; [reflexivity|].
  apply (init_stores_mask (B := backend) 1 1 "pure" "tanh" 128 0 0 [[1]; [-1]] None Tanh
           all_zero eq_refl).
  split; [reflexivity|]. repeat constructor.
Defined.

Lemma init_then_forward_witness :
  valid_args 1 "default" "tanh" 128 0 0 None = true /\
  exists c g',
    CfCCell_init 1 1 "default" "tanh" 128 0 0 None None Tanh all_zero
    = (Ok c, g') /\
    forall (input : py_input) (hx ts : tensor) (batch : nat) (g1 : rng),
      input_okb c input batch = true ->
      is_mat hx batch 1 -> ts_ok ts batch 1 ->
      exists nh w',
        forward input hx ts {| self := c; gen := g1 |} = (Ok (nh, nh), w') /\
        is_mat nh batch 1.
Proof.
  split; [reflexivity|].
  exact (init_then_forward 1 1 "default" "tanh" 128 0 0 None None Tanh
           all_zero eq_refl I).
Defined.

Lemma tau_system_lifecycle_witness :
  valid_args 1 "pure" "tanh" 128 0 0 None = true /\
  exists c g',
    CfCCell_init 1 1 "pure" "tanh" 128 0 0 None None Tanh all_zero
    = (Ok c, g') /\
    tau_system c = {| data := T1 [1]; requires_grad := false |} /\
    forall (input : py_input) (hx ts : tensor) (batch : nat) (g1 : rng),
      input_okb c input batch = true ->
      is_mat hx batch 1 -> ts_ok ts batch 1 ->
      exists out w',
        forward input hx ts {| self := c; gen := g1 |} = (Ok out, w') /\
        requires_grad (tau_system (self w')) = false /\
        is_mat (data (tau_system (self w'))) batch 1.
Proof.
  split; [reflexivity|].
  exact (tau_system_lifecycle 1 1 "pure" "tanh" 128 0 0 None None Tanh
           all_zero eq_refl I).
Defined.




Lemma neuromodulated_tau_ignores_policy_witness :
  exists out1 out2 w1 w2,
    forward (Tuple (@T2 backend [[1]]) (T2 [[3]])) (T2 [[0]]) (T0 0)
      {| self := neuromodulated_cell; gen := all_zero |} = (Ok out1, w1) /\
    forward (Tuple (T2 [[2]]) (T2 [[3]])) (T2 [[5]]) (T0 1)
      {| self := neuromodulated_cell; gen := all_zero |} = (Ok out2, w2) /\
    tau_system (self w1) = tau_system (self w2).
Proof.
  pose proof (forward_step neuromodulated_cell (Tuple (T2 [[1]]) (T2 [[3]]))
                (T2 [[0]]) (T0 0) 1 all_zero eq_refl eq_refl eq_refl eq_refl)
    as (h1 & c1 & g1 & H1 & _).
  pose proof (forward_step neuromodulated_cell (Tuple (T2 [[2]]) (T2 [[3]]))
                (T2 [[5]]) (T0 1) 1 all_zero eq_refl eq_refl eq_refl eq_refl)
    as (h2 & c2 & g2 & H2 & _).
  eexists; eexists; eexists; eexists.
  split; [exact H1|]. split; [exact H2|].
  exact (neuromodulated_tau_ignores_policy neuromodulated_cell _ _ _ _ _ _ _
           all_zero _ _ _ _ eq_refl eq_refl H1 H2).
Defined.







(** A layer from one feature to two. *)
Lemma two_not_hidden : 2%nat <> last [1%nat] 0%nat.
Proof. discriminate. Defined.

Lemma change_network_rejects_misfit_witness :
  seq_width [LinearLayer (linear_layer [[1]; [1]] [0; 0])] 1 = Some 2%nat /\
  exists g',
    change_neuromodulation_network
      [LinearLayer (linear_layer [[1]; [1]] [0; 0])]
      {| self := neuromodulated_cell; gen := all_zero |}
    = (Raise (ValueError (wrong_input_size_msg 1)),
       {| self := neuromodulated_cell; gen := g' |}).
Proof.
  split; [reflexivity|].
  pose proof (change_network_rejects_misfit neuromodulated_cell 1 []
                [LinearLayer (linear_layer [[1]; [1]] [0; 0])] all_zero
                eq_refl eq_refl
                (or_intror (ex_intro _ 2%nat (conj eq_refl two_not_hidden))))
    as (g' & H & _).
  exists g'. exact H.
Defined.

Lemma init_weights_again_witness :
  valid_args 1 "pure" "tanh" 128 0 0 None = true /\
  exists c g',
    CfCCell_init 1 1 "pure" "tanh" 128 0 0 None None Tanh all_zero
    = (Ok c, g') /\
    forall g1, exists c' g2,
      init_weights c g1 = (Ok c', g2) /\
      cell_wf c' /\
      sparsity_mask c' = sparsity_mask c /\
      tau_system c' = tau_system c /\
      mode c' = mode c /\ input_size c' = input_size c /\
      hidden_size c' = hidden_size c /\
      neuromod_network_dims c' = neuromod_network_dims c.
Proof.
  split; [reflexivity|].
  exact (init_weights_again 1 1 "pure" "tanh" 128 0 0 None None Tanh all_zero
           eq_refl I).
Defined.

Lemma all_zero_unit_variates : RealGenerators.unit_variates all_zero.
Proof. intros n. cbn [variates all_zero]. split; [apply Rle_refl|exact Rle_0_1]. Defined.

Lemma init_tau_head_within_xavier_bound_witness :
  valid_args 6 "pure" "tanh" 128 0 0 None = true /\
  RealGenerators.unit_variates all_zero /\
  exists c g' wt a wr ar,
    CfCCell_init 1 6 "pure" "tanh" 128 0 0 None None Tanh all_zero
    = (Ok c, g') /\
    w_tau c = Some wt /\ A c = Some a /\
    data wt = T2 [wr] /\ data a = T2 [ar] /\
    length wr = 6%nat /\ length ar = 6%nat /\
    Forall (fun e => Rabs e <= sqrt 3 * sqrt (2 / INR (6 + 1))) wr /\
    Forall (fun e => Rabs e <= sqrt 3 * sqrt (2 / INR (6 + 1))) ar /\
    ((6 <= 6)%nat -> Forall (fun e => e < 1) ar).
Proof.
  split; [reflexivity|]. split; [exact all_zero_unit_variates|].
  exact (RealProperties.init_tau_head_within_xavier_bound 1 6 "pure" "tanh"
           128 0 0 None None Tanh all_zero eq_refl eq_refl
           all_zero_unit_variates).
Defined.

End ConcreteMore.
